(** * Price scrapers for noon.com, namshi.com and amazon.ae: a shallow embedding

    The development follows the four Python modules
    [simple_noon_scraper.py], [simple_namshi_scraper.py],
    [simple_amazon_scraper.py] and [unified_scraper.py].

    - [Py]       the part of the Python runtime the scrapers rely on:
                 [str] as a sequence of code points, exceptions, [float]
                 as IEEE 754 binary64, [float()], [repr], [int()];
    - [Re]       the fragment of the [re] module used by the patterns;
    - [Dom]      what Selenium exposes of a page and of its elements;
    - [Noon], [Namshi], [Amazon], [Unified]  one module per source file.

    Definitions come first, the properties follow. *)

From Stdlib Require Import ZArith List String Ascii Bool Lia.
From Stdlib Require Import Floats.SpecFloat.
Import ListNotations.
Local Open Scope Z_scope.

(* ===================================================================== *)
(** * The Python runtime                                                  *)
(* ===================================================================== *)

Module Py.

(** ** Strings

    A Python [str] is a sequence of Unicode code points. *)

Definition str := list Z.

(** String literals of this file are UTF-8 encoded; [u] decodes them. *)

Fixpoint utf8_decode (bs : list Z) : str :=
  match bs with
  | [] => []
  | b0 :: r0 =>
    if b0 <? 192 then b0 :: utf8_decode r0
    else if b0 <? 224 then
      match r0 with
      | b1 :: r1 => ((b0 - 192) * 64 + (b1 - 128)) :: utf8_decode r1
      | _ => [b0]
      end
    else if b0 <? 240 then
      match r0 with
      | b1 :: b2 :: r2 =>
        ((b0 - 224) * 4096 + (b1 - 128) * 64 + (b2 - 128)) :: utf8_decode r2
      | _ => b0 :: r0
      end
    else
      match r0 with
      | b1 :: b2 :: b3 :: r3 =>
        ((b0 - 240) * 262144 + (b1 - 128) * 4096 + (b2 - 128) * 64 + (b3 - 128))
          :: utf8_decode r3
      | _ => b0 :: r0
      end
  end.

Definition u (s : string) : str :=
  utf8_decode (List.map (fun a => Z.of_N (N_of_ascii a)) (list_ascii_of_string s)).

(** What depends on the interpreter at hand: its Unicode character database,
    consulted for the code points from 128 on (the ASCII range is fixed
    below), and the limit it puts on the length of integer literals. *)

Class Runtime := {
  uc_isspace : Z -> bool;          (* [str.isspace], [\s], [str.strip] *)
  uc_decimal : Z -> option Z;      (* category Nd with its value: [\d], [float()], [int()] *)
  uc_isdigit : Z -> bool;          (* [str.isdigit] *)
  uc_isalnum : Z -> bool;          (* [str.isalnum], [\w] *)
  uc_lower : Z -> list Z;          (* full lower-case mapping of [str.lower] *)
  uc_tolower : Z -> Z;             (* simple lower-case mapping of [re.IGNORECASE] *)
  uc_cased : Z -> bool;
  uc_case_ignorable : Z -> bool;
  int_max_str_digits : option Z    (* [sys.get_int_max_str_digits()], if limited *)
}.

(** A database that knows nothing beyond ASCII. *)

Definition ascii_only : Runtime := {|
  uc_isspace := fun _ => false;
  uc_decimal := fun _ => None;
  uc_isdigit := fun _ => false;
  uc_isalnum := fun _ => false;
  uc_lower := fun c => [c];
  uc_tolower := fun c => c;
  uc_cased := fun _ => false;
  uc_case_ignorable := fun _ => false;
  int_max_str_digits := Some 4300
|}.

Definition in_range (lo hi c : Z) : bool := (lo <=? c) && (c <=? hi).

Definition is_ascii (c : Z) : bool := c <? 128.

Definition ascii_upper (c : Z) : bool := in_range 65 90 c.
Definition ascii_lower (c : Z) : bool := in_range 97 122 c.
Definition ascii_digit (c : Z) : bool := in_range 48 57 c.

Section Chars.
Context {R : Runtime}.

(** [Py_UNICODE_ISSPACE]: in ASCII, TAB..CR, FS..US and the space. *)
Definition isspace (c : Z) : bool :=
  if is_ascii c then in_range 9 13 c || in_range 28 31 c || (c =? 32)
  else uc_isspace c.

(** [Py_UNICODE_TODECIMAL]. *)
Definition decimal (c : Z) : option Z :=
  if is_ascii c then (if ascii_digit c then Some (c - 48) else None)
  else match uc_decimal c with
       | Some d => if in_range 0 9 d then Some d else None
       | None => None
       end.

Definition isdecimal (c : Z) : bool :=
  match decimal c with Some _ => true | None => false end.

Definition isdigit_char (c : Z) : bool :=
  if is_ascii c then ascii_digit c else uc_isdigit c.

Definition isalnum_char (c : Z) : bool :=
  if is_ascii c then ascii_digit c || ascii_upper c || ascii_lower c
  else uc_isalnum c.

Definition tolower (c : Z) : Z :=
  if is_ascii c then (if ascii_upper c then c + 32 else c) else uc_tolower c.

Definition cased (c : Z) : bool :=
  if is_ascii c then ascii_upper c || ascii_lower c else uc_cased c.

Definition case_ignorable (c : Z) : bool :=
  if is_ascii c then
    (c =? 39) || (c =? 46) || (c =? 58) || (c =? 94) || (c =? 96)
  else uc_case_ignorable c.

End Chars.

(** ** Methods of [str] *)

Definition len {A} (l : list A) : Z := Z.of_nat (List.length l).

Fixpoint str_eqb (a b : str) : bool :=
  match a, b with
  | [], [] => true
  | x :: a', y :: b' => (x =? y) && str_eqb a' b'
  | _, _ => false
  end.

Fixpoint startswith (p s : str) : bool :=
  match p, s with
  | [], _ => true
  | a :: p', b :: s' => (a =? b) && startswith p' s'
  | _ :: _, [] => false
  end.

Definition endswith (p s : str) : bool := startswith (rev p) (rev s).

(** [sub in s] *)
Fixpoint contains (sub s : str) {struct s} : bool :=
  match s with
  | [] => startswith sub []
  | _ :: r => startswith sub s || contains sub r
  end.

(** [s.replace(old, new)] for a non-empty [old]: occurrences are replaced
    from the left and do not overlap; [skip] counts the characters of the
    occurrence just replaced that are still to be dropped. *)
Fixpoint replace_go (old new : str) (skip : nat) (s : str) : str :=
  match s with
  | [] => []
  | c :: r =>
    match skip with
    | S k => replace_go old new k r
    | O => if startswith old s
           then new ++ replace_go old new (pred (List.length old)) r
           else c :: replace_go old new O r
    end
  end.

Definition replace (old new s : str) : str := replace_go old new O s.

(** [s.split(sep)] for a non-empty [sep]. *)
Fixpoint split_go (sep : str) (skip : nat) (cur_rev : str) (s : str) : list str :=
  match s with
  | [] => [rev cur_rev]
  | c :: r =>
    match skip with
    | S k => split_go sep k cur_rev r
    | O => if startswith sep s
           then rev cur_rev :: split_go sep (pred (List.length sep)) [] r
           else split_go sep O (c :: cur_rev) r
    end
  end.

Definition split (sep s : str) : list str := split_go sep O [] s.

(** [sep.join(parts)] *)
Fixpoint join (sep : str) (parts : list str) : str :=
  match parts with
  | [] => []
  | [p] => p
  | p :: ps => p ++ sep ++ join sep ps
  end.

(** The slice [s[:n]]. *)
Definition slice_to {A} (n : nat) (s : list A) : list A := firstn n s.

Section Strings.
Context {R : Runtime}.

Fixpoint lstrip (s : str) : str :=
  match s with
  | [] => []
  | c :: r => if isspace c then lstrip r else s
  end.

Definition rstrip (s : str) : str := rev (lstrip (rev s)).

Definition strip (s : str) : str := rstrip (lstrip s).

Definition isdigit (s : str) : bool :=
  match s with [] => false | _ => forallb isdigit_char s end.

Definition lower_char (c : Z) : str :=
  if is_ascii c then [tolower c] else uc_lower c.

Fixpoint first_not_ignorable (s : str) : option Z :=
  match s with
  | [] => None
  | c :: r => if case_ignorable c then first_not_ignorable r else Some c
  end.

(** A capital sigma is lowered to the final form after a cased character
    and before none. *)
Definition final_sigma (before_rev after : str) : bool :=
  match first_not_ignorable before_rev with
  | Some c =>
    cased c && match first_not_ignorable after with
               | None => true
               | Some d => negb (cased d)
               end
  | None => false
  end.

Fixpoint lower_go (before_rev s : str) : str :=
  match s with
  | [] => []
  | c :: r =>
    (if c =? 931 then [if final_sigma before_rev r then 962 else 963]
     else lower_char c) ++ lower_go (c :: before_rev) r
  end.

Definition lower (s : str) : str := lower_go [] s.

End Strings.

(** ** Exceptions *)

Inductive exn :=
  | ValueError | AttributeError | TypeError | UnicodeEncodeError
  | FileNotFoundError | OSError | ImportError
  | NoSuchElementException | WebDriverException.

Inductive result (A : Type) :=
  | Ok (a : A)
  | Raise (e : exn).
Arguments Ok {A} a.
Arguments Raise {A} e.

Definition bind {A B} (r : result A) (k : A -> result B) : result B :=
  match r with
  | Ok a => k a
  | Raise e => Raise e
  end.

(** [try: body / except <those>: handler] *)
Definition try_except {A} (body : result A) (catches : exn -> bool)
    (handler : exn -> result A) : result A :=
  match body with
  | Ok a => Ok a
  | Raise e => if catches e then handler e else Raise e
  end.

(** Every exception of [exn] derives from [Exception], so that
    [except Exception] and a bare [except] catch all of them. *)
Definition any_exception (e : exn) : bool := true.

Definition exn_eqb (a b : exn) : bool :=
  match a, b with
  | ValueError, ValueError | AttributeError, AttributeError
  | TypeError, TypeError | UnicodeEncodeError, UnicodeEncodeError
  | FileNotFoundError, FileNotFoundError | OSError, OSError
  | ImportError, ImportError
  | NoSuchElementException, NoSuchElementException
  | WebDriverException, WebDriverException => true
  | _, _ => false
  end.

Definition one_of (l : list exn) (e : exn) : bool := existsb (exn_eqb e) l.


(** ** [float]: IEEE 754 binary64 *)

Definition float := spec_float.

Definition prec : Z := 53.
Definition emax : Z := 1024.

(** The binary64 number nearest to [num / den] (ties to even), for
    [0 <= num] and [0 < den]. *)
Definition float_of_ratio (neg : bool) (num den : Z) : float :=
  match num with
  | Z0 => S754_zero neg
  | _ =>
    let '(q, e, l) := SFdiv_core_binary prec emax num 0 den 0 in
    binary_round_aux prec emax neg q e l
  end.

(** The binary64 number nearest to [m * 10 ^ e10]. *)
Definition float_of_decimal (neg : bool) (m e10 : Z) : float :=
  if 0 <=? e10 then float_of_ratio neg (m * 10 ^ e10) 1
  else float_of_ratio neg m (10 ^ (- e10)).

Definition float_of_int (n : Z) : float :=
  float_of_ratio (n <? 0) (Z.abs n) 1.

Definition float_zero : float := S754_zero false.

Definition float_le (x y : float) : bool := SFleb x y.
Definition float_lt (x y : float) : bool := SFltb x y.
Definition float_eq (x y : float) : bool := SFeqb x y.

(** Truth value of a float: everything but the two zeros. *)
Definition float_bool (x : float) : bool := negb (float_eq x float_zero).

(** *** Decimal numerals *)

Fixpoint span_digits (s : str) : str * str :=
  match s with
  | [] => ([], [])
  | c :: r =>
    if ascii_digit c then let '(d, t) := span_digits r in (c :: d, t)
    else ([], s)
  end.

Definition digits_value (ds : str) : Z :=
  fold_left (fun acc c => acc * 10 + (c - 48)) ds 0.

Fixpoint dec_digits_go (fuel : nat) (n : Z) (acc : str) : str :=
  match fuel with
  | O => acc
  | S f => if n <? 10 then (48 + n) :: acc
           else dec_digits_go f (n / 10) ((48 + n mod 10) :: acc)
  end.

(** The decimal numeral of [0 <= n]. *)
Definition dec_digits (n : Z) : str :=
  dec_digits_go (S (Z.to_nat (Z.log2 n))) n [].

(** [str(n)] for an [int]. *)
Definition str_of_int (n : Z) : str :=
  if n <? 0 then 45 :: dec_digits (- n) else dec_digits n.

Definition take_sign (s : str) : bool * str :=
  match s with
  | 45 :: r => (true, r)
  | 43 :: r => (false, r)
  | _ => (false, s)
  end.

(** Underscores may only sit between two digits. *)
Fixpoint underscores_ok (prev : Z) (s : str) : bool :=
  match s with
  | [] => negb (prev =? 95)
  | c :: r =>
    (if c =? 95 then ascii_digit prev
     else negb (prev =? 95) || ascii_digit c) && underscores_ok c r
  end.

Definition drop_underscores (s : str) : str :=
  List.filter (fun c => negb (c =? 95)) s.

Definition c_isspace (c : Z) : bool := in_range 9 13 c || (c =? 32).

Fixpoint c_lstrip (s : str) : str :=
  match s with
  | [] => []
  | c :: r => if c_isspace c then c_lstrip r else s
  end.

Definition c_strip (s : str) : str := rev (c_lstrip (rev (c_lstrip s))).

Definition ascii_lowercase (s : str) : str :=
  List.map (fun c => if ascii_upper c then c + 32 else c) s.

(** The numerals [float()] accepts once blanks and underscores are gone:
    a sign, then [inf], [infinity], [nan], or digits with at most one
    point and an optional exponent. *)
Definition strtod (s : str) : option float :=
  let '(neg, body) := take_sign s in
  let lb := ascii_lowercase body in
  if str_eqb lb (u "inf") || str_eqb lb (u "infinity") then Some (S754_infinity neg)
  else if str_eqb lb (u "nan") then Some S754_nan
  else
    let '(ip, r1) := span_digits body in
    let '(fp, r2) := match r1 with
                     | 46 :: r => span_digits r
                     | _ => ([], r1)
                     end in
    match ip ++ fp with
    | [] => None
    | ds =>
      match r2 with
      | [] => Some (float_of_decimal neg (digits_value ds) (- len fp))
      | c :: r3 =>
        if (c =? 101) || (c =? 69) then
          let '(eneg, r4) := take_sign r3 in
          let '(ed, r5) := span_digits r4 in
          match ed, r5 with
          | _ :: _, [] =>
            let ev := digits_value ed in
            Some (float_of_decimal neg (digits_value ds)
                    ((if eneg then - ev else ev) - len fp))
          | _, _ => None
          end
        else None
      end
    end.

(** *** [repr] of a float

    The shortest decimal numeral that reads back as the same float, and
    the nearest to it among those of that length; in positional notation
    when the decimal point falls within [-4 < decpt <= 16], in scientific
    notation otherwise. *)

Fixpoint digits10_go (fuel : nat) (n : Z) : Z :=
  match fuel with
  | O => 0
  | S f => if n <? 10 then 1 else 1 + digits10_go f (n / 10)
  end.

(** [num / den < 1]: minus the number of zeros right after the point. *)
Fixpoint decpt_small (fuel : nat) (num den j : Z) : Z :=
  match fuel with
  | O => - j
  | S f => if den <=? num * 10 then - j
           else decpt_small f (num * 10) den (j + 1)
  end.

(** The position of the decimal point of [num / den], written
    [0.d1d2... * 10 ^ decpt] with [d1 <> 0]. *)
Definition decimal_point (num den : Z) : Z :=
  if den <=? num then digits10_go 400 (num / den)
  else decpt_small 400 num den 0.

(** The numeral of [n] significant digits for [x = num / den], if one
    reads back as [x]: its digits as a number and its power of ten. *)
Definition shortest_at (x : float) (num den decpt n : Z) : option (Z * Z) :=
  let sc := decpt - n in
  let '(a, b) := if 0 <=? sc then (num, den * 10 ^ sc)
                 else (num * 10 ^ (- sc), den) in
  let lo := a / b in
  let r := a mod b in
  let hi := lo + 1 in
  let ok_lo := float_eq (float_of_decimal false lo sc) x in
  let ok_hi := float_eq (float_of_decimal false hi sc) x in
  let near := if (2 * r <? b) || ((2 * r =? b) && Z.even lo) then lo else hi in
  match ok_lo, ok_hi with
  | true, true => Some (near, sc)
  | true, false => Some (lo, sc)
  | false, true => Some (hi, sc)
  | false, false => if n =? 17 then Some (near, sc) else None
  end.

Fixpoint shortest_go (fuel : nat) (x : float) (num den decpt n : Z) : Z * Z :=
  match fuel with
  | O => (0, 0)
  | S f =>
    match shortest_at x num den decpt n with
    | Some r => r
    | None => shortest_go f x num den decpt (n + 1)
    end
  end.

Fixpoint strip_zeros (fuel : nat) (d sc : Z) : Z * Z :=
  match fuel with
  | O => (d, sc)
  | S f => if (d mod 10 =? 0) && (0 <? d) then strip_zeros f (d / 10) (sc + 1)
           else (d, sc)
  end.

(** The digits and the decimal point of the shortest numeral of the
    finite positive float [m * 2 ^ e]. *)
Definition shortest_digits (m : positive) (e : Z) : str * Z :=
  let '(num, den) := if 0 <=? e then (Zpos m * 2 ^ e, 1)
                     else (Zpos m, 2 ^ (- e)) in
  let decpt := decimal_point num den in
  let '(d0, sc0) := shortest_go 17 (S754_finite false m e) num den decpt 1 in
  let '(d, sc) := strip_zeros 18 d0 sc0 in
  let ds := dec_digits d in
  (ds, sc + len ds).

Definition zeros (n : Z) : str := List.repeat 48 (Z.to_nat n).

Definition format_repr (ds : str) (decpt : Z) : str :=
  if (decpt <=? -4) || (16 <? decpt) then
    let ex := decpt - 1 in
    let mant := match ds with
                | [] => []
                | [d] => [d]
                | d :: r => d :: 46 :: r
                end in
    let ed := dec_digits (Z.abs ex) in
    mant ++ [101; if ex <? 0 then 45 else 43]
         ++ (if len ed <? 2 then 48 :: ed else ed)
  else if decpt <=? 0 then u "0." ++ zeros (- decpt) ++ ds
  else if len ds <=? decpt then ds ++ zeros (decpt - len ds) ++ u ".0"
  else firstn (Z.to_nat decpt) ds ++ [46] ++ skipn (Z.to_nat decpt) ds.

(** [repr(x)], which is also [str(x)] and what an f-string puts for [{x}]. *)
Definition float_repr (x : float) : str :=
  match x with
  | S754_nan => u "nan"
  | S754_infinity s => if s then u "-inf" else u "inf"
  | S754_zero s => if s then u "-0.0" else u "0.0"
  | S754_finite s m e =>
    let '(ds, decpt) := shortest_digits m e in
    (if s then [45] else []) ++ format_repr ds decpt
  end.

Section Numbers.
Context {R : Runtime}.

(** Blanks and decimal digits of any script become their ASCII
    counterparts, any other character beyond ASCII a question mark. *)
Definition to_ascii_numeral (s : str) : str :=
  List.map (fun c =>
    if c <? 127 then c
    else if isspace c then 32
    else match decimal c with
         | Some d => 48 + d
         | None => 63
         end) s.

(** [float(s)] for a [str]. *)
Definition float_of_str (s : str) : result float :=
  let t := c_strip (to_ascii_numeral s) in
  if underscores_ok 0 t then
    match strtod (drop_underscores t) with
    | Some x => Ok x
    | None => Raise ValueError
    end
  else Raise ValueError.

(** [int(s)] for a [str], in base 10. *)
Definition int_of_str (s : str) : result Z :=
  let t := c_strip (to_ascii_numeral s) in
  let '(neg, body) := take_sign t in
  if underscores_ok 0 body then
    let ds := drop_underscores body in
    let '(d, rest) := span_digits ds in
    match d, rest with
    | _ :: _, [] =>
      if match int_max_str_digits with
         | Some m => m <? len d
         | None => false
         end
      then Raise ValueError
      else Ok (if neg then - digits_value d else digits_value d)
    | _, _ => Raise ValueError
    end
  else Raise ValueError.

End Numbers.

(** ** Truth values *)

Definition str_bool (s : str) : bool :=
  match s with [] => false | _ => true end.

Definition opt_str_bool (o : option str) : bool :=
  match o with Some s => str_bool s | None => false end.

Definition opt_float_bool (o : option float) : bool :=
  match o with Some x => float_bool x | None => false end.

Definition list_bool {A} (l : list A) : bool :=
  match l with [] => false | _ => true end.

(** ** [urllib.parse.quote_plus] *)

Definition utf8_encode_char (c : Z) : result (list Z) :=
  if c <? 128 then Ok [c]
  else if c <? 2048 then Ok [192 + c / 64; 128 + c mod 64]
  else if in_range 55296 57343 c then Raise UnicodeEncodeError
  else if c <? 65536 then
    Ok [224 + c / 4096; 128 + (c / 64) mod 64; 128 + c mod 64]
  else
    Ok [240 + c / 262144; 128 + (c / 4096) mod 64;
        128 + (c / 64) mod 64; 128 + c mod 64].

Fixpoint utf8_encode (s : str) : result (list Z) :=
  match s with
  | [] => Ok []
  | c :: r =>
    bind (utf8_encode_char c) (fun bs =>
    bind (utf8_encode r) (fun rest => Ok (bs ++ rest)))
  end.

Definition hex_digit (n : Z) : Z := if n <? 10 then 48 + n else 55 + n.

Definition url_safe (b : Z) : bool :=
  ascii_digit b || ascii_upper b || ascii_lower b
  || (b =? 95) || (b =? 46) || (b =? 45) || (b =? 126).

Definition quote_plus (s : str) : result str :=
  bind (utf8_encode s) (fun bs =>
  Ok (flat_map (fun b =>
        if url_safe b then [b]
        else if b =? 32 then [43]
        else [37; hex_digit (b / 16); hex_digit (b mod 16)]) bs)).

(** ** [dict]

    Keys in insertion order; an assignment to a key already there keeps
    its place. *)

Definition dict (V : Type) := list (str * V).

Fixpoint dict_set {V} (k : str) (v : V) (d : dict V) : dict V :=
  match d with
  | [] => [(k, v)]
  | (k', v') :: r => if str_eqb k k' then (k, v) :: r
                     else (k', v') :: dict_set k v r
  end.

Fixpoint dict_get {V} (k : str) (d : dict V) : option V :=
  match d with
  | [] => None
  | (k', v') :: r => if str_eqb k k' then Some v' else dict_get k r
  end.

End Py.

Notation "x <- r ;; k" := (Py.bind r (fun x => k))
  (at level 61, r at next level, right associativity).

(* ===================================================================== *)
(** * The [re] module                                                     *)
(* ===================================================================== *)

Module Re.
Import Py.

(** ** Patterns

    The constructs the scrapers' patterns are made of.  A pattern has at
    most one capturing group, the group 1 of the match. *)

Inductive atom :=
  | ALit (c : Z)              (* a character *)
  | ADigit                    (* [\d] *)
  | ASpace                    (* [\s] *)
  | AWord.                    (* [\w] *)

Inductive cls :=
  | One (a : atom)
  | Among (negated : bool) (items : list atom).    (* [[...]] and [[^...]] *)

Inductive regex :=
  | Eps
  | Chr (c : cls)
  | Seq (r1 r2 : regex)
  | Alt (r1 r2 : regex)                             (* [r1|r2] *)
  | Rep (lo : nat) (hi : option nat) (r : regex)    (* greedy [r{lo,hi}] *)
  | Group (r : regex)                               (* [(r)] *)
  | Bol                                             (* [^] *)
  | Eol                                             (* [$] *)
  | WordB                                           (* [\b] *)
  | Ahead (r : regex).                              (* [(?=r)] *)

Definition star (r : regex) : regex := Rep 0 None r.
Definition plus (r : regex) : regex := Rep 1 None r.
Definition opt (r : regex) : regex := Rep 0 (Some 1%nat) r.
Definition times (lo hi : nat) (r : regex) : regex := Rep lo (Some hi) r.
Definition digit : regex := Chr (One ADigit).
Definition space : regex := Chr (One ASpace).
Definition chr (c : string) : regex :=
  match u c with
  | [x] => Chr (One (ALit x))
  | _ => Eps
  end.

Fixpoint seq (rs : list regex) : regex :=
  match rs with
  | [] => Eps
  | [r] => r
  | r :: rs' => Seq r (seq rs')
  end.

(** The characters of [s] one after the other. *)
Definition lit (s : string) : regex :=
  seq (List.map (fun c => Chr (One (ALit c))) (u s)).

(** ** Matching *)

(** A position in the subject: what is before it, last character first,
    what is after it, and the text of group 1 if it has matched. *)
Record state := mkState {
  st_before : str;
  st_after : str;
  st_group : option str
}.

Section Matching.
Context {R : Runtime}.
Variable ignorecase : bool.              (* [re.IGNORECASE] *)

Definition is_word (c : Z) : bool := isalnum_char c || (c =? 95).

Definition atom_match (a : atom) (ch : Z) : bool :=
  match a with
  | ALit c => if ignorecase then tolower ch =? tolower c else ch =? c
  | ADigit => isdecimal ch
  | ASpace => isspace ch
  | AWord => is_word ch
  end.

Definition cls_match (c : cls) (ch : Z) : bool :=
  match c with
  | One a => atom_match a ch
  | Among negated items =>
    xorb negated (existsb (fun a => atom_match a ch) items)
  end.

Definition word_at (s : str) : bool :=
  match s with
  | [] => false
  | c :: _ => is_word c
  end.

Definition consumed (st st' : state) : nat :=
  (List.length (st_after st) - List.length (st_after st'))%nat.

(** Greedy repetition: one more round of [step] is tried before leaving
    the loop; a round beyond the required ones has to consume something. *)
Fixpoint rep_loop (step : state -> list state) (fuel : nat)
    (lo : nat) (hi : option nat) (st : state) : list state :=
  let leave := match lo with O => [st] | S _ => [] end in
  match fuel with
  | O => leave
  | S f =>
    match hi with
    | Some O => leave
    | _ =>
      flat_map (fun st' =>
                  match lo, consumed st st' with
                  | O, O => []
                  | _, _ => rep_loop step f (pred lo) (option_map pred hi) st'
                  end)
               (step st) ++ leave
    end
  end.

(** The positions at which a match of [r] begun at [st] may end, in the
    order in which backtracking finds them. *)
Fixpoint ends (r : regex) (st : state) : list state :=
  match r with
  | Eps => [st]
  | Chr c =>
    match st_after st with
    | ch :: rest =>
      if cls_match c ch
      then [mkState (ch :: st_before st) rest (st_group st)]
      else []
    | [] => []
    end
  | Seq r1 r2 => flat_map (ends r2) (ends r1 st)
  | Alt r1 r2 => ends r1 st ++ ends r2 st
  | Rep lo hi r' =>
    rep_loop (ends r') (List.length (st_after st) + lo) lo hi st
  | Group r' =>
    List.map (fun st' =>
                mkState (st_before st') (st_after st')
                        (Some (firstn (consumed st st') (st_after st))))
             (ends r' st)
  | Bol => match st_before st with [] => [st] | _ => [] end
  | Eol => match st_after st with
           | [] => [st]
           | [10] => [st]
           | _ => []
           end
  | WordB => if xorb (word_at (st_before st)) (word_at (st_after st))
             then [st] else []
  | Ahead r' => match ends r' st with
                | [] => []
                | st' :: _ => [mkState (st_before st) (st_after st) (st_group st')]
                end
  end.

(** A match object: [group(0)] and [group(1)]. *)
Record match_object := mkMatch {
  group0 : str;
  group1 : option str
}.

(** The match of [r] at the position [before_rev | s], if any. *)
Definition match_at (r : regex) (before_rev s : str) : option match_object :=
  match ends r (mkState before_rev s None) with
  | [] => None
  | st' :: _ =>
    Some (mkMatch (firstn (List.length s - List.length (st_after st')) s)
                  (st_group st'))
  end.

(** [re.match(r, s)] *)
Definition match_ (r : regex) (s : str) : option match_object :=
  match_at r [] s.

Fixpoint search_from (r : regex) (before_rev s : str) : option match_object :=
  match match_at r before_rev s with
  | Some m => Some m
  | None =>
    match s with
    | [] => None
    | c :: rest => search_from r (c :: before_rev) rest
    end
  end.

(** [re.search(r, s)] *)
Definition search (r : regex) (s : str) : option match_object :=
  search_from r [] s.

(** The scan of [re.sub] and [re.findall]: matches are looked for from
    left to right and do not overlap; [skip] counts the characters of the
    last match still to be passed. *)
Fixpoint sub_go (r : regex) (repl : str) (skip : nat) (before_rev s : str) : str :=
  match s with
  | [] =>
    match skip, match_at r before_rev [] with
    | O, Some _ => repl
    | _, _ => []
    end
  | c :: rest =>
    match skip with
    | S k => sub_go r repl k (c :: before_rev) rest
    | O =>
      match match_at r before_rev s with
      | None => c :: sub_go r repl O (c :: before_rev) rest
      | Some m =>
        match List.length (group0 m) with
        | O => repl ++ c :: sub_go r repl O (c :: before_rev) rest
        | S n => repl ++ sub_go r repl n (c :: before_rev) rest
        end
      end
    end
  end.

(** [re.sub(r, repl, s)] for a replacement without back-references. *)
Definition sub (r : regex) (repl s : str) : str := sub_go r repl O [] s.

Definition the_group (m : match_object) : str :=
  match group1 m with
  | Some g => g
  | None => []
  end.

Fixpoint findall_go (r : regex) (skip : nat) (before_rev s : str) : list str :=
  match s with
  | [] =>
    match skip, match_at r before_rev [] with
    | O, Some m => [the_group m]
    | _, _ => []
    end
  | c :: rest =>
    match skip with
    | S k => findall_go r k (c :: before_rev) rest
    | O =>
      match match_at r before_rev s with
      | None => findall_go r O (c :: before_rev) rest
      | Some m =>
        the_group m :: findall_go r (pred (List.length (group0 m))) (c :: before_rev) rest
      end
    end
  end.

(** [re.findall(r, s)] for a pattern with one group: the texts of group 1. *)
Definition findall (r : regex) (s : str) : list str := findall_go r O [] s.

End Matching.

End Re.

(* ===================================================================== *)
(** * What Selenium shows of a page                                       *)
(* ===================================================================== *)

Module Dom.
Import Py.

(** A [WebElement]: each access goes to the browser and may raise. *)
#[local] Unset Elimination Schemes.
Inductive element := Element {
  el_text : result str;                               (* [.text] *)
  el_tag_name : result str;                           (* [.tag_name] *)
  el_get_attribute : str -> result (option str);      (* [.get_attribute(name)] *)
  el_find_elements : str -> result (list element)     (* [.find_elements(By.CSS_SELECTOR, sel)] *)
}.

#[local] Set Elimination Schemes.

(** [.find_element(By.CSS_SELECTOR, sel)]: the first of them. *)
Definition el_find_element (e : element) (sel : str) : result element :=
  l <- el_find_elements e sel ;;
  match l with
  | [] => Raise NoSuchElementException
  | x :: _ => Ok x
  end.

(** The page a driver shows after [driver.get(url)]. *)
Record page := Page {
  pg_title : result str;                              (* [driver.title] *)
  pg_current_url : result str;                        (* [driver.current_url] *)
  pg_page_source : result str;                        (* [driver.page_source] *)
  pg_find_css : str -> result (list element);         (* [find_elements(By.CSS_SELECTOR, sel)] *)
  pg_find_tag : str -> result (list element)          (* [find_elements(By.TAG_NAME, tag)] *)
}.

Record webdriver := WebDriver {
  wd_get : str -> result page;                        (* [driver.get(url)] *)
  wd_execute_script : str -> result unit;
  wd_quit : result unit
}.

(** What starting Chrome gives, directly and through webdriver-manager. *)
Record chrome := Chrome {
  chrome_system : result webdriver;
  chrome_managed : result webdriver
}.

(** A text file as [open(path, 'r', encoding='utf-8')] and [readlines()]
    give it: an error, or its lines with their line ends. *)
Definition file_system := str -> result (list str).

End Dom.

(* ===================================================================== *)
(** * What the three scrapers have in common                              *)
(* ===================================================================== *)

(** The three source files repeat the same loops and expressions; they are
    written once here, over the record type and the extractor of each. *)

Module Shared.
Import Py Dom.

(** A cascade [for selector in selectors: try: ... break / except: continue]
    whose body assigns only when it breaks. *)
Fixpoint first_hit {A} (selectors : list str)
    (attempt : str -> result (option A)) : option A :=
  match selectors with
  | [] => None
  | selector :: rest =>
    match attempt selector with
    | Ok (Some a) => Some a
    | Ok None | Raise _ => first_hit rest attempt
    end
  end.

Definition or_default {A} (o : option A) (d : A) : A :=
  match o with Some a => a | None => d end.

(** [(product.price_value <= max_price) if (max_price and product.price_value) else None] *)
Definition budget_flag (max_price pv : option float) : option bool :=
  if opt_float_bool max_price && opt_float_bool pv then
    match pv, max_price with
    | Some v, Some m => Some (float_le v m)
    | _, _ => None
    end
  else None.

Section Strings.
Context {R : Runtime}.

(** [[line.strip() for line in full_text.split('\n') if line.strip()]] *)
Definition stripped_lines (full_text : str) : list str :=
  List.filter str_bool (List.map strip (split [10] full_text)).

(** [any(keyword.lower() in text.lower() for keyword in keywords)] *)
Definition any_keyword (keywords : list str) (text : str) : bool :=
  existsb (fun keyword => contains (lower keyword) (lower text)) keywords.

End Strings.

Section Filter.
Context {ProductInfo : Type}.
Variable price_value : ProductInfo -> option float.
Variable extract : Dom.element -> str -> result (option ProductInfo).

(** The last loop of [search_item]: extraction, then the price filter.

    [if max_price and product_info.price_value:] tests truth values, so
    that the filter is off for a ceiling or a price that is [None] or zero. *)
Fixpoint filter_products (item_name : str) (max_price : option float)
    (elements : list Dom.element) (products : list ProductInfo)
    : list ProductInfo :=
  match elements with
  | [] => products
  | element :: rest =>
    match extract element item_name with
    | Ok (Some product_info) =>
      if opt_float_bool max_price && opt_float_bool (price_value product_info)
      then
        match price_value product_info, max_price with
        | Some pv, Some mp =>
          if float_le pv mp
          then filter_products item_name max_price rest (products ++ [product_info])
          else filter_products item_name max_price rest products
        | _, _ => filter_products item_name max_price rest products
        end
      else filter_products item_name max_price rest (products ++ [product_info])
    | Ok None | Raise _ => filter_products item_name max_price rest products
    end
  end.

End Filter.

(** ** What goes to the CSV writers *)

(** The cell [within_budget] of a CSV row:
    [(product.price_value <= max_price) if (max_price and product.price_value) else ''],
    a truth value or the empty string. *)
Inductive budget_cell :=
  | Within (b : bool)
  | Blank.

Definition budget_cell_of (max_price pv : option float) : budget_cell :=
  if opt_float_bool max_price && opt_float_bool pv then
    match pv, max_price with
    | Some v, Some m => Within (float_le v m)
    | _, _ => Blank
    end
  else Blank.

(** [value or ''] for a value that is a string or [None]. *)
Definition or_blank (value : option str) : str :=
  if opt_str_bool value then or_default value [] else [].

End Shared.

(* ===================================================================== *)
(** * simple_noon_scraper.py                                              *)
(* ===================================================================== *)

Module Noon.
Import Py Re Dom Shared.

Record ProductInfo := {
  title : str;
  price : str;
  url : str;
  image_url : option str;
  rating : option str;
  price_value : option float
}.

Record SearchItem := {
  name : str;
  max_price : option float
}.

(** The scraper object: [self.driver] is [None] until [setup_driver]. *)
Record SimpleNoonScraper := {
  headless : bool;
  driver : option webdriver
}.

(** ** The patterns *)

(** [[^\d.,]] *)
Definition not_price_char : regex :=
  Chr (Among true [ADigit; ALit 46; ALit 44]).

(** [\s+] *)
Definition blanks : regex := plus space.

(** [aed], or the dirham sign [د.إ]. *)
Definition currency : regex :=
  Alt (lit "aed") (seq [lit "د"; chr "."; lit "إ"]).

(** One to three digits, then groups of a comma and three digits. *)
Definition grouped_number : regex :=
  seq [times 1 3 digit; star (Seq (chr ",") (times 3 3 digit))].

(** A grouped number, then possibly a point and two digits. *)
Definition grouped_amount : regex :=
  seq [grouped_number; opt (Seq (chr ".") (times 2 2 digit))].

Definition price_patterns : list regex := [
  (* pattern 1: a grouped amount (group 1), blanks, the currency *)
  seq [Group grouped_amount; star space; currency];
  (* pattern 2: the currency, blanks, a grouped amount (group 1) *)
  seq [currency; star space; Group grouped_amount];
  (* pattern 3: a grouped number (group 1) between word boundaries,
     with blanks and the currency ahead *)
  seq [WordB; Group grouped_number; WordB; Ahead (Seq (star space) currency)]
].

(** A grouped number (group 1) between word boundaries. *)
Definition any_number : regex := seq [WordB; Group grouped_number; WordB].

(** [^\d+\.?\d*$] *)
Definition rating_pattern : regex :=
  seq [Bol; plus digit; opt (chr "."); star digit; Eol].

(** ** The selectors *)

Definition class_selectors : list str := [
  u "[data-qa='plp-product-box']";
  u ".ProductBoxLinkHandler_linkWrapper__b0qZ9";
  u "[class*='product']";
  u "[class*='ProductBox']";
  u "[class*='item']";
  u "[class*='card']"
].

Definition title_selectors : list str := [
  u "[data-qa='plp-product-box-name']";
  u ".ProductDetailsSection_title__JorAV";
  u "h2[title]";
  u "h2";
  u "[class*='title']"
].

Definition price_selectors : list str := [
  u ".Price_amount__2sXa7";
  u "[data-qa='plp-product-box-price'] strong";
  u ".Price_sellingPrice__HFKZf strong";
  u "[class*='Price_amount']";
  u "[class*='sellingPrice'] strong";
  u "[class*='price'] strong"
].

Definition link_selectors : list str := [
  u ".ProductBoxLinkHandler_productBoxLink__FPhjp";
  u "a[href*='/p/']";
  u "a[href*='N53433298A']";
  u "a[href*='/uae-en/']"
].

Definition image_selectors : list str := [
  u ".ProductImageCarousel_productImage__jtsOn";
  u "[class*='ProductImage'] img[src*='nooncdn']";
  u "img[src*='nooncdn'][alt*='Image 1']";
  u "img[src*='nooncdn']:not([src*='placeholder'])"
].

Definition rating_selectors : list str := [
  u ".RatingPreviewStar_textCtr__sfsJG";
  u "[class*='RatingPreview'] [class*='textCtr']";
  u "[class*='rating'] [class*='text']"
].

Definition product_keywords : list str := [
  u "iphone"; u "samsung"; u "apple"; u "gb"; u "pro"; u "max"; u "plus";
  u "aed"; u "price"; u "rating"; u "review"
].

Definition price_not_available : str := u "Price not available".

Section Scraper.
Context {R : Runtime}.

(** ** [extract_numeric_price] *)

Definition extract_numeric_price (price_str : str) : result (option float) :=
  try_except
    (let clean_price := Re.sub false not_price_char [] price_str in
     let clean_price := replace (u ",") [] clean_price in
     if contains (u ".") clean_price
     then x <- float_of_str clean_price ;; Ok (Some x)
     else x <- float_of_str clean_price ;; Ok (Some x))
    (one_of [ValueError; AttributeError])
    (fun _ => Ok None).

(** ** [setup_driver] *)

Definition setup_driver (env : chrome) (self : SimpleNoonScraper)
    : bool * SimpleNoonScraper :=
  match chrome_system env with
  | Ok d => (true, {| headless := headless self; driver := Some d |})
  | Raise _ =>
    match chrome_managed env with
    | Ok d => (true, {| headless := headless self; driver := Some d |})
    | Raise _ => (false, self)
    end
  end.

(** ** [extract_simple_product_info] *)

(** The title cascade assigns [title] before it tests it. *)
Fixpoint title_from_selectors (element : Dom.element) (selectors : list str)
    (title : option str) : option str :=
  match selectors with
  | [] => title
  | selector :: rest =>
    match (title_element <- el_find_element element selector ;;
           t <- el_text title_element ;;
           if str_bool (strip t) then Ok (Some (strip t))
           else el_get_attribute title_element (u "title")) with
    | Ok new_title =>
      if opt_str_bool new_title && (10 <? len (or_default new_title []))
      then new_title
      else title_from_selectors element rest new_title
    | Raise _ => title_from_selectors element rest title
    end
  end.

Definition title_line (line : str) : bool :=
  (10 <? len line)
  && negb (isdigit (replace (u " ") [] (replace (u ",") [] (replace (u ".") [] line))))
  && negb (contains (u "aed") (lower line))
  && negb (contains (u "%") line)
  && negb (contains (u "off") (lower line)).

Definition price_from_selectors (element : Dom.element) : option str :=
  first_hit price_selectors (fun selector =>
    price_element <- el_find_element element selector ;;
    t <- el_text price_element ;;
    let price_text := strip t in
    if str_bool price_text
       && isdigit (replace (u ".") [] (replace (u ",") [] price_text))
    then Ok (Some (if negb (contains (u "aed") (lower price_text))
                   then u "AED " ++ price_text
                   else price_text))
    else Ok None).

Fixpoint price_from_patterns (patterns : list regex) (full_text : str)
    : result (option str) :=
  match patterns with
  | [] => Ok None
  | pattern :: rest =>
    match Re.search true pattern full_text with
    | Some m =>
      let price_num := the_group m in
      let clean_num := replace (u ".") [] (replace (u ",") [] price_num) in
      if isdigit clean_num then
        n <- int_of_str clean_num ;;
        if 50 <? n then Ok (Some (u "AED " ++ price_num))
        else price_from_patterns rest full_text
      else price_from_patterns rest full_text
    | None => price_from_patterns rest full_text
    end
  end.

Fixpoint price_from_numbers (numbers : list str) : result (option str) :=
  match numbers with
  | [] => Ok None
  | num :: rest =>
    let clean_num := replace (u ",") [] num in
    if isdigit clean_num then
      n <- int_of_str clean_num ;;
      if (100 <=? n) && (n <=? 50000) then Ok (Some (u "AED " ++ num))
      else price_from_numbers rest
    else price_from_numbers rest
  end.

Fixpoint price_from_lines (lines : list str) : result (option str) :=
  match lines with
  | [] => Ok None
  | line :: rest =>
    found <- price_from_numbers (Re.findall false any_number line) ;;
    match found with
    | Some p => Ok (Some p)
    | None => price_from_lines rest
    end
  end.

Definition extract_simple_product_info (element : Dom.element) (search_term : str)
    : result (option ProductInfo) :=
  try_except
    (t <- el_text element ;;
     let full_text := strip t in
     if len full_text <? 10 then Ok None else
     (* title *)
     let title := title_from_selectors element title_selectors None in
     let title := if negb (opt_str_bool title)
                  then List.find title_line (stripped_lines full_text)
                  else title in
     let title := if negb (opt_str_bool title) then u "Unknown Product"
                  else or_default title [] in
     let title := strip (Re.sub false blanks (u " ") title) in
     let title := if 100 <? len title then slice_to 100 title ++ u "..."
                  else title in
     (* price *)
     let price := or_default (price_from_selectors element) price_not_available in
     price <-
       (if str_eqb price price_not_available then
          found <- price_from_patterns price_patterns full_text ;;
          match found with
          | Some p => Ok p
          | None =>
            found <- price_from_lines (split [10] full_text) ;;
            Ok (or_default found price)
          end
        else Ok price) ;;
     (* url *)
     q <- quote_plus search_term ;;
     let url := u "https://www.noon.com/uae-en/search?q=" ++ q in
     let url :=
       or_default
         (first_hit link_selectors (fun selector =>
            link_element <- el_find_element element selector ;;
            href <- el_get_attribute link_element (u "href") ;;
            match href with
            | Some h =>
              if str_bool h then
                Ok (Some (if startswith (u "/") h then u "https://www.noon.com" ++ h
                          else if startswith (u "http") h then h
                          else url))
              else Ok None
            | None => Ok None
            end))
         url in
     q <- quote_plus search_term ;;
     url <-
       (if endswith q url then
          tag <- el_tag_name element ;;
          if str_eqb tag (u "a") then
            href <- el_get_attribute element (u "href") ;;
            match href with
            | Some h =>
              if str_bool h && contains (u "/p/") h then
                Ok (if startswith (u "/") h then u "https://www.noon.com" ++ h else h)
              else Ok url
            | None => Ok url
            end
          else Ok url
        else Ok url) ;;
     (* image *)
     let image_url :=
       first_hit image_selectors (fun selector =>
         img_element <- el_find_element element selector ;;
         src <- el_get_attribute img_element (u "src") ;;
         match src with
         | Some v =>
           if str_bool v && negb (contains (u "placeholder") v)
              && startswith (u "http") v
           then Ok (Some v) else Ok None
         | None => Ok None
         end) in
     (* rating *)
     let rating :=
       first_hit rating_selectors (fun selector =>
         rating_element <- el_find_element element selector ;;
         t <- el_text rating_element ;;
         let rating_text := strip t in
         if str_bool rating_text then
           match Re.match_ false rating_pattern rating_text with
           | Some _ =>
             rating_val <- float_of_str rating_text ;;
             if float_le (float_of_int 0) rating_val
                && float_le rating_val (float_of_int 5)
             then Ok (Some rating_text) else Ok None
           | None => Ok None
           end
         else Ok None) in
     price_value <- extract_numeric_price price ;;
     Ok (Some {| title := title; price := price; url := url;
                 image_url := image_url; rating := rating;
                 price_value := price_value |}))
    any_exception
    (fun _ => Ok None).

End Scraper.

Section Search.
Context {R : Runtime}.

(** ** [search_item] *)

(** The inner loop of strategy 1 over the elements of one selector.  The
    list [potential_products] is appended to in place, so that what was
    appended before an exception stays. *)
Fixpoint collect_products (elements potential_products : list Dom.element)
    : list Dom.element * option exn :=
  match elements with
  | [] => (potential_products, None)
  | element :: rest =>
    match el_text element with
    | Raise e => (potential_products, Some e)
    | Ok t =>
      let text := strip t in
      if (30 <? len text) && (len text <? 1000)
         && any_keyword product_keywords text
      then collect_products rest (potential_products ++ [element])
      else collect_products rest potential_products
    end
  end.

(** Strategy 1: the selectors in turn, until one has left something. *)
Fixpoint strategy_1 (pg : page) (selectors : list str)
    (potential_products : list Dom.element) : list Dom.element :=
  match selectors with
  | [] => potential_products
  | selector :: rest =>
    match pg_find_css pg selector with
    | Raise _ => strategy_1 pg rest potential_products
    | Ok elements =>
      match collect_products elements potential_products with
      | (found, Some _) => strategy_1 pg rest found
      | (found, None) =>
        if list_bool found then found else strategy_1 pg rest found
      end
    end
  end.

(** Strategy 2: the [div]s with a substantial text, five at most. *)
Fixpoint strategy_2 (item_name : str) (all_divs potential_products : list Dom.element)
    : list Dom.element :=
  match all_divs with
  | [] => potential_products
  | div :: rest =>
    match el_text div with
    | Raise _ => strategy_2 item_name rest potential_products
    | Ok t =>
      let text := strip t in
      if (30 <? len text) && (len text <? 500)
         && any_keyword [lower item_name; u "iphone"; u "samsung"; u "aed"] text
      then
        let found := potential_products ++ [div] in
        if 5 <=? len found then found else strategy_2 item_name rest found
      else strategy_2 item_name rest potential_products
    end
  end.

(** The product elements located on the page. *)
Definition potential_products (pg : page) (item_name : str)
    : result (list Dom.element) :=
  let found := strategy_1 pg class_selectors [] in
  if negb (list_bool found) then
    all_divs <- pg_find_tag pg (u "div") ;;
    Ok (strategy_2 item_name all_divs found)
  else Ok found.

(** The body of the [try] of [search_item]. *)
Definition search_item_body (self : SimpleNoonScraper) (search_item : SearchItem)
    : result (list ProductInfo) :=
  let products := [] in
  let item_name := name search_item in
  let max_price := max_price search_item in
  search_query <- quote_plus (strip item_name) ;;
  let search_url := u "https://www.noon.com/uae-en/search?q=" ++ search_query in
  d <- match driver self with
       | Some d => Ok d
       | None => Raise AttributeError
       end ;;
  pg <- wd_get d search_url ;;
  page_title <- pg_title pg ;;
  current_url <- pg_current_url pg ;;
  if contains (u "can't be reached") (lower page_title)
     || contains (u "error") (lower page_title)
  then Ok products else
  page_source <- pg_page_source pg ;;
  if len page_source <? 1000 then Ok products else
  found <- potential_products pg item_name ;;
  Ok (filter_products price_value extract_simple_product_info
        item_name max_price (slice_to 5 found) products).

Definition search_item (self : SimpleNoonScraper) (search_item : SearchItem)
    : result (list ProductInfo) :=
  try_except (search_item_body self search_item)
    any_exception
    (fun _ => Ok []).

(** The numeric price as the messages of [search_item] show it:
    [f"(AED {product_info.price_value})"]. *)
Definition price_message (pv : float) : str := u "AED " ++ float_repr pv.

(** ** [save_results] *)

Record saved_product := {
  saved_title : str;
  saved_price : str;
  saved_price_value : option float;
  saved_url : str;
  saved_image_url : option str;
  saved_rating : option str;
  within_budget : option bool
}.

Record saved_search := {
  max_price_filter : option float;
  saved_products : list saved_product
}.

(** The value of a key of [results]: [{'products': ..., 'max_price': ...}]. *)
Record search_data := {
  data_products : list ProductInfo;
  data_max_price : option float
}.

Definition save_product (max_price : option float) (product : ProductInfo)
    : saved_product :=
  {| saved_title := title product;
     saved_price := price product;
     saved_price_value := price_value product;
     saved_url := url product;
     saved_image_url := image_url product;
     saved_rating := rating product;
     within_budget := budget_flag max_price (price_value product) |}.

(** What [save_results] hands to [json.dump]. *)
Definition save_results (results : dict search_data) : dict saved_search :=
  fold_left (fun serializable_results kv =>
               let '(item, data) := kv in
               dict_set item
                 {| max_price_filter := data_max_price data;
                    saved_products :=
                      List.map (save_product (data_max_price data)) (data_products data) |}
                 serializable_results)
            results [].

(** The search loop of [main].  The messages are left out: [print] is
    taken to succeed. *)
Definition search_all (self : SimpleNoonScraper) (items_to_search : list SearchItem)
    : result (dict search_data) :=
  fold_left (fun acc item =>
               all_results <- acc ;;
               results <- search_item self item ;;
               Ok (dict_set (name item)
                     {| data_products := results; data_max_price := max_price item |}
                     all_results))
            items_to_search (Ok []).

End Search.

Section Items.
Context {R : Runtime}.

(** ** [parse_items_from_file] *)

(** The body of the loop over the lines; the line numbers only go to the
    messages printed. *)
Definition parse_line (items : list SearchItem) (line : str)
    : result (list SearchItem) :=
  let line := strip line in
  if negb (str_bool line) || startswith (u "#") line then Ok items
  else if contains (u ",") line then
    let parts := List.map strip (split (u ",") line) in
    match parts with
    | item_name :: price_part :: _ =>
      try_except
        (max_price <- float_of_str price_part ;;
         Ok (items ++ [{| name := item_name; max_price := Some max_price |}]))
        (one_of [ValueError])
        (fun _ => Ok (items ++ [{| name := item_name; max_price := None |}]))
    | _ => Ok (items ++ [{| name := line; max_price := None |}])
    end
  else Ok (items ++ [{| name := line; max_price := None |}]).

Fixpoint parse_lines (lines : list str) (items : list SearchItem)
    : result (list SearchItem) :=
  match lines with
  | [] => Ok items
  | line :: rest =>
    items <- parse_line items line ;;
    parse_lines rest items
  end.

(** The messages of the two handlers are left out: [print] is taken to
    succeed. *)
Definition parse_items_from_file (fs : file_system) (file_path : str)
    : result (list SearchItem) :=
  try_except
    (try_except
       (lines <- fs file_path ;;
        parse_lines lines [])
       (one_of [FileNotFoundError])
       (fun _ => Ok []))
    any_exception
    (fun _ => Ok []).

End Items.

Section Main.
Context {R : Runtime}.

(** ** [save_results_csv] *)

(** A row handed to [writer.writerow]. *)
Record csv_row := {
  row_search_term : str;
  row_title : str;
  row_price : str;
  row_price_value : option float;
  row_rating : str;
  row_within_budget : budget_cell;
  row_url : str;
  row_image_url : str
}.

Definition csv_row_of (item : str) (max_price : option float) (product : ProductInfo)
    : csv_row :=
  {| row_search_term := item;
     row_title := title product;
     row_price := price product;
     row_price_value := price_value product;
     row_rating := or_blank (rating product);
     row_within_budget := budget_cell_of max_price (price_value product);
     row_url := url product;
     row_image_url := or_blank (image_url product) |}.

(** The rows [save_results_csv] writes after the header, in their order. *)
Definition save_results_csv (results : dict search_data) : list csv_row :=
  flat_map (fun kv =>
              let '(item, data) := kv in
              List.map (csv_row_of item (data_max_price data)) (data_products data))
           results.

(** ** [close] *)

Definition close (self : SimpleNoonScraper) : result unit :=
  match driver self with
  | Some d => try_except (wd_quit d) any_exception (fun _ => Ok tt)
  | None => Ok tt
  end.

(** ** [main] *)

(** The items of [--single]: a name, or a name and a ceiling. *)
Definition single_item (single : str) : result (list SearchItem) :=
  if contains (u ",") single then
    let parts := List.map strip (split (u ",") single) in
    match parts with
    | item_name :: price_part :: _ =>
      try_except
        (max_price <- float_of_str price_part ;;
         Ok [{| name := item_name; max_price := Some max_price |}])
        (one_of [ValueError])
        (fun _ => Ok [{| name := item_name; max_price := None |}])
    | _ => Ok [{| name := single; max_price := None |}]
    end
  else Ok [{| name := single; max_price := None |}].

(** How a run of [main] ends.  The messages are left out: [print] and the
    logger are taken to succeed. *)
Inductive outcome :=
  | NoItems                                (* no valid item in the file *)
  | NoBrowser                              (* [setup_driver] returned [False] *)
  | NoResults                              (* no search found a product *)
  | SavedJson (saved : dict saved_search)  (* [save_results] *)
  | SavedCsv (rows : list csv_row)         (* [save_results_csv] *)
  | Failed (e : exn).                      (* [except Exception] *)

(** [main] with the arguments [--single], [--file], [--headless] and
    [--csv]; [scraper.close()] runs in the [finally] clause. *)
Definition main (fs : file_system) (env : chrome)
    (single : option str) (file : str) (headless csv : bool) : result outcome :=
  items_to_search <-
    (if opt_str_bool single then single_item (or_default single [])
     else parse_items_from_file fs file) ;;
  if negb (opt_str_bool single) && negb (list_bool items_to_search) then Ok NoItems
  else
    let scraper := {| headless := headless; driver := None |} in
    let '(ok, scraper) := setup_driver env scraper in
    let finished :=
      try_except
        (if negb ok then Ok NoBrowser else
         all_results <- search_all scraper items_to_search ;;
         if existsb (fun kv => list_bool (data_products (snd kv))) all_results then
           if csv then Ok (SavedCsv (save_results_csv all_results))
           else Ok (SavedJson (save_results all_results))
         else Ok NoResults)
        any_exception
        (fun e => Ok (Failed e)) in
    _ <- close scraper ;;
    finished.

End Main.

End Noon.

(* ===================================================================== *)
(** * simple_namshi_scraper.py                                            *)
(* ===================================================================== *)

Module Namshi.
Import Py Re Dom Shared.

Record ProductInfo := {
  title : str;
  price : str;
  url : str;
  image_url : option str;
  rating : option str;
  price_value : option float;
  brand : option str;
  discount : option str;
  delivery_info : option str
}.

Record SearchItem := {
  name : str;
  max_price : option float
}.

Record SimpleNamshiScraper := {
  headless : bool;
  driver : option webdriver
}.

(** ** The patterns *)

(** [\s+] *)
Definition blanks : regex := plus space.

(** [\d+] *)
Definition some_digits : regex := plus digit.

(** [^\d+(\.\d+)?$] *)
Definition plain_number : regex :=
  seq [Bol; plus digit; opt (Group (Seq (chr ".") (plus digit))); Eol].

(** [aed], or the dirham sign [د.إ]. *)
Definition currency : regex :=
  Alt (lit "aed") (seq [lit "د"; chr "."; lit "إ"]).

(** [\d{1,4}(?:\.\d{2})?] *)
Definition amount : regex :=
  seq [times 1 4 digit; opt (Seq (chr ".") (times 2 2 digit))].

Definition price_patterns : list regex := [
  (* pattern 1: an amount (group 1), blanks, the currency *)
  seq [Group amount; star space; currency];
  (* pattern 2: the currency, blanks, an amount (group 1) *)
  seq [currency; star space; Group amount];
  (* pattern 3: one to four digits (group 1) between word boundaries,
     with blanks and the currency ahead *)
  seq [WordB; Group (times 1 4 digit); WordB; Ahead (Seq (star space) currency)]
].

(** [\b(\d{2,4})\b] *)
Definition standalone_number : regex :=
  seq [WordB; Group (times 2 4 digit); WordB].

(** ** The selectors *)

Definition product_selectors : list str := [
  u ".ProductBox_detailsContainer__LX4rf";
  u "[class*='ProductBox_detailsContainer']";
  u "[class*='ProductBox']";
  u "[data-testid*='product']";
  u ".product-card";
  u ".product-item"
].

Definition brand_selectors : list str := [
  u ".ProductBox_brand__oDc9f";
  u "[class*='ProductBox_brand']";
  u "[class*='brand']"
].

Definition title_selectors : list str := [
  u ".ProductBox_productTitle__6tQ3b";
  u "[class*='ProductBox_productTitle']";
  u "[class*='productTitle']";
  u "[title]";
  u "h2"; u "h3"; u "h4"
].

Definition price_selectors : list str := [
  u ".ProductPrice_value__hnFSS";
  u ".ProductPrice_sellingPrice__y8kib .ProductPrice_value__hnFSS";
  u "[class*='ProductPrice_value']";
  u "[class*='sellingPrice'] [class*='value']";
  u "[class*='price'] [class*='value']"
].

Definition old_price_selectors : list str := [
  u ".ProductPrice_preReductionPrice__S72wT";
  u "[class*='ProductPrice_oldPrice']";
  u "[class*='preReductionPrice']";
  u "[class*='oldPrice']"
].

Definition discount_selectors : list str := [
  u ".DiscountTag_value__D52x5";
  u "[class*='DiscountTag_value']";
  u "[class*='discount']"
].

Definition delivery_selectors : list str := [
  u ".RotatingElements_container__cS80Q";
  u ".DeliveryEstimateTag_content__2EErl";
  u "[class*='delivery']";
  u "[class*='DeliveryEstimate']"
].

Definition link_selectors : list str := [
  u "a[href*='/buy/']";
  u "a[href*='/uae-en/']";
  u "a"
].

Definition image_selectors : list str := [
  u "img[src*='namshi']";
  u "img[src*='cloudfront']";
  u "img:not([src*='placeholder']):not([src*='icon'])"
].

Definition price_not_available : str := u "Price not available".

Section Scraper.
Context {R : Runtime}.

(** ** [extract_numeric_price] *)

Definition extract_numeric_price (price_str : str) : result (option float) :=
  try_except
    (let clean_price := Re.sub false (Chr (Among true [ADigit; ALit 46; ALit 44])) [] price_str in
     let clean_price := replace (u ",") [] clean_price in
     if contains (u ".") clean_price
     then x <- float_of_str clean_price ;; Ok (Some x)
     else x <- float_of_str clean_price ;; Ok (Some x))
    (one_of [ValueError; AttributeError])
    (fun _ => Ok None).

(** ** [setup_driver] *)

Definition setup_driver (env : chrome) (self : SimpleNamshiScraper)
    : bool * SimpleNamshiScraper :=
  match chrome_system env with
  | Ok d => (true, {| headless := headless self; driver := Some d |})
  | Raise _ =>
    match chrome_managed env with
    | Ok d => (true, {| headless := headless self; driver := Some d |})
    | Raise _ => (false, self)
    end
  end.

(** ** [extract_namshi_product_info] *)

(** The brand cascade assigns [brand] before it tests it. *)
Fixpoint brand_from_selectors (element : Dom.element) (selectors : list str)
    (brand : option str) : option str :=
  match selectors with
  | [] => brand
  | selector :: rest =>
    match (brand_element <- el_find_element element selector ;;
           t <- el_text brand_element ;;
           Ok (strip t)) with
    | Ok new_brand =>
      if str_bool new_brand && (1 <? len new_brand) then Some new_brand
      else brand_from_selectors element rest (Some new_brand)
    | Raise _ => brand_from_selectors element rest brand
    end
  end.

(** So does the title cascade. *)
Fixpoint title_from_selectors (element : Dom.element) (selectors : list str)
    (title : option str) : option str :=
  match selectors with
  | [] => title
  | selector :: rest =>
    match (title_element <- el_find_element element selector ;;
           t <- el_text title_element ;;
           if str_bool (strip t) then Ok (Some (strip t))
           else el_get_attribute title_element (u "title")) with
    | Ok new_title =>
      if opt_str_bool new_title && (5 <? len (or_default new_title []))
      then new_title
      else title_from_selectors element rest new_title
    | Raise _ => title_from_selectors element rest title
    end
  end.

Definition title_line (line : str) : bool :=
  (5 <? len line) && (len line <? 100)
  && negb (isdigit (replace (u " ") [] (replace (u ",") [] (replace (u ".") [] line))))
  && negb (contains (u "aed") (lower line))
  && negb (contains (u "%") line)
  && negb (contains (u "delivery") (lower line))
  && negb (contains (u "free") (lower line)).

Definition is_some {A} (o : option A) : bool :=
  match o with Some _ => true | None => false end.

(** The price cascade assigns [price], then [price_value], then breaks. *)
Fixpoint price_from_selectors (element : Dom.element) (selectors : list str)
    (price : str) (price_value : option float) : str * option float :=
  match selectors with
  | [] => (price, price_value)
  | selector :: rest =>
    match (price_element <- el_find_element element selector ;;
           t <- el_text price_element ;;
           Ok (strip t)) with
    | Ok price_text =>
      if str_bool price_text && is_some (Re.match_ false plain_number price_text)
      then
        match float_of_str price_text with
        | Ok v => (u "AED " ++ price_text, Some v)
        | Raise _ =>
          price_from_selectors element rest (u "AED " ++ price_text) price_value
        end
      else price_from_selectors element rest price price_value
    | Raise _ => price_from_selectors element rest price price_value
    end
  end.

Definition old_price_from_selectors (element : Dom.element) : option str :=
  first_hit old_price_selectors (fun selector =>
    old_price_element <- el_find_element element selector ;;
    t <- el_text old_price_element ;;
    let old_price_text := strip t in
    if str_bool old_price_text
       && is_some (Re.match_ false plain_number old_price_text)
    then Ok (Some (u "AED " ++ old_price_text)) else Ok None).

Definition discount_from_selectors (element : Dom.element) : option str :=
  first_hit discount_selectors (fun selector =>
    discount_element <- el_find_element element selector ;;
    t <- el_text discount_element ;;
    let discount_text := strip t in
    if str_bool discount_text && contains (u "%") discount_text
    then Ok (Some discount_text) else Ok None).

(** The patterns in turn over the whole text: a match is taken when its
    number is above 10. *)
Fixpoint price_from_patterns (patterns : list regex) (full_text : str)
    : result (option (str * float)) :=
  match patterns with
  | [] => Ok None
  | pattern :: rest =>
    match Re.search true pattern full_text with
    | Some m =>
      let price_num := the_group m in
      if isdigit (replace (u ".") [] price_num) then
        v <- float_of_str price_num ;;
        if float_lt (float_of_int 10) v then
          v' <- float_of_str price_num ;;
          Ok (Some (u "AED " ++ price_num, v'))
        else price_from_patterns rest full_text
      else price_from_patterns rest full_text
    | None => price_from_patterns rest full_text
    end
  end.

Fixpoint price_from_numbers (numbers : list str) : result (option (str * float)) :=
  match numbers with
  | [] => Ok None
  | num :: rest =>
    n <- int_of_str num ;;
    if (50 <=? n) && (n <=? 5000) then
      v <- float_of_str num ;;
      Ok (Some (u "AED " ++ num, v))
    else price_from_numbers rest
  end.

Fixpoint price_from_lines (lines : list str) : result (option (str * float)) :=
  match lines with
  | [] => Ok None
  | line :: rest =>
    found <- price_from_numbers (Re.findall false standalone_number line) ;;
    match found with
    | Some p => Ok (Some p)
    | None => price_from_lines rest
    end
  end.

Definition extract_namshi_product_info (element : Dom.element) (search_term : str)
    : result (option ProductInfo) :=
  try_except
    (t <- el_text element ;;
     let full_text := strip t in
     if len full_text <? 10 then Ok None else
     let brand := brand_from_selectors element brand_selectors None in
     (* title *)
     let title := title_from_selectors element title_selectors None in
     let title := if negb (opt_str_bool title)
                  then List.find title_line (stripped_lines full_text)
                  else title in
     let title :=
       if opt_str_bool brand && opt_str_bool title
          && negb (contains (lower (or_default brand [])) (lower (or_default title [])))
       then or_default brand [] ++ u " " ++ or_default title []
       else if negb (opt_str_bool title) && opt_str_bool brand
       then or_default brand []
       else if negb (opt_str_bool title) then u "Unknown Product"
       else or_default title [] in
     let title := strip (Re.sub false blanks (u " ") title) in
     let title := if 100 <? len title then slice_to 100 title ++ u "..."
                  else title in
     (* price *)
     let '(price, price_value) :=
       price_from_selectors element price_selectors price_not_available None in
     let old_price := old_price_from_selectors element in
     let discount := discount_from_selectors element in
     priced <-
       (if str_eqb price price_not_available then
          found <- price_from_patterns price_patterns full_text ;;
          match found with
          | Some (p, v) => Ok (p, Some v)
          | None =>
            found <- price_from_lines (split [10] full_text) ;;
            match found with
            | Some (p, v) => Ok (p, Some v)
            | None => Ok (price, price_value)
            end
          end
        else Ok (price, price_value)) ;;
     let '(price, price_value) := priced in
     (* delivery *)
     let delivery_info :=
       first_hit delivery_selectors (fun selector =>
         delivery_element <- el_find_element element selector ;;
         t <- el_text delivery_element ;;
         let delivery_text := strip t in
         if str_bool delivery_text && (len delivery_text <? 50)
         then Ok (Some delivery_text) else Ok None) in
     (* url *)
     q <- quote_plus search_term ;;
     let url := u "https://www.namshi.com/uae-en/search?q=" ++ q in
     let url :=
       or_default
         (first_hit link_selectors (fun selector =>
            link_element <- el_find_element element selector ;;
            href <- el_get_attribute link_element (u "href") ;;
            match href with
            | Some h =>
              if str_bool h && (contains (u "/buy/") h || contains (u "/uae-en/") h)
              then
                Ok (Some (if startswith (u "/") h then u "https://www.namshi.com" ++ h
                          else if startswith (u "http") h then h
                          else url))
              else Ok None
            | None => Ok None
            end))
         url in
     (* image *)
     let image_url :=
       first_hit image_selectors (fun selector =>
         img_element <- el_find_element element selector ;;
         src <- el_get_attribute img_element (u "src") ;;
         match src with
         | Some v =>
           if str_bool v && startswith (u "http") v
              && negb (contains (u "placeholder") v)
           then Ok (Some v) else Ok None
         | None => Ok None
         end) in
     (* the price string with the discount *)
     let price :=
       match old_price, opt_str_bool discount with
       | Some o, true =>
         price ++ u " (was " ++ o ++ u ", " ++ or_default discount [] ++ u " off)"
       | Some o, false => price ++ u " (was " ++ o ++ u ")"
       | None, true => price ++ u " (" ++ or_default discount [] ++ u " off)"
       | None, false => price
       end in
     Ok (Some {| title := title; price := price; url := url;
                 image_url := image_url; rating := None;
                 price_value := price_value; brand := brand;
                 discount := discount; delivery_info := delivery_info |}))
    any_exception
    (fun _ => Ok None).

(** ** [search_item] *)

(** The first selector that finds elements gives the product elements. *)
Fixpoint strategy_1 (pg : page) (selectors : list str) : list Dom.element :=
  match selectors with
  | [] => []
  | selector :: rest =>
    match pg_find_css pg selector with
    | Ok elements => if list_bool elements then elements else strategy_1 pg rest
    | Raise _ => strategy_1 pg rest
    end
  end.

(** The fallback: the [div]s with a product-like text, ten at most. *)
Fixpoint strategy_2 (item_name : str) (all_divs potential_products : list Dom.element)
    : list Dom.element :=
  match all_divs with
  | [] => potential_products
  | div :: rest =>
    match el_text div with
    | Raise _ => strategy_2 item_name rest potential_products
    | Ok t =>
      let text := strip t in
      if (50 <? len text) && (len text <? 800)
         && any_keyword [u "aed"; u "delivery"; u "free"; u "discount"; lower item_name] text
         && is_some (Re.search false some_digits text)
      then
        let found := potential_products ++ [div] in
        if 10 <=? len found then found else strategy_2 item_name rest found
      else strategy_2 item_name rest potential_products
    end
  end.

Definition potential_products (pg : page) (item_name : str)
    : result (list Dom.element) :=
  let found := strategy_1 pg product_selectors in
  if negb (list_bool found) then
    all_divs <- pg_find_tag pg (u "div") ;;
    Ok (strategy_2 item_name all_divs found)
  else Ok found.

(** The body of the [try] of [search_item]. *)
Definition search_item_body (self : SimpleNamshiScraper) (search_item : SearchItem)
    : result (list ProductInfo) :=
  let products := [] in
  let item_name := name search_item in
  let max_price := max_price search_item in
  search_query <- quote_plus (strip item_name) ;;
  let search_url := u "https://www.namshi.com/uae-en/search?q=" ++ search_query in
  d <- match driver self with
       | Some d => Ok d
       | None => Raise AttributeError
       end ;;
  pg <- wd_get d search_url ;;
  page_title <- pg_title pg ;;
  current_url <- pg_current_url pg ;;
  if contains (u "can't be reached") (lower page_title)
     || contains (u "error") (lower page_title)
  then Ok products else
  found <- potential_products pg item_name ;;
  Ok (filter_products price_value extract_namshi_product_info
        item_name max_price (slice_to 10 found) products).

Definition search_item (self : SimpleNamshiScraper) (search_item : SearchItem)
    : result (list ProductInfo) :=
  try_except (search_item_body self search_item)
    any_exception
    (fun _ => Ok []).

(** ** [save_results] *)

Record saved_product := {
  saved_title : str;
  saved_price : str;
  saved_price_value : option float;
  saved_url : str;
  saved_image_url : option str;
  saved_brand : option str;
  saved_discount : option str;
  saved_delivery_info : option str;
  within_budget : option bool
}.

Record saved_search := {
  max_price_filter : option float;
  saved_products : list saved_product
}.

(** The value of a key of [results]: [{'products': ..., 'max_price': ...}]. *)
Record search_data := {
  data_products : list ProductInfo;
  data_max_price : option float
}.

Definition save_product (max_price : option float) (product : ProductInfo)
    : saved_product :=
  {| saved_title := title product;
     saved_price := price product;
     saved_price_value := price_value product;
     saved_url := url product;
     saved_image_url := image_url product;
     saved_brand := brand product;
     saved_discount := discount product;
     saved_delivery_info := delivery_info product;
     within_budget := budget_flag max_price (price_value product) |}.

(** What [save_results] hands to [json.dump]. *)
Definition save_results (results : dict search_data) : dict saved_search :=
  fold_left (fun serializable_results kv =>
               let '(item, data) := kv in
               dict_set item
                 {| max_price_filter := data_max_price data;
                    saved_products :=
                      List.map (save_product (data_max_price data)) (data_products data) |}
                 serializable_results)
            results [].

(** The search loop of [main].  The messages are left out: [print] is
    taken to succeed. *)
Definition search_all (self : SimpleNamshiScraper) (items_to_search : list SearchItem)
    : result (dict search_data) :=
  fold_left (fun acc item =>
               all_results <- acc ;;
               results <- search_item self item ;;
               Ok (dict_set (name item)
                     {| data_products := results; data_max_price := max_price item |}
                     all_results))
            items_to_search (Ok []).

(** ** [save_results_csv] *)

(** A row handed to [writer.writerow]. *)
Record csv_row := {
  row_search_term : str;
  row_title : str;
  row_price : str;
  row_price_value : option float;
  row_brand : str;
  row_discount : str;
  row_delivery_info : str;
  row_within_budget : budget_cell;
  row_url : str;
  row_image_url : str
}.

Definition csv_row_of (item : str) (max_price : option float) (product : ProductInfo)
    : csv_row :=
  {| row_search_term := item;
     row_title := title product;
     row_price := price product;
     row_price_value := price_value product;
     row_brand := or_blank (brand product);
     row_discount := or_blank (discount product);
     row_delivery_info := or_blank (delivery_info product);
     row_within_budget := budget_cell_of max_price (price_value product);
     row_url := url product;
     row_image_url := or_blank (image_url product) |}.

(** The rows [save_results_csv] writes after the header, in their order. *)
Definition save_results_csv (results : dict search_data) : list csv_row :=
  flat_map (fun kv =>
              let '(item, data) := kv in
              List.map (csv_row_of item (data_max_price data)) (data_products data))
           results.

(** ** [close] *)

Definition close (self : SimpleNamshiScraper) : result unit :=
  match driver self with
  | Some d => try_except (wd_quit d) any_exception (fun _ => Ok tt)
  | None => Ok tt
  end.

End Scraper.

End Namshi.

(* ===================================================================== *)
(** * simple_amazon_scraper.py                                            *)
(* ===================================================================== *)

Module Amazon.
Import Py Re Dom Shared.

Record ProductInfo := {
  title : str;
  price : str;
  url : str;
  image_url : option str;
  rating : option str;
  price_value : option float;
  review_count : option str;
  delivery_info : option str;
  availability : option str;
  discount_info : option str
}.

Record SearchItem := {
  name : str;
  max_price : option float
}.

Record SimpleAmazonScraper := {
  headless : bool;
  driver : option webdriver
}.

(** ** The patterns *)

(** [[^\d.,]] *)
Definition not_price_char : regex :=
  Chr (Among true [ADigit; ALit 46; ALit 44]).

(** [\s+] *)
Definition blanks : regex := plus space.

(** [\d+] *)
Definition some_digits : regex := plus digit.

(** [^\d+(\.\d+)?$] *)
Definition plain_number : regex :=
  seq [Bol; plus digit; opt (Group (Seq (chr ".") (plus digit))); Eol].

(** [aed], any non-digits, then group 1: digits, possibly a point and digits. *)
Definition offscreen_price : regex :=
  seq [lit "aed"; star (Chr (Among true [ADigit]));
       Group (Seq (plus digit) (opt (Seq (chr ".") (plus digit))))].

(** Group 1: digits, possibly a point, possibly more digits. *)
Definition rating_number : regex :=
  Group (seq [plus digit; opt (chr "."); star digit]).

(** Group 1: digits and commas, possibly a point and digits, possibly [k] or [K]. *)
Definition review_number : regex :=
  Group (seq [plus (Chr (Among false [ADigit; ALit 44]));
              opt (Seq (chr ".") (plus digit));
              opt (Chr (Among false [ALit 107; ALit 75]))]).

(** ** The selectors *)

Definition product_selectors : list str := [
  u "[data-component-type='s-search-result']";
  u ".s-result-item";
  u "[data-asin]";
  u ".s-card-container";
  u ".s-widget-container"
].

Definition title_selectors : list str := [
  u "h2 a span";
  u ".a-size-base-plus";
  u "h2.a-size-base-plus span";
  u "[data-cy='title-recipe'] h2 span";
  u "h2 span";
  u ".s-line-clamp-4 span";
  u "a[class*='s-link-style'] span"
].

Definition price_selectors : list str := [
  u ".a-price-whole";
  u ".a-price .a-price-whole";
  u "[data-cy='price-recipe'] .a-price-whole";
  u ".a-price-symbol + .a-price-whole";
  u ".a-offscreen";
  u "[class*='a-price'] .a-price-whole"
].

Definition rating_selectors : list str := [
  u ".a-icon-alt";
  u "[data-cy='reviews-block'] .a-size-small";
  u ".a-icon-star-mini .a-icon-alt";
  u "[aria-label*='out of 5 stars']"
].

Definition review_selectors : list str := [
  u "[aria-label*='ratings']";
  u ".s-underline-text";
  u "a[aria-label*='ratings']"
].

Definition delivery_selectors : list str := [
  u "[data-cy='delivery-recipe']";
  u ".udm-delivery-block";
  u "[class*='delivery']";
  u ".a-text-bold"
].

Definition availability_selectors : list str := [
  u ".a-color-price";
  u "[class*='stock']";
  u ".a-size-base.a-color-secondary"
].

Definition discount_selectors : list str := [
  u ".a-color-secondary";
  u "[class*='discount']";
  u "[class*='off']"
].

Definition link_selectors : list str := [
  u "a[href*='/dp/']";
  u ".s-link-style";
  u "h2 a";
  u "a[class*='s-link']"
].

Definition image_selectors : list str := [
  u "img[src*='images-amazon']";
  u ".s-image";
  u "img[data-src*='amazon']";
  u "img:not([src*='transparent']):not([src*='spinner'])"
].

Definition price_not_available : str := u "Price not available".

Section Scraper.
Context {R : Runtime}.

(** ** [extract_numeric_price] *)

Definition extract_numeric_price (price_str : str) : result (option float) :=
  try_except
    (let clean_price := Re.sub false not_price_char [] price_str in
     let clean_price := replace (u ",") [] clean_price in
     if contains (u ".") clean_price
     then x <- float_of_str clean_price ;; Ok (Some x)
     else x <- float_of_str clean_price ;; Ok (Some x))
    (one_of [ValueError; AttributeError])
    (fun _ => Ok None).

(** ** [setup_driver] *)

(** [self.driver] is assigned before the script is run in the page. *)
Definition setup_driver (env : chrome) (self : SimpleAmazonScraper)
    : bool * SimpleAmazonScraper :=
  match match chrome_system env with
        | Ok d => Ok d
        | Raise _ => chrome_managed env
        end with
  | Ok d =>
    let self := {| headless := headless self; driver := Some d |} in
    match wd_execute_script d
            (u "Object.defineProperty(navigator, 'webdriver', {get: () => undefined})") with
    | Ok _ => (true, self)
    | Raise _ => (false, self)
    end
  | Raise _ => (false, self)
  end.

(** ** [extract_amazon_product_info] *)

Definition is_some {A} (o : option A) : bool :=
  match o with Some _ => true | None => false end.

(** The title cascade assigns [title] before it tests it. *)
Fixpoint title_from_selectors (element : Dom.element) (selectors : list str)
    (title : option str) : option str :=
  match selectors with
  | [] => title
  | selector :: rest =>
    match (title_element <- el_find_element element selector ;;
           t <- el_text title_element ;;
           Ok (strip t)) with
    | Ok new_title =>
      if str_bool new_title && (10 <? len new_title) then Some new_title
      else title_from_selectors element rest (Some new_title)
    | Raise _ => title_from_selectors element rest title
    end
  end.

Definition title_line (line : str) : bool :=
  (10 <? len line) && (len line <? 200)
  && negb (isdigit (replace (u " ") [] (replace (u ",") [] (replace (u ".") [] line))))
  && negb (contains (u "aed") (lower line))
  && negb (contains (u "%") line)
  && negb (contains (u "delivery") (lower line))
  && negb (contains (u "add to cart") (lower line))
  && negb (contains (u "only") (lower line))
  && negb (contains (u "left") (lower line)).

(** The price cascade: the whole part, joined to the fraction part when
    there is one; [price] is assigned, then [price_value], then it breaks. *)
Fixpoint price_from_selectors (element : Dom.element) (selectors : list str)
    (price : str) (price_value : option float) : str * option float :=
  match selectors with
  | [] => (price, price_value)
  | selector :: rest =>
    match (price_element <- el_find_element element selector ;;
           t <- el_text price_element ;;
           Ok (strip t)) with
    | Ok whole_price =>
      let price_text :=
        match (fraction_element <- el_find_element element (u ".a-price-fraction") ;;
               t <- el_text fraction_element ;;
               Ok (strip t)) with
        | Ok fraction => whole_price ++ u "." ++ fraction
        | Raise _ => whole_price
        end in
      if str_bool price_text
         && is_some (Re.match_ false plain_number (replace (u ",") [] price_text))
      then
        match float_of_str (replace (u ",") [] price_text) with
        | Ok v => (u "AED " ++ price_text, Some v)
        | Raise _ =>
          price_from_selectors element rest (u "AED " ++ price_text) price_value
        end
      else price_from_selectors element rest price price_value
    | Raise _ => price_from_selectors element rest price price_value
    end
  end.

(** The screen-reader texts; an exception ends the loop and is dropped. *)
Fixpoint price_from_offscreen (offscreen_elements : list Dom.element)
    (price : str) (price_value : option float) : str * option float :=
  match offscreen_elements with
  | [] => (price, price_value)
  | offscreen :: rest =>
    match el_text offscreen with
    | Raise _ => (price, price_value)
    | Ok t =>
      let offscreen_text := strip t in
      if contains (u "aed") (lower offscreen_text) then
        match Re.search false offscreen_price (lower offscreen_text) with
        | Some m =>
          let price_num := the_group m in
          match float_of_str price_num with
          | Ok v => (u "AED " ++ price_num, Some v)
          | Raise _ => (u "AED " ++ price_num, price_value)
          end
        | None => price_from_offscreen rest price price_value
        end
      else price_from_offscreen rest price price_value
    end
  end.

Definition extract_amazon_product_info (element : Dom.element) (search_term : str)
    : result (option ProductInfo) :=
  try_except
    (t <- el_text element ;;
     let full_text := strip t in
     if len full_text <? 20 then Ok None else
     (* title *)
     let title := title_from_selectors element title_selectors None in
     let title := if negb (opt_str_bool title)
                  then List.find title_line (stripped_lines full_text)
                  else title in
     let title := if negb (opt_str_bool title) then u "Unknown Product"
                  else or_default title [] in
     let title := strip (Re.sub false blanks (u " ") title) in
     let title := if 150 <? len title then slice_to 150 title ++ u "..."
                  else title in
     (* price *)
     let '(price, price_value) :=
       price_from_selectors element price_selectors price_not_available None in
     let '(price, price_value) :=
       if str_eqb price price_not_available then
         match el_find_elements element (u ".a-offscreen") with
         | Ok offscreen_elements =>
           price_from_offscreen offscreen_elements price price_value
         | Raise _ => (price, price_value)
         end
       else (price, price_value) in
     (* rating *)
     let rating :=
       first_hit rating_selectors (fun selector =>
         rating_element <- el_find_element element selector ;;
         t <- el_text rating_element ;;
         rating_text <-
           (if negb (str_bool (strip t)) then
              a <- el_get_attribute rating_element (u "aria-label") ;;
              Ok (if opt_str_bool a then or_default a [] else [])
            else Ok (strip t)) ;;
         match Re.search false rating_number rating_text with
         | Some m =>
           rating_val <- float_of_str (the_group m) ;;
           if float_le (float_of_int 0) rating_val
              && float_le rating_val (float_of_int 5)
           then Ok (Some (float_repr rating_val)) else Ok None
         | None => Ok None
         end) in
     (* review count *)
     let review_count :=
       first_hit review_selectors (fun selector =>
         review_element <- el_find_element element selector ;;
         a <- el_get_attribute review_element (u "aria-label") ;;
         review_text <-
           (if opt_str_bool a then Ok (or_default a [])
            else t <- el_text review_element ;; Ok (strip t)) ;;
         if contains (u "rating") (lower review_text) then
           match Re.search false review_number review_text with
           | Some m => Ok (Some (the_group m))
           | None => Ok None
           end
         else Ok None) in
     (* delivery *)
     let delivery_info :=
       first_hit delivery_selectors (fun selector =>
         delivery_element <- el_find_element element selector ;;
         t <- el_text delivery_element ;;
         let delivery_text := strip t in
         if str_bool delivery_text && (len delivery_text <? 100)
            && (contains (u "delivery") (lower delivery_text)
                || contains (u "tomorrow") (lower delivery_text)
                || contains (u "prime") (lower delivery_text))
         then Ok (Some delivery_text) else Ok None) in
     (* availability *)
     let availability :=
       first_hit availability_selectors (fun selector =>
         availability_element <- el_find_element element selector ;;
         t <- el_text availability_element ;;
         let availability_text := strip t in
         if str_bool availability_text
            && (contains (u "left") (lower availability_text)
                || contains (u "stock") (lower availability_text))
         then Ok (Some availability_text) else Ok None) in
     (* discount *)
     let discount_info :=
       first_hit discount_selectors (fun selector =>
         discount_element <- el_find_element element selector ;;
         t <- el_text discount_element ;;
         let discount_text := strip t in
         if str_bool discount_text
            && (contains (u "off") (lower discount_text)
                || contains (u "%") discount_text)
         then Ok (Some discount_text) else Ok None) in
     (* url *)
     q <- quote_plus search_term ;;
     let url := u "https://www.amazon.ae/s?k=" ++ q in
     let url :=
       or_default
         (first_hit link_selectors (fun selector =>
            link_element <- el_find_element element selector ;;
            href <- el_get_attribute link_element (u "href") ;;
            match href with
            | Some h =>
              if str_bool h && contains (u "/dp/") h then
                Ok (Some (if startswith (u "/") h then u "https://www.amazon.ae" ++ h
                          else if startswith (u "http") h then h
                          else url))
              else Ok None
            | None => Ok None
            end))
         url in
     (* image *)
     let image_url :=
       first_hit image_selectors (fun selector =>
         img_element <- el_find_element element selector ;;
         a <- el_get_attribute img_element (u "src") ;;
         src <- (if opt_str_bool a then Ok a
                 else el_get_attribute img_element (u "data-src")) ;;
         match src with
         | Some v =>
           if str_bool v && startswith (u "http") v
              && negb (contains (u "transparent") v)
           then Ok (Some v) else Ok None
         | None => Ok None
         end) in
     Ok (Some {| title := title; price := price; url := url;
                 image_url := image_url; rating := rating;
                 price_value := price_value; review_count := review_count;
                 delivery_info := delivery_info; availability := availability;
                 discount_info := discount_info |}))
    any_exception
    (fun _ => Ok None).

(** ** [search_item] *)

(** The elements of one selector that have a substantial text. *)
Fixpoint valid_elements (item_name : str) (elements : list Dom.element)
    : list Dom.element :=
  match elements with
  | [] => []
  | element :: rest =>
    match el_text element with
    | Raise _ => valid_elements item_name rest
    | Ok t =>
      let text := strip t in
      if (30 <? len text)
         && existsb (fun keyword => contains keyword (lower text))
                    [u "aed"; u "price"; lower item_name]
      then element :: valid_elements item_name rest
      else valid_elements item_name rest
    end
  end.

(** The first selector with valid elements gives the product elements. *)
Fixpoint strategy_1 (pg : page) (item_name : str) (selectors : list str)
    : list Dom.element :=
  match selectors with
  | [] => []
  | selector :: rest =>
    match pg_find_css pg selector with
    | Ok elements =>
      if list_bool elements then
        let valid := valid_elements item_name elements in
        if list_bool valid then valid else strategy_1 pg item_name rest
      else strategy_1 pg item_name rest
    | Raise _ => strategy_1 pg item_name rest
    end
  end.

(** The fallback: the [div]s with a product-like text, ten at most. *)
Fixpoint strategy_2 (item_name : str) (all_divs potential_products : list Dom.element)
    : list Dom.element :=
  match all_divs with
  | [] => potential_products
  | div :: rest =>
    match el_text div with
    | Raise _ => strategy_2 item_name rest potential_products
    | Ok t =>
      let text := strip t in
      if (100 <? len text) && (len text <? 1500)
         && any_keyword [u "aed"; u "delivery"; u "prime"; u "add to cart"; lower item_name] text
         && is_some (Re.search false some_digits text)
      then
        let found := potential_products ++ [div] in
        if 10 <=? len found then found else strategy_2 item_name rest found
      else strategy_2 item_name rest potential_products
    end
  end.

Definition potential_products (pg : page) (item_name : str)
    : result (list Dom.element) :=
  let found := strategy_1 pg item_name product_selectors in
  if negb (list_bool found) then
    all_divs <- pg_find_tag pg (u "div") ;;
    Ok (strategy_2 item_name all_divs found)
  else Ok found.

(** The body of the [try] of [search_item]. *)
Definition search_item_body (self : SimpleAmazonScraper) (search_item : SearchItem)
    : result (list ProductInfo) :=
  let products := [] in
  let item_name := name search_item in
  let max_price := max_price search_item in
  search_query <- quote_plus (strip item_name) ;;
  let search_url := u "https://www.amazon.ae/s?k=" ++ search_query
                    ++ u "&ref=nb_sb_noss" in
  d <- match driver self with
       | Some d => Ok d
       | None => Raise AttributeError
       end ;;
  pg <- wd_get d search_url ;;
  page_title <- pg_title pg ;;
  current_url <- pg_current_url pg ;;
  if contains (u "robot") (lower page_title)
     || contains (u "captcha") (lower page_title)
  then Ok products else
  found <- potential_products pg item_name ;;
  Ok (filter_products price_value extract_amazon_product_info
        item_name max_price (slice_to 10 found) products).

Definition search_item (self : SimpleAmazonScraper) (search_item : SearchItem)
    : result (list ProductInfo) :=
  try_except (search_item_body self search_item)
    any_exception
    (fun _ => Ok []).

(** ** [save_results] *)

Record saved_product := {
  saved_title : str;
  saved_price : str;
  saved_price_value : option float;
  saved_url : str;
  saved_image_url : option str;
  saved_rating : option str;
  saved_review_count : option str;
  saved_delivery_info : option str;
  saved_availability : option str;
  saved_discount_info : option str;
  within_budget : option bool
}.

Record saved_search := {
  max_price_filter : option float;
  saved_products : list saved_product
}.

(** The value of a key of [results]: [{'products': ..., 'max_price': ...}]. *)
Record search_data := {
  data_products : list ProductInfo;
  data_max_price : option float
}.

Definition save_product (max_price : option float) (product : ProductInfo)
    : saved_product :=
  {| saved_title := title product;
     saved_price := price product;
     saved_price_value := price_value product;
     saved_url := url product;
     saved_image_url := image_url product;
     saved_rating := rating product;
     saved_review_count := review_count product;
     saved_delivery_info := delivery_info product;
     saved_availability := availability product;
     saved_discount_info := discount_info product;
     within_budget := budget_flag max_price (price_value product) |}.

(** What [save_results] hands to [json.dump]. *)
Definition save_results (results : dict search_data) : dict saved_search :=
  fold_left (fun serializable_results kv =>
               let '(item, data) := kv in
               dict_set item
                 {| max_price_filter := data_max_price data;
                    saved_products :=
                      List.map (save_product (data_max_price data)) (data_products data) |}
                 serializable_results)
            results [].

(** The search loop of [main].  The messages are left out: [print] is
    taken to succeed. *)
Definition search_all (self : SimpleAmazonScraper) (items_to_search : list SearchItem)
    : result (dict search_data) :=
  fold_left (fun acc item =>
               all_results <- acc ;;
               results <- search_item self item ;;
               Ok (dict_set (name item)
                     {| data_products := results; data_max_price := max_price item |}
                     all_results))
            items_to_search (Ok []).

(** ** [save_results_csv] *)

(** A row handed to [writer.writerow]. *)
Record csv_row := {
  row_search_term : str;
  row_title : str;
  row_price : str;
  row_price_value : option float;
  row_rating : str;
  row_review_count : str;
  row_delivery_info : str;
  row_availability : str;
  row_discount_info : str;
  row_within_budget : budget_cell;
  row_url : str;
  row_image_url : str
}.

Definition csv_row_of (item : str) (max_price : option float) (product : ProductInfo)
    : csv_row :=
  {| row_search_term := item;
     row_title := title product;
     row_price := price product;
     row_price_value := price_value product;
     row_rating := or_blank (rating product);
     row_review_count := or_blank (review_count product);
     row_delivery_info := or_blank (delivery_info product);
     row_availability := or_blank (availability product);
     row_discount_info := or_blank (discount_info product);
     row_within_budget := budget_cell_of max_price (price_value product);
     row_url := url product;
     row_image_url := or_blank (image_url product) |}.

(** The rows [save_results_csv] writes after the header, in their order. *)
Definition save_results_csv (results : dict search_data) : list csv_row :=
  flat_map (fun kv =>
              let '(item, data) := kv in
              List.map (csv_row_of item (data_max_price data)) (data_products data))
           results.

(** ** [close] *)

Definition close (self : SimpleAmazonScraper) : result unit :=
  match driver self with
  | Some d => try_except (wd_quit d) any_exception (fun _ => Ok tt)
  | None => Ok tt
  end.

End Scraper.

End Amazon.

(* ===================================================================== *)
(** * unified_scraper.py                                                  *)
(* ===================================================================== *)

Module Unified.
Import Py Dom Shared.

(** The products of the three scrapers are records of three classes; the
    unified code reads [title], [price], [price_value] and [url] from any
    of them and the other attributes through [getattr] with a default. *)
Inductive product :=
  | NoonProduct (p : Noon.ProductInfo)
  | NamshiProduct (p : Namshi.ProductInfo)
  | AmazonProduct (p : Amazon.ProductInfo).

Definition title (p : product) : str :=
  match p with
  | NoonProduct q => Noon.title q
  | NamshiProduct q => Namshi.title q
  | AmazonProduct q => Amazon.title q
  end.

Definition price (p : product) : str :=
  match p with
  | NoonProduct q => Noon.price q
  | NamshiProduct q => Namshi.price q
  | AmazonProduct q => Amazon.price q
  end.

Definition price_value (p : product) : option float :=
  match p with
  | NoonProduct q => Noon.price_value q
  | NamshiProduct q => Namshi.price_value q
  | AmazonProduct q => Amazon.price_value q
  end.

Definition url (p : product) : str :=
  match p with
  | NoonProduct q => Noon.url q
  | NamshiProduct q => Namshi.url q
  | AmazonProduct q => Amazon.url q
  end.

Definition image_url (p : product) : option str :=
  match p with
  | NoonProduct q => Noon.image_url q
  | NamshiProduct q => Namshi.image_url q
  | AmazonProduct q => Amazon.image_url q
  end.

Definition rating (p : product) : option str :=
  match p with
  | NoonProduct q => Noon.rating q
  | NamshiProduct q => Namshi.rating q
  | AmazonProduct q => Amazon.rating q
  end.

Definition brand (p : product) : option str :=
  match p with
  | NamshiProduct q => Namshi.brand q
  | _ => None
  end.

Definition discount (p : product) : option str :=
  match p with
  | NamshiProduct q => Namshi.discount q
  | _ => None
  end.

Definition delivery_info (p : product) : option str :=
  match p with
  | NoonProduct _ => None
  | NamshiProduct q => Namshi.delivery_info q
  | AmazonProduct q => Amazon.delivery_info q
  end.

(** [{'site': ..., 'products': ..., 'max_price': ...}] *)
Record site_data := {
  site : str;
  products : list product;
  max_price : option float
}.

(** The browsers the three scrapers start. *)
Record world := {
  noon_chrome : chrome;
  namshi_chrome : chrome;
  amazon_chrome : chrome
}.

Section Sites.
Context {R : Runtime}.

(** ** [search_all_sites] *)

(** One of the three blocks of [search_all_sites]:
    [try: if scraper.setup_driver(): ... else: ... except Exception: ...
     finally: scraper.close()].
    [close] swallows what [quit] raises and leaves the results alone. *)
Definition search_site (site_key site_name : str) (max_price : option float)
    (setup_and_search : result (option (list product)))
    (all_results : dict site_data) : dict site_data :=
  match setup_and_search with
  | Ok (Some results) =>
    dict_set site_key
      {| site := site_name; products := results; max_price := max_price |}
      all_results
  | Ok None | Raise _ =>
    dict_set site_key
      {| site := site_name; products := []; max_price := max_price |}
      all_results
  end.

(** [if scraper.setup_driver(): results = scraper.search_item(item)] *)
Definition noon_search (w : world) (search_term : str) (max_price : option float)
    (headless : bool) : result (option (list product)) :=
  let noon_scraper := {| Noon.headless := headless; Noon.driver := None |} in
  let '(ok, noon_scraper) := Noon.setup_driver (noon_chrome w) noon_scraper in
  if ok then
    let noon_item := {| Noon.name := search_term; Noon.max_price := max_price |} in
    noon_results <- Noon.search_item noon_scraper noon_item ;;
    Ok (Some (List.map NoonProduct noon_results))
  else Ok None.

Definition namshi_search (w : world) (search_term : str) (max_price : option float)
    (headless : bool) : result (option (list product)) :=
  let namshi_scraper := {| Namshi.headless := headless; Namshi.driver := None |} in
  let '(ok, namshi_scraper) := Namshi.setup_driver (namshi_chrome w) namshi_scraper in
  if ok then
    let namshi_item := {| Namshi.name := search_term; Namshi.max_price := max_price |} in
    namshi_results <- Namshi.search_item namshi_scraper namshi_item ;;
    Ok (Some (List.map NamshiProduct namshi_results))
  else Ok None.

Definition amazon_search (w : world) (search_term : str) (max_price : option float)
    (headless : bool) : result (option (list product)) :=
  let amazon_scraper := {| Amazon.headless := headless; Amazon.driver := None |} in
  let '(ok, amazon_scraper) := Amazon.setup_driver (amazon_chrome w) amazon_scraper in
  if ok then
    let amazon_item := {| Amazon.name := search_term; Amazon.max_price := max_price |} in
    amazon_results <- Amazon.search_item amazon_scraper amazon_item ;;
    Ok (Some (List.map AmazonProduct amazon_results))
  else Ok None.

(** [imports] is what importing the three scraper modules does. *)
Definition search_all_sites (imports : result unit) (w : world)
    (search_term : str) (max_price : option float) (headless : bool)
    : result (dict site_data) :=
  try_except
    (_ <- imports ;;
     let all_results := [] in
     let all_results :=
       search_site (u "noon") (u "Noon.com") max_price
         (noon_search w search_term max_price headless) all_results in
     let all_results :=
       search_site (u "namshi") (u "Namshi.com") max_price
         (namshi_search w search_term max_price headless) all_results in
     let all_results :=
       search_site (u "amazon") (u "Amazon.ae") max_price
         (amazon_search w search_term max_price headless) all_results in
     Ok all_results)
    (one_of [ImportError])
    (fun _ => Ok []).

(** ** [save_unified_results] *)

Record saved_product := {
  saved_title : str;
  saved_price : str;
  saved_price_value : option float;
  saved_url : str;
  saved_image_url : option str;
  saved_rating : option str;
  saved_brand : option str;
  saved_discount : option str;
  saved_delivery_info : option str;
  within_budget : option bool
}.

Record saved_site := {
  site_name : str;
  max_price_filter : option float;
  product_count : Z;
  saved_products : list saved_product
}.

Record saved_session := {
  saved_search_term : str;
  timestamp : str;
  sites : dict saved_site
}.

Definition save_product (max_price : option float) (p : product) : saved_product :=
  {| saved_title := title p;
     saved_price := price p;
     saved_price_value := price_value p;
     saved_url := url p;
     saved_image_url := image_url p;
     saved_rating := rating p;
     saved_brand := brand p;
     saved_discount := discount p;
     saved_delivery_info := delivery_info p;
     within_budget := budget_flag max_price (price_value p) |}.

(** What [save_unified_results] hands to [json.dump]; [now] is the time. *)
Definition save_unified_results (now : str) (results : dict site_data)
    (search_term : str) : saved_session :=
  {| saved_search_term := search_term;
     timestamp := now;
     sites :=
       fold_left (fun acc kv =>
                    let '(site_key, data) := kv in
                    dict_set site_key
                      {| site_name := site data;
                         max_price_filter := max_price data;
                         product_count := len (products data);
                         saved_products :=
                           List.map (save_product (max_price data)) (products data) |}
                      acc)
                 results [] |}.

(** ** The output file *)

(** ["".join(c for c in search_term if c.isalnum() or c in (' ', '-', '_'))],
    stripped, its spaces turned into underscores. *)
Definition safe_search_term (search_term : str) : str :=
  let kept :=
    List.filter (fun c => isalnum_char c || existsb (Z.eqb c) [32; 45; 95])
                search_term in
  replace (u " ") (u "_") (strip kept).

(** The file [save_unified_results] writes to. *)
Definition json_output_file (search_term : str) (output_file : option str) : str :=
  if negb (opt_str_bool output_file)
  then u "unified_search_" ++ safe_search_term search_term ++ u ".json"
  else or_default output_file [].

(** The file [save_unified_results_csv] writes to. *)
Definition csv_output_file (search_term : str) (output_file : option str) : str :=
  if negb (opt_str_bool output_file)
  then u "unified_search_" ++ safe_search_term search_term ++ u ".csv"
  else or_default output_file [].

(** ** [save_unified_results_csv] *)

(** [getattr(product, name, '')]: the attribute, which may be [None], or
    the empty string for a record without it. *)
Definition csv_brand (p : product) : option str :=
  match p with
  | NamshiProduct q => Namshi.brand q
  | _ => Some []
  end.

Definition csv_review_count (p : product) : option str :=
  match p with
  | AmazonProduct q => Amazon.review_count q
  | _ => Some []
  end.

Definition csv_delivery_info (p : product) : option str :=
  match p with
  | NoonProduct _ => Some []
  | NamshiProduct q => Namshi.delivery_info q
  | AmazonProduct q => Amazon.delivery_info q
  end.

Definition csv_availability (p : product) : option str :=
  match p with
  | AmazonProduct q => Amazon.availability q
  | _ => Some []
  end.

Definition csv_discount_info (p : product) : option str :=
  match p with
  | AmazonProduct q => Amazon.discount_info q
  | _ => Some []
  end.

(** A row handed to [writer.writerow]. *)
Record csv_row := {
  row_site : str;
  row_title : str;
  row_price : str;
  row_price_value : option float;
  row_brand : option str;
  row_rating : option str;
  row_review_count : option str;
  row_delivery_info : option str;
  row_availability : option str;
  row_discount_info : option str;
  row_within_budget : budget_cell;
  row_url : str;
  row_image_url : option str
}.

Definition csv_row_of (site_name : str) (max_price : option float) (p : product)
    : csv_row :=
  {| row_site := site_name;
     row_title := title p;
     row_price := price p;
     row_price_value := price_value p;
     row_brand := csv_brand p;
     row_rating := rating p;
     row_review_count := csv_review_count p;
     row_delivery_info := csv_delivery_info p;
     row_availability := csv_availability p;
     row_discount_info := csv_discount_info p;
     row_within_budget := budget_cell_of max_price (price_value p);
     row_url := url p;
     row_image_url := image_url p |}.

(** The rows [save_unified_results_csv] writes after the header. *)
Definition save_unified_results_csv (results : dict site_data) : list csv_row :=
  flat_map (fun kv =>
              let '(site_key, data) := kv in
              List.map (csv_row_of (site data) (max_price data)) (products data))
           results.

(** ** [save_results_based_on_format] *)

(** What is saved, and where. *)
Inductive saved :=
  | SavedJson (output_file : str) (session : saved_session)
  | SavedCsv (output_file : str) (rows : list csv_row).

Definition save_results_based_on_format (now : str) (unified_results : dict site_data)
    (search_term : str) (csv : bool) (output : option str) : saved :=
  if csv then
    let output_file := if opt_str_bool output
                       then Some (or_default output [] ++ u ".csv") else None in
    SavedCsv (csv_output_file search_term output_file)
             (save_unified_results_csv unified_results)
  else
    let output_file := if opt_str_bool output
                       then Some (or_default output [] ++ u ".json") else None in
    SavedJson (json_output_file search_term output_file)
              (save_unified_results now unified_results search_term).

(** ** [main] *)

(** The arguments of the command line. *)
Record arguments := {
  arg_search_term : str;
  arg_max_price : option float;
  arg_headless : bool;
  arg_output : option str;
  arg_csv : bool;
  arg_noon_only : bool;
  arg_namshi_only : bool;
  arg_amazon_only : bool
}.

(** How a run of [main] ends.  The messages are left out:
    [print_unified_results] and [print] are taken to succeed. *)
Inductive outcome :=
  | Saved (s : saved)
  | Nothing                (* a single site whose scraper could not be set up or imported *)
  | Exit (status : Z).     (* [sys.exit(status)] *)

(** One of the branches [--noon-only], [--namshi-only], [--amazon-only]. *)
Definition single_site (imports : result unit)
    (setup_and_search : result (option (list product)))
    (site_key site_name : str) (now : str) (args : arguments) : result outcome :=
  try_except
    (_ <- imports ;;
     found <- setup_and_search ;;
     match found with
     | Some results =>
       let unified_results :=
         [(site_key, {| site := site_name; products := results;
                        max_price := arg_max_price args |})] in
       Ok (Saved (save_results_based_on_format now unified_results
                    (arg_search_term args) (arg_csv args) (arg_output args)))
     | None => Ok Nothing
     end)
    (one_of [ImportError])
    (fun _ => Ok Nothing).

Definition main (imports : result unit) (w : world) (now : str) (args : arguments)
    : result outcome :=
  let search_term := arg_search_term args in
  let max_price := arg_max_price args in
  let headless := arg_headless args in
  if arg_noon_only args then
    single_site imports (noon_search w search_term max_price headless)
      (u "noon") (u "Noon.com") now args
  else if arg_namshi_only args then
    single_site imports (namshi_search w search_term max_price headless)
      (u "namshi") (u "Namshi.com") now args
  else if arg_amazon_only args then
    single_site imports (amazon_search w search_term max_price headless)
      (u "amazon") (u "Amazon.ae") now args
  else
    results <- search_all_sites imports w search_term max_price headless ;;
    if list_bool results then
      Ok (Saved (save_results_based_on_format now results search_term
                   (arg_csv args) (arg_output args)))
    else Ok (Exit 1).

End Sites.

End Unified.

(* ===================================================================== *)
(** * Predicates and sample inputs used by the properties                 *)
(* ===================================================================== *)

Module Samples.
Import Py Dom.

(** ** Predicates *)

(** A float that is a zero, a finite number or an infinity of sign [s]. *)
Inductive signed (s : bool) : float -> Prop :=
  | signed_zero : signed s (S754_zero s)
  | signed_finite m e : signed s (S754_finite s m e)
  | signed_infinity : signed s (S754_infinity s).

(** The characters of a price string once cleaned and made ASCII. *)
Definition numeral_char (c : Z) : bool :=
  ascii_digit c || (c =? 46) || (c =? 32).

(** How [within_budget] relates to the price and the ceiling written next
    to it: it is set only when both are there, then to their comparison. *)
Definition budget_annotation (flag : option bool) (pv mp : option float) : Prop :=
  (forall b, flag = Some b ->
     exists v m, pv = Some v /\ mp = Some m /\ b = float_le v m)
  /\ (pv = None \/ mp = None -> flag = None).

(** What one source contributes to a session: nothing when its driver
    could not be set up or when its search raised, else what its search
    returned. *)
Definition source_outcome {S P : Type} (setup : bool * S)
    (body search : S -> result (list P)) (wrap : P -> Unified.product)
    (products : list Unified.product) : Prop :=
  (fst setup = false -> products = [])
  /\ (forall e, body (snd setup) = Raise e -> products = [])
  /\ (fst setup = true ->
      exists rs, search (snd setup) = Ok rs /\ products = List.map wrap rs).

(** ** Floats and their numerals *)

(** A numeral in positional notation: digits and points only. *)
Definition positional (s : str) : bool :=
  forallb (fun c => ascii_digit c || (c =? 46)) s.

(** A float as [float()] gives it: a finite one has 53 digits, or fewer
    at the least exponent. *)
Definition well_formed (x : float) : Prop :=
  match x with
  | S754_finite _ m e =>
    (Zdigits2 (Z.pos m) = 53 /\ -1074 <= e <= 971)
    \/ (Zdigits2 (Z.pos m) < 53 /\ e = -1074)
  | _ => True
  end.

(** [2 ^ e] as a fraction [P2 e / Q2 e]. *)
Definition P2 (e : Z) : Z := 2 ^ Z.max e 0.
Definition Q2 (e : Z) : Z := 2 ^ Z.max (- e) 0.

(** [num / den] over [10 ^ sc], as [shortest_at] has it. *)
Definition scaled (num den sc : Z) : Z * Z :=
  if 0 <=? sc then (num, den * 10 ^ sc) else (num * 10 ^ (- sc), den).

(** The quotient of [N] by [D] with the position of the remainder. *)
Definition rec_of (N D : Z) : shr_record :=
  {| shr_m := N / D;
     shr_r := D <=? 2 * (N mod D);
     shr_s := negb (N mod D =? 0) && negb (2 * (N mod D) =? D) |}.

(** The end of [binary_round_aux]: rounding to nearest even, and one more
    shift when the rounding carried. *)
Definition finish (sx : bool) (mrs : shr_record) (e1 : Z) : float :=
  let '(mrs'', e'') :=
    shr_fexp prec emax (round_nearest_even (shr_m mrs) (loc_of_shr_record mrs))
             e1 loc_Exact in
  match shr_m mrs'' with
  | Z0 => S754_zero sx
  | Zpos m => if e'' <=? emax - prec then S754_finite sx m e'' else S754_infinity sx
  | _ => S754_nan
  end.

(** The number of binary digits before the point of [a / b], which may be
    negative. *)
Definition magn (a b : Z) : Z := Zdigits2 (a * 2 ^ Zdigits2 b / b) - Zdigits2 b.

Section WithRuntime.
Context {R : Runtime}.

(** The price string of [extract_numeric_price] once cleaned: what is
    handed to [float()]. *)
Definition cleaned (price_str : str) : str :=
  replace (u ",") [] (Re.sub false Noon.not_price_char [] price_str).

(** The text a title strategy reads in an element. *)
Definition strategy_text (element : Dom.element) (selector : str) : result str :=
  e <- el_find_element element selector ;;
  t <- el_text e ;;
  Ok (strip t).

End WithRuntime.

(** ** Sample pages *)

(** Lines joined by line feeds. *)
Definition text_of (lines : list string) : str :=
  join [10] (List.map u lines).

(** What a selector finds. *)
Definition found_by (selector : string) (l : list element) : string * list element :=
  (selector, l).

(** An element with a text and, per selector, the elements found in it. *)
Definition node (tag : string) (text : str)
    (children : list (string * list element)) : element :=
  Element (Ok text) (Ok (u tag)) (fun _ => Ok None)
    (fun sel =>
       Ok (match List.find (fun kv => str_eqb (u (fst kv)) sel) children with
           | Some kv => snd kv
           | None => []
           end)).

Definition leaf (text : string) : element := node "span" (u text) [].

(** A page with a title, a source of [n] characters, the elements a CSS
    selector finds and its [div]s. *)
Definition page_with (title : string) (n : nat)
    (by_selector : list (string * list element)) (divs : list element) : page :=
  Page (Ok (u title)) (Ok (u "https://example.test/")) (Ok (List.repeat 32 n))
    (fun sel =>
       Ok (match List.find (fun kv => str_eqb (u (fst kv)) sel) by_selector with
           | Some kv => snd kv
           | None => []
           end))
    (fun _ => Ok divs).

(** A driver that shows the same page whatever the address. *)
Definition driver_showing (pg : page) : webdriver :=
  WebDriver (fun _ => Ok pg) (fun _ => Ok tt) (Ok tt).

(** A machine on which Chrome starts and shows [pg]. *)
Definition chrome_showing (pg : page) : chrome :=
  Chrome (Ok (driver_showing pg)) (Ok (driver_showing pg)).

(** A machine on which Chrome does not start. *)
Definition chrome_missing : chrome :=
  Chrome (Raise WebDriverException) (Raise WebDriverException).

(** A product box of noon.com without the markup the selectors look for:
    a name and a price in its text. *)
Definition noon_box (name amount : string) : element :=
  node "div" (text_of [name; amount]) [].

(** A results page of noon.com with such boxes. *)
Definition noon_page (boxes : list element) : page :=
  page_with "noon" 2000 [found_by "[data-qa='plp-product-box']" boxes] [].

(** Two mice, at AED 100 and at AED 899. *)
Definition mouse_page : page :=
  noon_page [noon_box "Wireless Mouse Logitech" "AED 100.00";
             noon_box "Gaming Mouse Razer Viper" "AED 899.00"].

Definition mouse_scraper : Noon.SimpleNoonScraper :=
  {| Noon.headless := true; Noon.driver := Some (driver_showing mouse_page) |}.

Definition mouse_under (ceiling : Z) : Noon.SearchItem :=
  {| Noon.name := u "mouse"; Noon.max_price := Some (float_of_int ceiling) |}.

(** A results page with six product boxes. *)
Definition six_boxes_page : page :=
  noon_page (List.repeat (noon_box "Wireless Mouse Logitech" "AED 100.00") 6).

(** A box of noon.com whose only price is a small amount with cents. *)
Definition protector_text : str :=
  text_of ["Screen protector for phones"; "5.00 AED"]%string.

Definition protector_box : element := node "div" protector_text [].

(** A result of amazon.ae whose title span holds a short name, and none of
    whose lines would do as a title. *)
Definition shoes_text : str :=
  text_of ["Shoes"; "AED 120.00"; "FREE delivery tomorrow"]%string.

Definition shoes_result : element :=
  node "div" shoes_text
    [found_by "h2 a span" [leaf "Shoes"]; found_by "h2 span" [leaf "Shoes"]].

(** Only noon.com can be reached. *)
Definition noon_only_world : Unified.world :=
  {| Unified.noon_chrome := chrome_showing mouse_page;
     Unified.namshi_chrome := chrome_missing;
     Unified.amazon_chrome := chrome_missing |}.

(** The results of one search of amazon.ae, as [main] keeps them. *)
Definition amazon_cable : Amazon.ProductInfo :=
  {| Amazon.title := u "USB cable"; Amazon.price := u "AED 25";
     Amazon.url := u "https://www.amazon.ae/dp/B0"; Amazon.image_url := None;
     Amazon.rating := None; Amazon.price_value := Some (float_of_int 25);
     Amazon.review_count := None; Amazon.delivery_info := None;
     Amazon.availability := None; Amazon.discount_info := None |}.

Definition amazon_results : dict Amazon.search_data :=
  [(u "usb cable",
    {| Amazon.data_products := [amazon_cable];
       Amazon.data_max_price := Some (float_of_int 40) |})].

End Samples.

(* ===================================================================== *)
(** * Further predicates and sample inputs                                *)
(* ===================================================================== *)

Module Observations.
Import Py Dom Shared Samples.

(** ** Predicates *)

Section WithRuntime.
Context {R : Runtime}.

(** An element whose text can be read and has, once stripped, more than
    [lo] characters and fewer than [hi]. *)
Definition readable_text (lo hi : Z) (e : element) : Prop :=
  exists t, el_text e = Ok t /\ lo < len (strip t) < hi.

(** An element whose text can be read and has, once stripped, more than
    [lo] characters. *)
Definition substantial_text (lo : Z) (e : element) : Prop :=
  exists t, el_text e = Ok t /\ lo < len (strip t).

(** A line of the items file that is neither blank nor a comment. *)
Definition item_line (line : str) : bool :=
  str_bool (strip line) && negb (startswith (u "#") (strip line)).

(** The page a search of noon.com goes on with: the browser is there and
    shows [pg] at the address of the search for [item_name], the title of
    [pg] names no error and its source has 1000 characters or more. *)
Definition noon_searched (self : Noon.SimpleNoonScraper) (item_name : str) (pg : page)
    : Prop :=
  exists search_query d page_title current_url page_source,
    quote_plus (strip item_name) = Ok search_query
    /\ Noon.driver self = Some d
    /\ wd_get d (u "https://www.noon.com/uae-en/search?q=" ++ search_query) = Ok pg
    /\ pg_title pg = Ok page_title
    /\ pg_current_url pg = Ok current_url
    /\ contains (u "can't be reached") (lower page_title)
       || contains (u "error") (lower page_title) = false
    /\ pg_page_source pg = Ok page_source
    /\ (len page_source <? 1000) = false.

(** The same for namshi.com, where the source is not measured. *)
Definition namshi_searched (self : Namshi.SimpleNamshiScraper) (item_name : str)
    (pg : page) : Prop :=
  exists search_query d page_title current_url,
    quote_plus (strip item_name) = Ok search_query
    /\ Namshi.driver self = Some d
    /\ wd_get d (u "https://www.namshi.com/uae-en/search?q=" ++ search_query) = Ok pg
    /\ pg_title pg = Ok page_title
    /\ pg_current_url pg = Ok current_url
    /\ contains (u "can't be reached") (lower page_title)
       || contains (u "error") (lower page_title) = false.

(** The same for amazon.ae, where the title must name no robot check. *)
Definition amazon_searched (self : Amazon.SimpleAmazonScraper) (item_name : str)
    (pg : page) : Prop :=
  exists search_query d page_title current_url,
    quote_plus (strip item_name) = Ok search_query
    /\ Amazon.driver self = Some d
    /\ wd_get d (u "https://www.amazon.ae/s?k=" ++ search_query ++ u "&ref=nb_sb_noss")
       = Ok pg
    /\ pg_title pg = Ok page_title
    /\ pg_current_url pg = Ok current_url
    /\ contains (u "robot") (lower page_title)
       || contains (u "captcha") (lower page_title) = false.

End WithRuntime.

(** A price display and the numeric price kept with it: none of either,
    or a display that begins with the currency. *)
Definition priced (not_available price : str) (price_value : option float) : Prop :=
  (price = not_available /\ price_value = None)
  \/ startswith (u "AED ") price = true.

(** What the price filter of [search_item] lets through: everything when
    the ceiling or the price is [None] or zero, else the prices that are
    not above the ceiling. *)
Definition passes_filter (max_price pv : option float) : bool :=
  match max_price, pv with
  | Some m, Some v => negb (float_bool m && float_bool v) || float_le v m
  | _, _ => true
  end.

Section Built.
Context {ProductInfo : Type}.
Variable extract : Dom.element -> str -> result (option ProductInfo).

(** The records the builder gives for the elements, in their order. *)
Definition built (item_name : str) (elements : list Dom.element) : list ProductInfo :=
  flat_map (fun element =>
              match extract element item_name with
              | Ok (Some product_info) => [product_info]
              | Ok None | Raise _ => []
              end) elements.

End Built.

(** What the unified scraper saved has no product flagged over budget, in
    the format asked for: in the JSON file no [within_budget] is false, in
    the CSV file no cell [within_budget] is [False]. *)
Definition not_over_budget (csv : bool) (s : Unified.saved) : Prop :=
  match s with
  | Unified.SavedJson _ session =>
    csv = false
    /\ forall key site sp,
         In (key, site) (Unified.sites session) ->
         In sp (Unified.saved_products site) ->
         Unified.within_budget sp <> Some false
  | Unified.SavedCsv _ rows =>
    csv = true
    /\ forall row, In row rows -> Unified.row_within_budget row <> Within false
  end.

(** The file the unified scraper wrote to. *)
Definition saved_file (s : Unified.saved) : str :=
  match s with
  | Unified.SavedJson output_file _ => output_file
  | Unified.SavedCsv output_file _ => output_file
  end.

(** ** Sample pages *)

(** A page with an error title. *)
Definition error_page : page :=
  page_with "Error 503" 2000
    [found_by "[data-qa='plp-product-box']"
       [noon_box "Wireless Mouse Logitech" "AED 100.00"]] [].

Definition error_scraper : Noon.SimpleNoonScraper :=
  {| Noon.headless := true; Noon.driver := Some (driver_showing error_page) |}.

(** An element as [e] with the attributes given. *)
Definition with_attributes (attributes : list (string * string)) (e : element) : element :=
  Element (el_text e) (el_tag_name e)
    (fun name =>
       Ok (match List.find (fun kv => str_eqb (u (fst kv)) name) attributes with
           | Some kv => Some (u (snd kv))
           | None => None
           end))
    (el_find_elements e).

Definition attribute (name value : string) : string * string := (name, value).

(** A product box of noon.com with the markup the selectors look for. *)
Definition marked_box : element :=
  node "div" (text_of ["Wireless Mouse Logitech"; "AED 100.00"; "4.5"]%string)
    [found_by "[data-qa='plp-product-box-name']" [leaf "Wireless Mouse Logitech"];
     found_by ".Price_amount__2sXa7" [leaf "100.00"];
     found_by ".ProductImageCarousel_productImage__jtsOn"
       [with_attributes [attribute "src" "https://f.nooncdn.com/p/mouse.jpg"] (leaf "")];
     found_by ".RatingPreviewStar_textCtr__sfsJG" [leaf "4.5"];
     found_by "a[href*='/p/']"
       [with_attributes [attribute "href" "/uae-en/p/mouse"] (leaf "")]].

(** A box of noon.com whose price is only found as a bare number. *)
Definition bare_price_text : str :=
  text_of ["Wireless Mouse Logitech"; "1,250"]%string.

(** An items file of four lines, two of them items. *)
Definition items_file : list str :=
  [u "# wanted"; u "Desk Lamp,150"; u "   "; u "iPhone 15"].

(** The same item asked for twice, under two ceilings. *)
Definition mouse_twice : list Noon.SearchItem := [mouse_under 500; mouse_under 50].

(** [unified_scraper.py mouse --max-price 500 --headless --csv --noon-only] *)
Definition mouse_arguments : Unified.arguments :=
  {| Unified.arg_search_term := u "mouse";
     Unified.arg_max_price := Some (float_of_int 500);
     Unified.arg_headless := true;
     Unified.arg_output := None;
     Unified.arg_csv := true;
     Unified.arg_noon_only := true;
     Unified.arg_namshi_only := false;
     Unified.arg_amazon_only := false |}.

End Observations.

(* ===================================================================== *)
(** * Properties                                                          *)
(* ===================================================================== *)

Import Py Re Dom Shared Samples Observations.

(** Boolean tests on integers as propositions. *)
Ltac zbool :=
  repeat match goal with
  | H : _ && _ = true |- _ => apply andb_true_iff in H; destruct H
  | H : _ || _ = true |- _ => apply orb_true_iff in H; destruct H
  | H : _ && _ = false |- _ => apply andb_false_iff in H; destruct H
  | H : _ || _ = false |- _ => apply orb_false_iff in H; destruct H
  | H : negb _ = true |- _ => apply negb_true_iff in H
  | H : negb _ = false |- _ => apply negb_false_iff in H
  | H : (_ <=? _) = true |- _ => apply Z.leb_le in H
  | H : (_ <=? _) = false |- _ => apply Z.leb_gt in H
  | H : (_ <? _) = true |- _ => apply Z.ltb_lt in H
  | H : (_ <? _) = false |- _ => apply Z.ltb_ge in H
  | H : (_ =? _) = true |- _ => apply Z.eqb_eq in H
  | H : (_ =? _) = false |- _ => apply Z.eqb_neq in H
  end.

(** One step through a body written with [bind]. *)
(** Comparisons whose outcome arithmetic decides. *)
Ltac decide_b :=
  repeat match goal with
  | |- context [?a <=? ?b] =>
    first [rewrite (proj2 (Z.leb_le a b)) by (lia || nia)
          |rewrite (proj2 (Z.leb_gt a b)) by (lia || nia)]
  | |- context [?a <? ?b] =>
    first [rewrite (proj2 (Z.ltb_lt a b)) by (lia || nia)
          |rewrite (proj2 (Z.ltb_ge a b)) by (lia || nia)]
  | |- context [?a =? ?b] =>
    first [rewrite (proj2 (Z.eqb_eq a b)) by (lia || nia)
          |rewrite (proj2 (Z.eqb_neq a b)) by (lia || nia)]
  end.

Ltac step H :=
  match type of H with
  | Py.bind ?r _ = Ok _ =>
    let E := fresh "E" in destruct r eqn:E; cbn [Py.bind] in H; [|discriminate H]
  | (if ?c then _ else _) = Ok _ => destruct c
  | Ok _ = Ok _ => injection H as H
  end.

(** ** The runtime agrees with the interpreter on sample values *)

Section RuntimeSamples.

Example float_of_str_price :
  @float_of_str ascii_only (u "1299.00") = Ok (float_of_int 1299).
Proof. vm_compute. reflexivity. Qed.

Example float_of_str_rejects_words :
  @float_of_str ascii_only (u "abc") = Raise ValueError.
Proof. vm_compute. reflexivity. Qed.

Example float_of_str_exponent :
  @float_of_str ascii_only (u " 1_000.5e-1 ") = Ok (float_of_decimal false 10005 (-2)).
Proof. vm_compute. reflexivity. Qed.

Example float_repr_price :
  float_repr (float_of_decimal false 129950 (-2)) = u "1299.5".
Proof. vm_compute. reflexivity. Qed.

Example float_repr_large : float_repr (float_of_int (10 ^ 16)) = u "1e+16".
Proof. vm_compute. reflexivity. Qed.

Example float_repr_tenth : float_repr (float_of_decimal false 1 (-1)) = u "0.1".
Proof. vm_compute. reflexivity. Qed.

Example search_grouped_amount :
  option_map the_group
    (@Re.search ascii_only true (nth 0 Noon.price_patterns Eps) (u "now 1,299.00 AED"))
  = Some (u "1,299.00").
Proof. vm_compute. reflexivity. Qed.

Example findall_numbers :
  @Re.findall ascii_only false Noon.any_number (u "3 for 1,500 or 12x")
  = [u "3"; u "1,500"].
Proof. vm_compute. reflexivity. Qed.

Example quote_plus_term : quote_plus (u "desk lamp & co") = Ok (u "desk+lamp+%26+co").
Proof. vm_compute. reflexivity. Qed.

End RuntimeSamples.

(** ** Floats: the sign of what [float()] reads *)

Section FloatFacts.

Lemma shr_1_nonneg mrs : 0 <= shr_m mrs -> 0 <= shr_m (shr_1 mrs).
Proof.
  destruct mrs as [m r s]; simpl.
  destruct m as [|p|p]; simpl; try lia; destruct p; simpl; lia.
Qed.

Lemma iter_pos_invariant {A} (P : A -> Prop) (f : A -> A) :
  (forall x, P x -> P (f x)) -> forall n x, P x -> P (SpecFloat.iter_pos f n x).
Proof.
  intros Hf n; induction n as [n IH|n IH|]; intros x Hx; simpl; auto.
Qed.

Lemma shr_nonneg mrs e n : 0 <= shr_m mrs -> 0 <= shr_m (fst (shr mrs e n)).
Proof.
  intros H; unfold shr; destruct n; simpl; auto.
  apply (iter_pos_invariant (fun x => 0 <= shr_m x)); auto using shr_1_nonneg.
Qed.

Lemma shr_fexp_nonneg m e l :
  0 <= m -> 0 <= shr_m (fst (shr_fexp prec emax m e l)).
Proof.
  intros H; unfold shr_fexp; apply shr_nonneg.
  destruct l as [|[]]; simpl; exact H.
Qed.

Lemma round_nearest_even_nonneg m l : 0 <= m -> 0 <= round_nearest_even m l.
Proof.
  intros H; unfold round_nearest_even.
  destruct l as [|[]]; try destruct (Z.even m); lia.
Qed.

(** Rounding a mantissa that is not negative gives a number of the sign
    asked for, never a NaN. *)
Lemma binary_round_aux_signed sx mx ex lx :
  0 <= mx -> signed sx (binary_round_aux prec emax sx mx ex lx).
Proof.
  intros H; unfold binary_round_aux.
  pose proof (shr_fexp_nonneg mx ex lx H) as H1.
  destruct (shr_fexp prec emax mx ex lx) as [mrs' e'] eqn:E1; simpl in H1.
  pose proof (shr_fexp_nonneg _ e' loc_Exact
                (round_nearest_even_nonneg _ (loc_of_shr_record mrs') H1)) as H2.
  destruct (shr_fexp prec emax (round_nearest_even (shr_m mrs') (loc_of_shr_record mrs')) e' loc_Exact)
    as [mrs'' e''] eqn:E2; simpl in H2.
  destruct (shr_m mrs'') as [|p|p]; try lia.
  - constructor.
  - destruct (e'' <=? emax - prec); constructor.
Qed.

Lemma div_core_nonneg num den :
  0 <= num -> 0 < den ->
  0 <= fst (fst (SFdiv_core_binary prec emax num 0 den 0)).
Proof.
  intros Hn Hd; unfold SFdiv_core_binary.
  set (e' := Z.min _ _); set (s := 0 - 0 - e').
  assert (Hm : 0 <= match s with Z.pos _ => Z.shiftl num s | 0 => num | Z.neg _ => 0 end).
  { destruct s; try lia. apply Z.shiftl_nonneg; exact Hn. }
  revert Hm; generalize (match s with Z.pos _ => Z.shiftl num s | 0 => num | Z.neg _ => 0 end).
  intros m' Hm.
  pose proof (Z.div_pos m' den Hm Hd) as Hq.
  unfold Z.div in Hq.
  destruct (Z.div_eucl m' den) as [q r]; simpl; exact Hq.
Qed.

Lemma float_of_ratio_signed neg num den :
  0 <= num -> 0 < den -> signed neg (float_of_ratio neg num den).
Proof.
  intros Hn Hd; unfold float_of_ratio.
  destruct num as [|p|p]; try lia; [constructor|].
  pose proof (div_core_nonneg (Z.pos p) den Hn Hd) as Hq.
  destruct (SFdiv_core_binary prec emax (Z.pos p) 0 den 0) as [[q e] l]; simpl in Hq.
  apply binary_round_aux_signed; exact Hq.
Qed.

Lemma float_of_decimal_signed neg m e10 :
  0 <= m -> signed neg (float_of_decimal neg m e10).
Proof.
  intros Hm; unfold float_of_decimal.
  destruct (0 <=? e10) eqn:E.
  - apply float_of_ratio_signed; [|lia].
    apply Z.mul_nonneg_nonneg; [exact Hm|]. apply Z.pow_nonneg; lia.
  - apply float_of_ratio_signed; [exact Hm|].
    apply Z.pow_pos_nonneg; lia.
Qed.

Lemma signed_false_nonneg x : signed false x -> float_le float_zero x = true.
Proof. intros H; destruct H; reflexivity. Qed.

End FloatFacts.

(** ** Numerals: what [strtod] reads *)

Section NumeralFacts.

Lemma span_digits_digits s :
  Forall (fun c => ascii_digit c = true) (fst (span_digits s)).
Proof.
  induction s as [|c r IH]; simpl; [constructor|].
  destruct (ascii_digit c) eqn:E; [|constructor].
  destruct (span_digits r) as [d t]; simpl in *. constructor; assumption.
Qed.

Lemma digits_value_nonneg ds :
  Forall (fun c => ascii_digit c = true) ds -> 0 <= digits_value ds.
Proof.
  unfold digits_value. intros H.
  assert (G : forall acc, 0 <= acc ->
            0 <= fold_left (fun acc c => acc * 10 + (c - 48)) ds acc).
  { induction H as [|c r Hc Hr IH]; intros acc Hacc; simpl; [exact Hacc|].
    apply IH. unfold ascii_digit, in_range in Hc. zbool. lia. }
  apply G; lia.
Qed.

(** What [strtod] reads is [nan], or has the sign it was given. *)
Lemma strtod_signed s x :
  strtod s = Some x ->
  str_eqb (ascii_lowercase (snd (take_sign s))) (u "nan") = true
  \/ signed (fst (take_sign s)) x.
Proof.
  unfold strtod. destruct (take_sign s) as [neg body]; simpl.
  destruct (str_eqb (ascii_lowercase body) (u "inf")
            || str_eqb (ascii_lowercase body) (u "infinity")).
  { intros [= <-]. right; constructor. }
  destruct (str_eqb (ascii_lowercase body) (u "nan")) eqn:En.
  { intros _. left; reflexivity. }
  pose proof (span_digits_digits body) as Hip.
  destruct (span_digits body) as [ip r1]; simpl in Hip.
  assert (Hfp : forall fp r2,
            match r1 with 46 :: r => span_digits r | _ => ([], r1) end = (fp, r2) ->
            Forall (fun c => ascii_digit c = true) fp).
  { intros fp r2 E.
    destruct r1 as [|c r]; [injection E as <- _; constructor|].
    destruct (Z.eq_dec c 46) as [->|Hc].
    - pose proof (span_digits_digits r) as H. rewrite E in H. exact H.
    - assert (E' : ([], c :: r) = (fp, r2)).
      { rewrite <- E. destruct c as [|p|p]; try reflexivity.
        do 6 (destruct p as [p|p|]; try reflexivity). congruence. }
      injection E' as <- _; constructor. }
  destruct (match r1 with 46 :: r => span_digits r | _ => ([], r1) end) as [fp r2].
  specialize (Hfp fp r2 eq_refl).
  assert (Hds : 0 <= digits_value (ip ++ fp)).
  { apply digits_value_nonneg, Forall_app; split; assumption. }
  destruct (ip ++ fp) as [|d ds] eqn:Eds; [discriminate|].
  destruct r2 as [|c r3].
  { intros [= <-]. right. apply float_of_decimal_signed; exact Hds. }
  destruct ((c =? 101) || (c =? 69)); [|discriminate].
  destruct (take_sign r3) as [eneg r4].
  destruct (span_digits r4) as [ed r5].
  destruct ed; [discriminate|]. destruct r5; [|discriminate].
  intros [= <-]. right. apply float_of_decimal_signed; exact Hds.
Qed.

Lemma c_lstrip_Forall (P : Z -> Prop) s : Forall P s -> Forall P (c_lstrip s).
Proof.
  induction 1 as [|c r Hc Hr IH]; simpl; [constructor|].
  destruct (c_isspace c); [exact IH|constructor; assumption].
Qed.

Lemma c_strip_Forall (P : Z -> Prop) s : Forall P s -> Forall P (c_strip s).
Proof.
  intros H; unfold c_strip.
  apply Forall_rev, c_lstrip_Forall, Forall_rev, c_lstrip_Forall, H.
Qed.

Lemma drop_underscores_Forall (P : Z -> Prop) s :
  Forall P s -> Forall P (drop_underscores s).
Proof.
  intros H; unfold drop_underscores.
  apply Forall_forall; intros c Hc. apply filter_In in Hc as [Hc _].
  revert c Hc; apply Forall_forall; exact H.
Qed.

(** A numeral made of digits, points and blanks reads as a float that is
    not negative. *)
Lemma strtod_numeral s x :
  Forall (fun c => numeral_char c = true) s ->
  strtod s = Some x -> signed false x.
Proof.
  intros Hs Hx.
  assert (Hsign : take_sign s = (false, s)).
  { destruct Hs as [|c r Hc _]; [reflexivity|].
    unfold numeral_char, ascii_digit, in_range in Hc.
    unfold take_sign.
    destruct (Z.eq_dec c 45) as [->|H45]; [discriminate Hc|].
    destruct (Z.eq_dec c 43) as [->|H43]; [discriminate Hc|].
    destruct c as [|p|p]; try reflexivity.
    do 6 (destruct p as [p|p|]; try reflexivity); congruence. }
  destruct (strtod_signed s x Hx) as [Hnan|Hsigned]; rewrite Hsign in *; simpl in *.
  - exfalso. destruct Hs as [|c r Hc _]; [discriminate Hnan|].
    change (u "nan") with [110; 97; 110] in Hnan. simpl in Hnan.
    unfold numeral_char, ascii_digit, ascii_upper, in_range in *.
    destruct ((65 <=? c) && (c <=? 90)) eqn:Eu; zbool; lia.
  - exact Hsigned.
Qed.

End NumeralFacts.

(** ** Cleaning a price string *)

Section CleaningFacts.
Context {R : Runtime}.

(** Substituting nothing for one character class filters the string. *)
Lemma match_at_chr ic c before ch rest :
  match_at ic (Chr c) before (ch :: rest) =
  if cls_match ic c ch then Some (mkMatch [ch] None) else None.
Proof.
  unfold match_at; cbn -[Nat.sub firstn].
  destruct (cls_match ic c ch); [|reflexivity]. cbn -[Nat.sub firstn].
  replace (S (List.length rest) - List.length rest)%nat with 1%nat by lia.
  reflexivity.
Qed.

Lemma sub_chr_filter ic c s :
  Re.sub ic (Chr c) [] s = List.filter (fun ch => negb (cls_match ic c ch)) s.
Proof.
  unfold Re.sub.
  assert (G : forall before,
            sub_go ic (Chr c) [] 0 before s =
            List.filter (fun ch => negb (cls_match ic c ch)) s).
  { induction s as [|ch rest IH]; intros before; [reflexivity|].
    cbn [sub_go List.filter]. rewrite match_at_chr.
    destruct (cls_match ic c ch); simpl; rewrite IH; reflexivity. }
  apply G.
Qed.

Lemma replace_char_filter k s :
  replace [k] [] s = List.filter (fun ch => negb (k =? ch)) s.
Proof.
  unfold replace.
  induction s as [|ch rest IH]; [reflexivity|].
  cbn [replace_go List.filter startswith].
  destruct (k =? ch); simpl; rewrite IH; reflexivity.
Qed.

(** The cleaned price string: decimal digits and points. *)
Lemma cleaned_chars price_str :
  Forall (fun c => isdecimal c || (c =? 46) = true) (cleaned price_str).
Proof.
  unfold cleaned, Noon.not_price_char. change (u ",") with [44].
  rewrite replace_char_filter, sub_chr_filter.
  apply Forall_forall; intros c Hc.
  apply filter_In in Hc as [Hc H44]. apply filter_In in Hc as [_ Hc].
  cbn [cls_match atom_match existsb] in Hc.
  rewrite Z.eqb_sym in H44.
  destruct (isdecimal c), (c =? 46), (c =? 44); try reflexivity; discriminate.
Qed.

Lemma to_ascii_numeral_chars s :
  Forall (fun c => isdecimal c || (c =? 46) = true) s ->
  Forall (fun c => numeral_char c = true) (to_ascii_numeral s).
Proof.
  intros H; unfold to_ascii_numeral. apply Forall_map.
  eapply Forall_impl; [|exact H]. clear. intros c Hc; cbv beta in *.
  unfold numeral_char.
  destruct (c <? 127) eqn:E127.
  - unfold isdecimal, decimal, is_ascii in Hc.
    replace (c <? 128) with true in Hc by (symmetry; zbool; apply Z.ltb_lt; lia).
    destruct (ascii_digit c); [reflexivity|]. simpl in Hc. rewrite Hc.
    reflexivity.
  - destruct (isspace c); [reflexivity|].
    unfold isdecimal in Hc.
    destruct (decimal c) as [d|] eqn:Ed.
    + unfold decimal in Ed.
      destruct (is_ascii c) eqn:Ea.
      * destruct (ascii_digit c) eqn:Edig; [|discriminate].
        unfold ascii_digit, in_range in Edig. zbool; exfalso; lia.
      * destruct (uc_decimal c) as [d'|]; [|discriminate].
        destruct (in_range 0 9 d') eqn:Er; [|discriminate].
        injection Ed as <-. clear Hc. unfold in_range in Er. zbool.
        unfold ascii_digit, in_range.
        replace (48 <=? 48 + d') with true by (symmetry; apply Z.leb_le; lia).
        replace (48 + d' <=? 57) with true by (symmetry; apply Z.leb_le; lia).
        reflexivity.
    + simpl in Hc. zbool; lia.
Qed.

Lemma float_of_str_raises s e : float_of_str s = Raise e -> e = ValueError.
Proof.
  unfold float_of_str.
  destruct (underscores_ok 0 _); [|congruence].
  destruct (strtod _); congruence.
Qed.

(** [float()] of a cleaned price string is not negative. *)
Lemma float_of_cleaned price_str x :
  float_of_str (cleaned price_str) = Ok x -> signed false x.
Proof.
  unfold float_of_str.
  destruct (underscores_ok 0 _); [|discriminate].
  destruct (strtod _) as [y|] eqn:E; [|discriminate].
  intros [= <-].
  eapply strtod_numeral; [|exact E].
  apply drop_underscores_Forall, c_strip_Forall, to_ascii_numeral_chars, cleaned_chars.
Qed.

Lemma extract_numeric_price_eq price_str :
  Noon.extract_numeric_price price_str =
  match float_of_str (cleaned price_str) with
  | Ok x => Ok (Some x)
  | Raise _ => Ok None
  end.
Proof.
  unfold Noon.extract_numeric_price. fold (cleaned price_str).
  destruct (contains (u ".") (cleaned price_str));
    destruct (float_of_str (cleaned price_str)) as [x|e] eqn:E; simpl; try reflexivity;
    apply float_of_str_raises in E; subst e; reflexivity.
Qed.

End CleaningFacts.

(** ** The budget filter *)

Section BudgetFacts.

Lemma budget_flag_some mp pv b :
  budget_flag mp pv = Some b ->
  exists v m, pv = Some v /\ mp = Some m /\ b = float_le v m.
Proof.
  unfold budget_flag.
  destruct (opt_float_bool mp && opt_float_bool pv); [|discriminate].
  destruct pv as [v|]; [|discriminate]. destruct mp as [m|]; [|discriminate].
  intros [= <-]. exists v, m; auto.
Qed.

Lemma budget_flag_absent mp pv :
  pv = None \/ mp = None -> budget_flag mp pv = None.
Proof.
  unfold budget_flag. intros [-> | ->].
  - rewrite andb_false_r; reflexivity.
  - reflexivity.
Qed.

(** Under a positive ceiling, a price that is not flagged over budget is
    within it, a zero price included. *)
Lemma not_over_budget_le m v :
  float_lt float_zero m = true ->
  budget_flag (Some m) (Some v) <> Some false ->
  float_le v m = true.
Proof.
  intros Hm Hflag. unfold budget_flag, opt_float_bool, float_bool in Hflag.
  assert (Em : float_eq m float_zero = false).
  { destruct m as [s|[]| |[] mm e]; try discriminate Hm; reflexivity. }
  rewrite Em in Hflag. simpl in Hflag.
  destruct (float_eq v float_zero) eqn:Ev; simpl in Hflag.
  - destruct v as [s|s| |s mv e]; try destruct s; try discriminate Ev;
      destruct m as [s'|[]| |[] mm e]; try discriminate Hm; reflexivity.
  - destruct (float_le v m); [reflexivity|]. exfalso; apply Hflag; reflexivity.
Qed.

Context {ProductInfo : Type}.
Variable price_value : ProductInfo -> option float.
Variable extract : Dom.element -> str -> result (option ProductInfo).

(** What the filter lets through is not over budget. *)
Lemma filter_products_budget item mp elements :
  forall products,
    Forall (fun p => budget_flag mp (price_value p) <> Some false) products ->
    Forall (fun p => budget_flag mp (price_value p) <> Some false)
           (filter_products price_value extract item mp elements products).
Proof.
  induction elements as [|element rest IH]; intros products Hp; simpl; [exact Hp|].
  destruct (extract element item) as [[p|]|e]; try (apply IH; exact Hp).
  destruct (opt_float_bool mp && opt_float_bool (price_value p)) eqn:Eb.
  - destruct (price_value p) as [pv|] eqn:Epv; [|apply IH; exact Hp].
    destruct mp as [m|]; [|apply IH; exact Hp].
    destruct (float_le pv m) eqn:Ele; [|apply IH; exact Hp].
    apply IH, Forall_app; split; [exact Hp|].
    constructor; [|constructor].
    unfold budget_flag. rewrite Epv, Eb, Ele. discriminate.
  - apply IH, Forall_app; split; [exact Hp|].
    constructor; [|constructor].
    unfold budget_flag. rewrite Eb. discriminate.
Qed.

(** Each element gives one product at most. *)
Lemma filter_products_length item mp elements :
  forall products,
    (List.length (filter_products price_value extract item mp elements products)
     <= List.length products + List.length elements)%nat.
Proof.
  induction elements as [|element rest IH]; intros products; simpl; [lia|].
  destruct (extract element item) as [[p|]|e];
    try (etransitivity; [apply IH|lia]).
  destruct (opt_float_bool mp && opt_float_bool (price_value p)).
  - destruct (price_value p) as [pv|]; [|etransitivity; [apply IH|lia]].
    destruct mp as [m|]; [|etransitivity; [apply IH|lia]].
    destruct (float_le pv m); (etransitivity; [apply IH|]);
      rewrite ?length_app; simpl; lia.
  - etransitivity; [apply IH|]. rewrite length_app; simpl; lia.
Qed.

End BudgetFacts.

(** ** Dictionaries *)

Section DictFacts.
Context {V : Type}.

Lemma dict_set_In k (v : V) d k' v' :
  In (k', v') (dict_set k v d) -> v' = v \/ In (k', v') d.
Proof.
  induction d as [|[k0 v0] r IH]; simpl.
  - intros [[= <- <-]|[]]; auto.
  - destruct (str_eqb k k0); simpl.
    + intros [[= <- <-]|H]; auto.
    + intros [H|H]; auto. destruct (IH H); auto.
Qed.

(** The values of a dictionary built by successive assignments. *)
Lemma fold_dict_set_values {A} (key : A -> str) (value : A -> V)
    (assign : dict V -> A -> dict V) (P : V -> Prop) l :
  (forall acc a, assign acc a = dict_set (key a) (value a) acc) ->
  (forall a, In a l -> P (value a)) ->
  forall init,
    (forall k v, In (k, v) init -> P v) ->
    forall k v, In (k, v) (fold_left assign l init) -> P v.
Proof.
  intros Hassign.
  induction l as [|a l IH]; intros Hl init Hinit k v; simpl; [apply Hinit|].
  apply IH.
  - intros b Hb; apply Hl; right; exact Hb.
  - intros k' v' H. rewrite Hassign in H. apply dict_set_In in H as [->|H].
    + apply Hl; left; reflexivity.
    + eapply Hinit; exact H.
Qed.

End DictFacts.

(** ** The three [search_item] *)

Section SearchFacts.
Context {R : Runtime}.

Lemma len_slice_to {A} n (l : list A) : len (slice_to n l) <= Z.of_nat n.
Proof. unfold len, slice_to. pose proof (firstn_le_length n l). lia. Qed.

Lemma length_slice_to {A} n (l : list A) : (List.length (slice_to n l) <= n)%nat.
Proof. apply firstn_le_length. Qed.

(** ** noon *)

Lemma noon_search_item_total self item :
  exists rs, Noon.search_item self item = Ok rs.
Proof.
  unfold Noon.search_item, try_except.
  destruct (Noon.search_item_body self item); simpl; eauto.
Qed.

Lemma noon_search_item_cases self item rs :
  Noon.search_item self item = Ok rs ->
  rs = [] \/
  exists found,
    rs = filter_products Noon.price_value Noon.extract_simple_product_info
           (Noon.name item) (Noon.max_price item) (slice_to 5 found) [].
Proof.
  unfold Noon.search_item, try_except.
  destruct (Noon.search_item_body self item) as [l|e] eqn:E;
    [|intros [= <-]; left; reflexivity].
  intros [= <-]. unfold Noon.search_item_body in E.
  repeat step E; subst; auto.
  match goal with
  | H : _ = Ok ?f |- _ \/ (exists found : list element, _) =>
    right; exists f; reflexivity
  end.
Qed.

Lemma noon_strategy_2_length item divs :
  forall found, len found < 5 -> len (Noon.strategy_2 item divs found) <= 5.
Proof.
  induction divs as [|div rest IH]; intros found Hf; simpl; [lia|].
  destruct (el_text div) as [t|e]; [|apply IH; exact Hf].
  destruct (_ && _); [|apply IH; exact Hf].
  assert (Hl : len (found ++ [div]) = len found + 1).
  { unfold len. rewrite length_app. simpl. lia. }
  destruct (5 <=? len (found ++ [div])) eqn:E5; [lia|].
  apply IH. apply Z.leb_gt in E5. exact E5.
Qed.

(** ** namshi *)

Lemma namshi_search_item_total self item :
  exists rs, Namshi.search_item self item = Ok rs.
Proof.
  unfold Namshi.search_item, try_except.
  destruct (Namshi.search_item_body self item); simpl; eauto.
Qed.

Lemma namshi_search_item_cases self item rs :
  Namshi.search_item self item = Ok rs ->
  rs = [] \/
  exists found,
    rs = filter_products Namshi.price_value Namshi.extract_namshi_product_info
           (Namshi.name item) (Namshi.max_price item) (slice_to 10 found) [].
Proof.
  unfold Namshi.search_item, try_except.
  destruct (Namshi.search_item_body self item) as [l|e] eqn:E;
    [|intros [= <-]; left; reflexivity].
  intros [= <-]. unfold Namshi.search_item_body in E.
  repeat step E; subst; auto.
  match goal with
  | H : _ = Ok ?f |- _ \/ (exists found : list element, _) =>
    right; exists f; reflexivity
  end.
Qed.

Lemma namshi_strategy_2_length item divs :
  forall found, len found < 10 -> len (Namshi.strategy_2 item divs found) <= 10.
Proof.
  induction divs as [|div rest IH]; intros found Hf; simpl; [lia|].
  destruct (el_text div) as [t|e]; [|apply IH; exact Hf].
  destruct (_ && _); [|apply IH; exact Hf].
  assert (Hl : len (found ++ [div]) = len found + 1).
  { unfold len. rewrite length_app. simpl. lia. }
  destruct (10 <=? len (found ++ [div])) eqn:E5; [lia|].
  apply IH. apply Z.leb_gt in E5. exact E5.
Qed.

(** ** amazon *)

Lemma amazon_search_item_total self item :
  exists rs, Amazon.search_item self item = Ok rs.
Proof.
  unfold Amazon.search_item, try_except.
  destruct (Amazon.search_item_body self item); simpl; eauto.
Qed.

Lemma amazon_search_item_cases self item rs :
  Amazon.search_item self item = Ok rs ->
  rs = [] \/
  exists found,
    rs = filter_products Amazon.price_value Amazon.extract_amazon_product_info
           (Amazon.name item) (Amazon.max_price item) (slice_to 10 found) [].
Proof.
  unfold Amazon.search_item, try_except.
  destruct (Amazon.search_item_body self item) as [l|e] eqn:E;
    [|intros [= <-]; left; reflexivity].
  intros [= <-]. unfold Amazon.search_item_body in E.
  repeat step E; subst; auto.
  match goal with
  | H : _ = Ok ?f |- _ \/ (exists found : list element, _) =>
    right; exists f; reflexivity
  end.
Qed.

Lemma amazon_strategy_2_length item divs :
  forall found, len found < 10 -> len (Amazon.strategy_2 item divs found) <= 10.
Proof.
  induction divs as [|div rest IH]; intros found Hf; simpl; [lia|].
  destruct (el_text div) as [t|e]; [|apply IH; exact Hf].
  destruct (_ && _); [|apply IH; exact Hf].
  assert (Hl : len (found ++ [div]) = len found + 1).
  { unfold len. rewrite length_app. simpl. lia. }
  destruct (10 <=? len (found ++ [div])) eqn:E5; [lia|].
  apply IH. apply Z.leb_gt in E5. exact E5.
Qed.

End SearchFacts.

Section SearchBudget.
Context {R : Runtime}.

Lemma noon_search_item_budget self item rs :
  Noon.search_item self item = Ok rs ->
  Forall (fun p => budget_flag (Noon.max_price item) (Noon.price_value p) <> Some false) rs.
Proof.
  intros H. apply noon_search_item_cases in H as [->|[found ->]]; [constructor|].
  apply filter_products_budget; constructor.
Qed.

Lemma namshi_search_item_budget self item rs :
  Namshi.search_item self item = Ok rs ->
  Forall (fun p => budget_flag (Namshi.max_price item) (Namshi.price_value p) <> Some false) rs.
Proof.
  intros H. apply namshi_search_item_cases in H as [->|[found ->]]; [constructor|].
  apply filter_products_budget; constructor.
Qed.

Lemma amazon_search_item_budget self item rs :
  Amazon.search_item self item = Ok rs ->
  Forall (fun p => budget_flag (Amazon.max_price item) (Amazon.price_value p) <> Some false) rs.
Proof.
  intros H. apply amazon_search_item_cases in H as [->|[found ->]]; [constructor|].
  apply filter_products_budget; constructor.
Qed.

(** The searches of [main] never fail, and what they keep under a key is
    not over the budget kept with it. *)
Lemma amazon_search_all_budget self items :
  exists results,
    Amazon.search_all self items = Ok results
    /\ forall key data,
         In (key, data) results ->
         Forall (fun p => budget_flag (Amazon.data_max_price data) (Amazon.price_value p)
                          <> Some false)
                (Amazon.data_products data).
Proof.
  unfold Amazon.search_all.
  assert (G : forall all_results,
            (forall key data, In (key, data) all_results ->
               Forall (fun p => budget_flag (Amazon.data_max_price data) (Amazon.price_value p)
                                <> Some false) (Amazon.data_products data)) ->
            exists results,
              fold_left (fun acc item =>
                           all_results <- acc ;;
                           results <- Amazon.search_item self item ;;
                           Ok (dict_set (Amazon.name item)
                                 {| Amazon.data_products := results;
                                    Amazon.data_max_price := Amazon.max_price item |}
                                 all_results))
                        items (Ok all_results) = Ok results
              /\ forall key data, In (key, data) results ->
                   Forall (fun p => budget_flag (Amazon.data_max_price data) (Amazon.price_value p)
                                    <> Some false) (Amazon.data_products data)).
  { induction items as [|item rest IH]; intros all_results Hall; simpl.
    - eauto.
    - destruct (amazon_search_item_total self item) as [rs Hrs]. rewrite Hrs. simpl.
      apply IH. intros key data Hin.
      apply dict_set_In in Hin as [->|Hin]; [|eapply Hall; exact Hin].
      simpl. eapply amazon_search_item_budget; exact Hrs. }
  apply G. intros key data [].
Qed.

Lemma unified_search_site_budget key name mp r all_results :
  (forall rs, r = Ok (Some rs) ->
     Forall (fun p => budget_flag mp (Unified.price_value p) <> Some false) rs) ->
  (forall k data, In (k, data) all_results ->
     Forall (fun p => budget_flag (Unified.max_price data) (Unified.price_value p) <> Some false)
            (Unified.products data)) ->
  forall k data,
    In (k, data) (Unified.search_site key name mp r all_results) ->
    Forall (fun p => budget_flag (Unified.max_price data) (Unified.price_value p) <> Some false)
           (Unified.products data).
Proof.
  intros Hr Hall k data Hin. unfold Unified.search_site in Hin.
  destruct r as [[rs|]|e]; apply dict_set_In in Hin as [->|Hin];
    try (eapply Hall; exact Hin); simpl; try constructor.
  apply Hr; reflexivity.
Qed.

Lemma unified_search_all_sites_budget imports w term mp headless results :
  Unified.search_all_sites imports w term mp headless = Ok results ->
  forall k data,
    In (k, data) results ->
    Forall (fun p => budget_flag (Unified.max_price data) (Unified.price_value p) <> Some false)
           (Unified.products data).
Proof.
  unfold Unified.search_all_sites, try_except.
  destruct imports as [[]|e]; simpl.
  2: { destruct (_ || _); intros [= <-]; intros k data []. }
  intros [= <-].
  apply unified_search_site_budget; [|apply unified_search_site_budget;
                                       [|apply unified_search_site_budget; [|intros k data []]]].
  - unfold Unified.amazon_search.
    destruct (Amazon.setup_driver _ _) as [[] s]; [|intros ? [=]].
    destruct (amazon_search_item_total s {| Amazon.name := term; Amazon.max_price := mp |})
      as [rs Hrs]. rewrite Hrs. simpl. intros ? [= <-].
    apply amazon_search_item_budget in Hrs. simpl in Hrs.
    apply Forall_map. exact Hrs.
  - unfold Unified.namshi_search.
    destruct (Namshi.setup_driver _ _) as [[] s]; [|intros ? [=]].
    destruct (namshi_search_item_total s {| Namshi.name := term; Namshi.max_price := mp |})
      as [rs Hrs]. rewrite Hrs. simpl. intros ? [= <-].
    apply namshi_search_item_budget in Hrs. simpl in Hrs.
    apply Forall_map. exact Hrs.
  - unfold Unified.noon_search.
    destruct (Noon.setup_driver _ _) as [[] s]; [|intros ? [=]].
    destruct (noon_search_item_total s {| Noon.name := term; Noon.max_price := mp |})
      as [rs Hrs]. rewrite Hrs. simpl. intros ? [= <-].
    apply noon_search_item_budget in Hrs. simpl in Hrs.
    apply Forall_map. exact Hrs.
Qed.

End SearchBudget.

(** ** What is saved *)

Section SavedFacts.

Lemma budget_flag_annotation mp pv : budget_annotation (budget_flag mp pv) pv mp.
Proof.
  split; [apply budget_flag_some|apply budget_flag_absent].
Qed.

(** The entries [save_unified_results] writes. *)
Lemma unified_saved_sites now results term key site :
  In (key, site) (Unified.sites (Unified.save_unified_results now results term)) ->
  exists data,
    In data (List.map snd results)
    /\ site = {| Unified.site_name := Unified.site data;
                 Unified.max_price_filter := Unified.max_price data;
                 Unified.product_count := len (Unified.products data);
                 Unified.saved_products :=
                   List.map (Unified.save_product (Unified.max_price data))
                            (Unified.products data) |}.
Proof.
  unfold Unified.save_unified_results; cbn [Unified.sites].
  intros H.
  refine (fold_dict_set_values fst
            (fun kv : str * Unified.site_data =>
               {| Unified.site_name := Unified.site (snd kv);
                  Unified.max_price_filter := Unified.max_price (snd kv);
                  Unified.product_count := len (Unified.products (snd kv));
                  Unified.saved_products :=
                    List.map (Unified.save_product (Unified.max_price (snd kv)))
                             (Unified.products (snd kv)) |})
            _
            (fun site => exists data, In data (List.map snd results) /\ site = _)
            results _ _ [] _ key site H).
  - intros acc [k d]; reflexivity.
  - intros kv Hkv. exists (snd kv). split; [apply in_map; exact Hkv|reflexivity].
  - intros k v [].
Qed.

Lemma amazon_saved_searches results key saved :
  In (key, saved) (Amazon.save_results results) ->
  exists data,
    In data (List.map snd results)
    /\ saved = {| Amazon.max_price_filter := Amazon.data_max_price data;
                  Amazon.saved_products :=
                    List.map (Amazon.save_product (Amazon.data_max_price data))
                             (Amazon.data_products data) |}.
Proof.
  unfold Amazon.save_results. intros H.
  refine (fold_dict_set_values fst
            (fun kv : str * Amazon.search_data =>
               {| Amazon.max_price_filter := Amazon.data_max_price (snd kv);
                  Amazon.saved_products :=
                    List.map (Amazon.save_product (Amazon.data_max_price (snd kv)))
                             (Amazon.data_products (snd kv)) |})
            _
            (fun saved => exists data, In data (List.map snd results) /\ saved = _)
            results _ _ [] _ key saved H).
  - intros acc [k d]; reflexivity.
  - intros kv Hkv. exists (snd kv). split; [apply in_map; exact Hkv|reflexivity].
  - intros k v [].
Qed.

End SavedFacts.

(** ** Reading the items file *)

Section ItemFacts.
Context {R : Runtime}.

(** A line adds its items, none or one, to those read so far, whatever
    they are; it never fails. *)
Lemma parse_line_appends line :
  exists ys, forall items, Noon.parse_line items line = Ok (items ++ ys).
Proof.
  unfold Noon.parse_line.
  destruct (negb (str_bool (strip line)) || startswith (u "#") (strip line)).
  { exists []. intros items. rewrite app_nil_r. reflexivity. }
  destruct (contains (u ",") (strip line)); [|eexists; intros; reflexivity].
  destruct (List.map strip (split (u ",") (strip line))) as [|item_name [|price_part rest]];
    try (eexists; intros; reflexivity).
  destruct (float_of_str price_part) as [x|e] eqn:E.
  - eexists; intros; reflexivity.
  - apply float_of_str_raises in E as ->. eexists; intros; reflexivity.
Qed.

Lemma parse_lines_appends lines :
  exists ys, forall items, Noon.parse_lines lines items = Ok (items ++ ys).
Proof.
  induction lines as [|line rest [zs IH]]; simpl.
  - exists []. intros items. rewrite app_nil_r. reflexivity.
  - destruct (parse_line_appends line) as [ys Hys].
    exists (ys ++ zs). intros items. rewrite Hys. simpl. rewrite IH, app_assoc. reflexivity.
Qed.

Lemma parse_lines_app before after items :
  Noon.parse_lines (before ++ after) items =
  (xs <- Noon.parse_lines before items ;; Noon.parse_lines after xs).
Proof.
  revert items. induction before as [|line rest IH]; intros items; simpl; [reflexivity|].
  destruct (Noon.parse_line items line) as [ys|e]; simpl; [apply IH|reflexivity].
Qed.

(** Reading a file whose lines are at hand is the loop over its lines. *)
Lemma parse_items_from_lines lines file_path :
  Noon.parse_items_from_file (fun _ => Ok lines) file_path = Noon.parse_lines lines [].
Proof.
  unfold Noon.parse_items_from_file, try_except. simpl.
  destruct (parse_lines_appends lines) as [ys Hys]. rewrite Hys. reflexivity.
Qed.

End ItemFacts.

(** ** The sources of a session *)

Section SourceFacts.
Context {R : Runtime}.

Lemma noon_outcome w search_term max_price headless :
  exists products,
    (forall all_results,
        Unified.search_site (u "noon") (u "Noon.com") max_price
          (Unified.noon_search w search_term max_price headless) all_results
        = dict_set (u "noon")
            {| Unified.site := u "Noon.com"; Unified.products := products;
               Unified.max_price := max_price |} all_results)
    /\ source_outcome
         (Noon.setup_driver (Unified.noon_chrome w)
            {| Noon.headless := headless; Noon.driver := None |})
         (fun s => Noon.search_item_body s
                     {| Noon.name := search_term; Noon.max_price := max_price |})
         (fun s => Noon.search_item s
                     {| Noon.name := search_term; Noon.max_price := max_price |})
         Unified.NoonProduct products.
Proof.
  unfold Unified.noon_search, source_outcome.
  destruct (Noon.setup_driver _ _) as [[] s]; cbn [fst snd].
  - unfold Noon.search_item, try_except.
    destruct (Noon.search_item_body s _) as [rs|e] eqn:E; simpl.
    + exists (List.map Unified.NoonProduct rs). repeat split; try discriminate; eauto.
    + exists []. repeat split; eauto.
  - exists []. repeat split; auto. discriminate.
Qed.

Lemma namshi_outcome w search_term max_price headless :
  exists products,
    (forall all_results,
        Unified.search_site (u "namshi") (u "Namshi.com") max_price
          (Unified.namshi_search w search_term max_price headless) all_results
        = dict_set (u "namshi")
            {| Unified.site := u "Namshi.com"; Unified.products := products;
               Unified.max_price := max_price |} all_results)
    /\ source_outcome
         (Namshi.setup_driver (Unified.namshi_chrome w)
            {| Namshi.headless := headless; Namshi.driver := None |})
         (fun s => Namshi.search_item_body s
                     {| Namshi.name := search_term; Namshi.max_price := max_price |})
         (fun s => Namshi.search_item s
                     {| Namshi.name := search_term; Namshi.max_price := max_price |})
         Unified.NamshiProduct products.
Proof.
  unfold Unified.namshi_search, source_outcome.
  destruct (Namshi.setup_driver _ _) as [[] s]; cbn [fst snd].
  - unfold Namshi.search_item, try_except.
    destruct (Namshi.search_item_body s _) as [rs|e] eqn:E; simpl.
    + exists (List.map Unified.NamshiProduct rs). repeat split; try discriminate; eauto.
    + exists []. repeat split; eauto.
  - exists []. repeat split; auto. discriminate.
Qed.

Lemma amazon_outcome w search_term max_price headless :
  exists products,
    (forall all_results,
        Unified.search_site (u "amazon") (u "Amazon.ae") max_price
          (Unified.amazon_search w search_term max_price headless) all_results
        = dict_set (u "amazon")
            {| Unified.site := u "Amazon.ae"; Unified.products := products;
               Unified.max_price := max_price |} all_results)
    /\ source_outcome
         (Amazon.setup_driver (Unified.amazon_chrome w)
            {| Amazon.headless := headless; Amazon.driver := None |})
         (fun s => Amazon.search_item_body s
                     {| Amazon.name := search_term; Amazon.max_price := max_price |})
         (fun s => Amazon.search_item s
                     {| Amazon.name := search_term; Amazon.max_price := max_price |})
         Unified.AmazonProduct products.
Proof.
  unfold Unified.amazon_search, source_outcome.
  destruct (Amazon.setup_driver _ _) as [[] s]; cbn [fst snd].
  - unfold Amazon.search_item, try_except.
    destruct (Amazon.search_item_body s _) as [rs|e] eqn:E; simpl.
    + exists (List.map Unified.AmazonProduct rs). repeat split; try discriminate; eauto.
    + exists []. repeat split; eauto.
  - exists []. repeat split; auto. discriminate.
Qed.

End SourceFacts.

(** ** The record builders *)

Section BuilderFacts.
Context {R : Runtime}.

Lemma cleaned_aed price_text : cleaned (u "AED " ++ price_text) = cleaned price_text.
Proof.
  unfold cleaned, Noon.not_price_char. rewrite !sub_chr_filter.
  change (u "AED ") with [65; 69; 68; 32]. reflexivity.
Qed.

Lemma noon_price_value_of_price element search_term r :
  Noon.extract_simple_product_info element search_term = Ok (Some r) ->
  Noon.extract_numeric_price (Noon.price r) = Ok (Noon.price_value r).
Proof.
  unfold Noon.extract_simple_product_info, try_except.
  match goal with |- match ?b with _ => _ end = _ -> _ => destruct b as [o|e] eqn:E end;
    [|simpl; discriminate].
  intros [= ->].
  repeat match type of E with
  | Py.bind ?r _ = Ok _ =>
    let E' := fresh "E" in destruct r eqn:E'; cbn [Py.bind] in E; [|discriminate E]
  | (if ?c then Ok None else _) = Ok _ => destruct c; [discriminate E|]
  end.
  injection E as <-. cbn [Noon.price Noon.price_value]. assumption.
Qed.

(** On namshi.com a price taken from a pattern is above 10. *)
Lemma namshi_pattern_floor patterns full_text p v :
  Namshi.price_from_patterns patterns full_text = Ok (Some (p, v)) ->
  float_lt (float_of_int 10) v = true.
Proof.
  induction patterns as [|pattern rest IH]; simpl; [discriminate|].
  destruct (Re.search true pattern full_text) as [m|]; [|exact IH].
  destruct (isdigit _); [|exact IH].
  destruct (float_of_str (the_group m)) as [x|e] eqn:E; simpl; [|discriminate].
  destruct (float_lt (float_of_int 10) x) eqn:Elt; [|exact IH].
  intros [= _ <-]. exact Elt.
Qed.

Lemma amazon_extract_never_raises element search_term :
  exists o, Amazon.extract_amazon_product_info element search_term = Ok o.
Proof.
  unfold Amazon.extract_amazon_product_info, try_except.
  match goal with |- exists o, match ?b with _ => _ end = _ => destruct b end;
    simpl; eauto.
Qed.

Lemma noon_extract_never_raises element search_term :
  exists o, Noon.extract_simple_product_info element search_term = Ok o.
Proof.
  unfold Noon.extract_simple_product_info, try_except.
  match goal with |- exists o, match ?b with _ => _ end = _ => destruct b end;
    simpl; eauto.
Qed.

End BuilderFacts.

(** ** Floats shown and read back *)

Section BinaryDigits.

Lemma digits2_pos_bounds p :
  2 ^ (Z.pos (digits2_pos p) - 1) <= Z.pos p < 2 ^ Z.pos (digits2_pos p).
Proof.
  induction p as [p IH|p IH|]; cbn [digits2_pos].
  - rewrite Pos2Z.inj_succ.
    replace (Z.succ (Z.pos (digits2_pos p)) - 1) with (Z.succ (Z.pos (digits2_pos p) - 1)) by lia.
    rewrite !Z.pow_succ_r by lia. lia.
  - rewrite Pos2Z.inj_succ.
    replace (Z.succ (Z.pos (digits2_pos p)) - 1) with (Z.succ (Z.pos (digits2_pos p) - 1)) by lia.
    rewrite !Z.pow_succ_r by lia. lia.
  - simpl. lia.
Qed.

Lemma Zdigits2_bounds q : 0 < q -> 2 ^ (Zdigits2 q - 1) <= q < 2 ^ Zdigits2 q.
Proof.
  destruct q as [|p|p]; try lia. intros _. apply digits2_pos_bounds.
Qed.

Lemma Zdigits2_pos q : 0 < q -> 0 < Zdigits2 q.
Proof. destruct q; simpl; lia. Qed.

Lemma Zdigits2_nonneg q : 0 <= Zdigits2 q.
Proof. destruct q; simpl; lia. Qed.

Lemma pow2_lt_inv a b : 0 <= b -> 2 ^ a < 2 ^ b -> a < b.
Proof.
  intros Hb H. destruct (Z_lt_le_dec a b) as [|Hge]; [assumption|].
  exfalso. pose proof (Z.pow_le_mono_r 2 b a ltac:(lia) Hge). lia.
Qed.

Lemma Zdigits2_unique q k : 0 < k -> 2 ^ (k - 1) <= q < 2 ^ k -> Zdigits2 q = k.
Proof.
  intros Hk [Hlo Hhi].
  assert (Hq : 0 < q) by (pose proof (Z.pow_pos_nonneg 2 (k - 1)); lia).
  pose proof (Zdigits2_bounds q Hq) as [Hl Hh].
  pose proof (Zdigits2_pos q Hq).
  assert (Zdigits2 q - 1 < k) by (apply pow2_lt_inv; lia).
  assert (k - 1 < Zdigits2 q) by (apply pow2_lt_inv; lia).
  lia.
Qed.

End BinaryDigits.

Section Records.

Lemma new_location_bits q b r :
  0 <= r < b ->
  shr_record_of_loc q (new_location b r)
  = {| shr_m := q; shr_r := b <=? 2 * r;
       shr_s := negb (r =? 0) && negb (2 * r =? b) |}.
Proof.
  intros Hr. unfold new_location, new_location_even, new_location_odd.
  destruct (Z.even b) eqn:Eb.
  - destruct (Z.eq_dec r 0) as [E0|E0].
    + subst r. change (0 =? 0) with true. cbn [shr_record_of_loc negb andb].
      decide_b. reflexivity.
    + rewrite (proj2 (Z.eqb_neq r 0)) by lia.
      destruct (2 * r ?= b) eqn:C.
      * apply Z.compare_eq in C. cbn [shr_record_of_loc]. decide_b. reflexivity.
      * rewrite Z.compare_lt_iff in C. cbn [shr_record_of_loc]. decide_b. reflexivity.
      * rewrite Z.compare_gt_iff in C. cbn [shr_record_of_loc]. decide_b. reflexivity.
  - assert (Hodd : Z.odd b = true) by (rewrite <- Z.negb_even, Eb; reflexivity).
    apply Z.odd_spec in Hodd. destruct Hodd as [k Hk].
    destruct (Z.eq_dec r 0) as [E0|E0].
    + subst r. change (0 =? 0) with true. cbn [shr_record_of_loc negb andb].
      decide_b. reflexivity.
    + rewrite (proj2 (Z.eqb_neq r 0)) by lia.
      destruct (2 * r + 1 ?= b) eqn:C.
      * apply Z.compare_eq in C. cbn [shr_record_of_loc]. decide_b. reflexivity.
      * rewrite Z.compare_lt_iff in C. cbn [shr_record_of_loc]. decide_b. reflexivity.
      * rewrite Z.compare_gt_iff in C. cbn [shr_record_of_loc]. decide_b. reflexivity.
Qed.

Lemma shr_1_spec m r s :
  0 <= m ->
  shr_1 {| shr_m := m; shr_r := r; shr_s := s |}
  = {| shr_m := m / 2; shr_r := Z.odd m; shr_s := r || s |}.
Proof.
  intros Hm. destruct m as [|p|p]; try lia; [reflexivity|].
  destruct p as [p|p|]; cbn [shr_1].
  - f_equal. rewrite Pos2Z.inj_xI. apply Z.div_unique with 1; lia.
  - f_equal. rewrite Pos2Z.inj_xO. apply Z.div_unique with 0; lia.
  - reflexivity.
Qed.

Lemma shr_1_rec_of N D :
  0 <= N -> 0 < D -> shr_1 (rec_of N D) = rec_of N (2 * D).
Proof.
  intros HN HD. unfold rec_of.
  rewrite shr_1_spec by (apply Z.div_pos; lia).
  pose proof (Z.div_mod N D ltac:(lia)) as E.
  pose proof (Z.mod_pos_bound N D HD) as HR.
  set (q := N / D) in *. set (R := N mod D) in *.
  pose proof (Z.div_mod q 2 ltac:(lia)) as Eq.
  pose proof (Z.mod_pos_bound q 2 ltac:(lia)) as Hq2.
  assert (Hdiv : N / (2 * D) = q / 2).
  { symmetry. apply Z.div_unique with (D * (q mod 2) + R); [nia|nia]. }
  assert (Hmod : N mod (2 * D) = D * (q mod 2) + R).
  { symmetry. apply Z.mod_unique with (q / 2); [nia|nia]. }
  rewrite Hdiv, Hmod.
  assert (Hodd : Z.odd q = (q mod 2 =? 1)).
  { rewrite Zmod_odd. destruct (Z.odd q); reflexivity. }
  rewrite Hodd.
  assert (Hb : q mod 2 = 0 \/ q mod 2 = 1) by lia.
  destruct (Z.eq_dec R 0) as [HR0|HR0]; destruct Hb as [Hb|Hb]; rewrite Hb;
    destruct (Z_lt_le_dec (2 * R) D); destruct (Z.eq_dec (2 * R) D);
    try lia; decide_b; reflexivity.
Qed.

Lemma pow2_double p : 2 ^ Z.pos p~0 = 2 ^ Z.pos p * 2 ^ Z.pos p.
Proof. rewrite (Pos2Z.inj_xO p). replace (2 * Z.pos p) with (Z.pos p + Z.pos p) by lia.
  apply Z.pow_add_r; lia. Qed.

Lemma pow2_double1 p : 2 ^ Z.pos p~1 = 2 * (2 ^ Z.pos p * 2 ^ Z.pos p).
Proof. rewrite (Pos2Z.inj_xI p). replace (2 * Z.pos p + 1) with (Z.succ (Z.pos p + Z.pos p)) by lia.
  rewrite Z.pow_succ_r by lia. rewrite Z.pow_add_r by lia. reflexivity. Qed.

Lemma iter_shr_1_rec_of p : forall N D,
  0 <= N -> 0 < D ->
  SpecFloat.iter_pos shr_1 p (rec_of N D) = rec_of N (D * 2 ^ Z.pos p).
Proof.
  induction p as [p IH|p IH|]; intros N D HN HD; cbn [SpecFloat.iter_pos].
  - assert (0 < 2 ^ Z.pos p) by (apply Z.pow_pos_nonneg; lia).
    rewrite shr_1_rec_of by assumption.
    rewrite IH by lia.
    rewrite IH by nia.
    rewrite pow2_double1. f_equal. ring.
  - assert (0 < 2 ^ Z.pos p) by (apply Z.pow_pos_nonneg; lia).
    rewrite IH by lia. rewrite IH by nia.
    rewrite pow2_double. f_equal. ring.
  - rewrite shr_1_rec_of by assumption. f_equal. change (2 ^ 1) with 2. ring.
Qed.

Lemma rec_of_scale k N D :
  0 < k -> 0 < D -> rec_of (k * N) (k * D) = rec_of N D.
Proof.
  intros Hk HD. unfold rec_of.
  rewrite Z.div_mul_cancel_l by lia.
  rewrite Zmult_mod_distr_l.
  pose proof (Z.mod_pos_bound N D HD) as HR.
  set (R := N mod D) in *.
  f_equal.
  - destruct (D <=? 2 * R) eqn:E.
    + apply Z.leb_le in E. apply Z.leb_le. nia.
    + apply Z.leb_gt in E. apply Z.leb_gt. nia.
  - f_equal.
    + f_equal. destruct (R =? 0) eqn:E.
      * apply Z.eqb_eq in E. apply Z.eqb_eq. nia.
      * apply Z.eqb_neq in E. apply Z.eqb_neq. nia.
    + f_equal. destruct (2 * R =? D) eqn:E.
      * apply Z.eqb_eq in E. apply Z.eqb_eq. nia.
      * apply Z.eqb_neq in E. apply Z.eqb_neq. nia.
Qed.

(** The record depends on the ratio only. *)
Lemma rec_of_ratio N D N' D' :
  0 < D -> 0 < D' -> N * D' = N' * D -> rec_of N D = rec_of N' D'.
Proof.
  intros HD HD' E.
  rewrite <- (rec_of_scale D' N D) by assumption.
  rewrite <- (rec_of_scale D N' D') by assumption.
  f_equal; lia.
Qed.

End Records.

Section Magnitude.

Lemma fexp_eq e : fexp prec emax e = Z.max (e - 53) (-1074).
Proof. reflexivity. Qed.

Lemma pow2_pos n : 0 <= n -> 0 < 2 ^ n.
Proof. intros; apply Z.pow_pos_nonneg; lia. Qed.

Lemma pow2_le a b : 0 <= a <= b -> 2 ^ a <= 2 ^ b.
Proof. intros; apply Z.pow_le_mono_r; lia. Qed.

Lemma pow2_lt a b : 0 <= a < b -> 2 ^ a < 2 ^ b.
Proof. intros; apply Z.pow_lt_mono_r; lia. Qed.

Lemma div_core_eq a b :
  0 < a -> 0 < b ->
  SFdiv_core_binary prec emax a 0 b 0
  = let e' := Z.min (Z.max (Zdigits2 a - Zdigits2 b - 53) (-1074)) 0 in
    (a * 2 ^ (- e') / b, e', new_location b ((a * 2 ^ (- e')) mod b)).
Proof.
  intros Ha Hb. unfold SFdiv_core_binary.
  rewrite fexp_eq.
  replace (Zdigits2 a + 0 - (Zdigits2 b + 0) - 53) with (Zdigits2 a - Zdigits2 b - 53) by lia.
  replace (0 - 0) with 0 by lia.
  set (e' := Z.min (Z.max (Zdigits2 a - Zdigits2 b - 53) (-1074)) 0).
  assert (He : e' <= 0) by (unfold e'; lia).
  cbv zeta.
  assert (Hm : match 0 - e' with
               | 0 => a
               | Z.pos _ => Z.shiftl a (0 - e')
               | Z.neg _ => 0
               end = a * 2 ^ (- e')).
  { replace (0 - e') with (- e') by lia.
    assert (Hs : 0 <= - e') by lia. revert Hs. generalize (- e'). intros s Hs.
    destruct s as [|p|p];
      [cbn; lia|rewrite Z.shiftl_mul_pow2 by lia; reflexivity|lia]. }
  rewrite Hm. unfold Z.div, Z.modulo.
  destruct (Z.div_eucl (a * 2 ^ (- e')) b) as [q r]. reflexivity.
Qed.

Lemma div_digits q n :
  0 < q -> 0 <= n < Zdigits2 q -> Zdigits2 (q / 2 ^ n) = Zdigits2 q - n.
Proof.
  intros Hq Hn. pose proof (Zdigits2_bounds q Hq) as [Hl Hh].
  pose proof (pow2_pos n ltac:(lia)) as Hp.
  apply Zdigits2_unique; [lia|]. split.
  - apply Z.div_le_lower_bound; [lia|].
    rewrite <- Z.pow_add_r by lia.
    replace (n + (Zdigits2 q - n - 1)) with (Zdigits2 q - 1) by lia. exact Hl.
  - apply Z.div_lt_upper_bound; [lia|].
    rewrite <- Z.pow_add_r by lia.
    replace (n + (Zdigits2 q - n)) with (Zdigits2 q) by lia. exact Hh.
Qed.

Lemma div_small q n : 0 <= q -> Zdigits2 q <= n -> q / 2 ^ n = 0.
Proof.
  intros Hq Hn. apply Z.div_small. split; [lia|].
  destruct (Z.eq_dec q 0) as [->|Hq0]; [apply pow2_pos; pose proof (Zdigits2_nonneg 0); lia|].
  pose proof (Zdigits2_bounds q ltac:(lia)) as [_ Hh].
  pose proof (Zdigits2_nonneg q).
  pose proof (pow2_le (Zdigits2 q) n ltac:(lia)). lia.
Qed.

(** The digits of a quotient, less the shift, depend on the ratio only. *)
Lemma quot_digits_le a b s s' :
  0 < a -> 0 < b -> 0 <= s -> 0 <= s' ->
  1 <= a * 2 ^ s / b -> 1 <= a * 2 ^ s' / b ->
  Zdigits2 (a * 2 ^ s / b) - s <= Zdigits2 (a * 2 ^ s' / b) - s'.
Proof.
  intros Ha Hb Hs Hs' Hq Hq'.
  assert (Hq0 : 0 < a * 2 ^ s / b) by lia.
  assert (Hq0' : 0 < a * 2 ^ s' / b) by lia.
  pose proof (Zdigits2_bounds _ Hq0) as [Hl _].
  pose proof (Zdigits2_bounds _ Hq0') as [_ Hh'].
  set (d := Zdigits2 (a * 2 ^ s / b)) in *.
  set (d' := Zdigits2 (a * 2 ^ s' / b)) in *.
  assert (Hd : 0 < d) by (apply Zdigits2_pos; lia).
  assert (Hd' : 0 < d') by (apply Zdigits2_pos; lia).
  pose proof (pow2_pos s Hs). pose proof (pow2_pos s' Hs').
  (* 2^(d-1) * b <= a * 2^s   and   a * 2^s' < 2^d' * b *)
  assert (H1 : 2 ^ (d - 1) * b <= a * 2 ^ s).
  { pose proof (Z.mul_div_le (a * 2 ^ s) b Hb). nia. }
  assert (H2 : a * 2 ^ s' < 2 ^ d' * b).
  { pose proof (Z.mul_succ_div_gt (a * 2 ^ s') b Hb). nia. }
  assert (H3 : 2 ^ (d - 1 + s') < 2 ^ (d' + s)).
  { rewrite !Z.pow_add_r by lia.
    assert (2 ^ (d - 1) * 2 ^ s' * b < 2 ^ d' * 2 ^ s * b); [|nia].
    assert (2 ^ (d - 1) * b * 2 ^ s' <= a * 2 ^ s * 2 ^ s') by nia.
    assert (a * 2 ^ s' * 2 ^ s < 2 ^ d' * b * 2 ^ s) by nia.
    lia. }
  apply pow2_lt_inv in H3; lia.
Qed.

Lemma quot_digits_inv a b s s' :
  0 < a -> 0 < b -> 0 <= s -> 0 <= s' ->
  1 <= a * 2 ^ s / b -> 1 <= a * 2 ^ s' / b ->
  Zdigits2 (a * 2 ^ s / b) - s = Zdigits2 (a * 2 ^ s' / b) - s'.
Proof.
  intros. apply Z.le_antisymm; apply quot_digits_le; assumption.
Qed.

Lemma magn_quot_pos a b : 0 < a -> 0 < b -> 1 <= a * 2 ^ Zdigits2 b / b.
Proof.
  intros Ha Hb. pose proof (Zdigits2_bounds b Hb) as [_ Hh].
  apply Z.div_le_lower_bound; [lia|]. nia.
Qed.

Lemma magn_quot a b s :
  0 < a -> 0 < b -> 0 <= s -> 1 <= a * 2 ^ s / b ->
  Zdigits2 (a * 2 ^ s / b) - s = magn a b.
Proof.
  intros Ha Hb Hs Hq. unfold magn.
  apply quot_digits_inv; try assumption.
  - apply Zdigits2_nonneg.
  - apply magn_quot_pos; assumption.
Qed.

Lemma magn_scale k a b : 0 < k -> 0 < a -> 0 < b -> magn (k * a) (k * b) = magn a b.
Proof.
  intros Hk Ha Hb. unfold magn at 1.
  replace (k * a * 2 ^ Zdigits2 (k * b)) with (k * (a * 2 ^ Zdigits2 (k * b))) by ring.
  rewrite Z.div_mul_cancel_l by lia.
  apply magn_quot; try assumption.
  - apply Zdigits2_nonneg.
  - pose proof (Zdigits2_bounds (k * b) ltac:(nia)) as [_ Hh].
    apply Z.div_le_lower_bound; [lia|]. nia.
Qed.

(** The magnitude is the only [L] with [2 ^ (L - 1) <= a / b < 2 ^ L]. *)
Lemma magn_unique a b L c :
  0 < a -> 0 < b -> 0 <= c -> 0 <= L - 1 + c ->
  2 ^ (L - 1 + c) * b <= a * 2 ^ c < 2 ^ (L + c) * b ->
  magn a b = L.
Proof.
  intros Ha Hb Hc HL [Hlo Hhi].
  assert (Hq : 1 <= a * 2 ^ c / b).
  { apply Z.div_le_lower_bound; [lia|].
    pose proof (pow2_pos (L - 1 + c) HL). nia. }
  rewrite <- (magn_quot a b c) by assumption.
  assert (Zdigits2 (a * 2 ^ c / b) = L + c); [|lia].
  apply Zdigits2_unique; [lia|]. split.
  - apply Z.div_le_lower_bound; [lia|].
    replace (L + c - 1) with (L - 1 + c) by lia. lia.
  - apply Z.div_lt_upper_bound; [lia|]. lia.
Qed.

End Magnitude.

Section RatioShape.

Lemma P2_pos e : 0 < P2 e.
Proof. apply pow2_pos; lia. Qed.

Lemma Q2_pos e : 0 < Q2 e.
Proof. apply pow2_pos; lia. Qed.

Lemma shr_rec_of N D e n :
  0 <= N -> 0 < D -> 0 <= n ->
  shr (rec_of N D) e n = (rec_of N (D * 2 ^ n), e + n).
Proof.
  intros HN HD Hn. unfold shr. destruct n as [|p|p]; try lia.
  - rewrite Z.pow_0_r, Z.mul_1_r, Z.add_0_r. reflexivity.
  - rewrite iter_shr_1_rec_of by assumption. reflexivity.
Qed.

Lemma quot_large a b s k :
  0 < a -> 0 < b -> 0 <= s -> 0 <= k ->
  2 ^ k * b <= a * 2 ^ s -> k + 1 <= Zdigits2 (a * 2 ^ s / b).
Proof.
  intros Ha Hb Hs Hk H.
  assert (Hq : 2 ^ k <= a * 2 ^ s / b) by (apply Z.div_le_lower_bound; lia).
  pose proof (pow2_pos k Hk).
  pose proof (Zdigits2_bounds (a * 2 ^ s / b) ltac:(lia)) as [_ Hh].
  pose proof (Zdigits2_nonneg (a * 2 ^ s / b)).
  assert (k < Zdigits2 (a * 2 ^ s / b)) by (apply pow2_lt_inv; lia).
  lia.
Qed.

Lemma float_of_ratio_pos neg a b :
  0 < a ->
  float_of_ratio neg a b
  = let '(q, e, l) := SFdiv_core_binary prec emax a 0 b 0 in
    binary_round_aux prec emax neg q e l.
Proof. intros Ha. destruct a; try lia. reflexivity. Qed.

Lemma float_of_ratio_char neg a b :
  0 < a -> 0 < b ->
  exists N D e1,
    0 <= N /\ 0 < D
    /\ float_of_ratio neg a b = finish neg (rec_of N D) e1
    /\ N * (b * P2 e1) = a * Q2 e1 * D
    /\ e1 = Z.max (magn a b - 53) (-1074)
    /\ Zdigits2 (N / D) <= 53
    /\ (Zdigits2 (N / D) = 53 \/ e1 = -1074).
Proof.
  intros Ha Hb. rewrite float_of_ratio_pos by assumption.
  rewrite div_core_eq by assumption. cbv zeta.
  set (d1 := Zdigits2 a). set (d2 := Zdigits2 b).
  set (e' := Z.min (Z.max (d1 - d2 - 53) (-1074)) 0).
  set (s := - e'). assert (Hs : 0 <= s) by (unfold s, e'; lia).
  pose proof (pow2_pos s Hs) as Hps.
  set (N := a * 2 ^ s). assert (HN : 0 < N) by (unfold N; nia).
  set (q := N / b).
  assert (Hq0 : 0 <= q) by (apply Z.div_pos; lia).
  pose proof (Zdigits2_bounds a Ha) as [Ha1 Ha2]. fold d1 in Ha1, Ha2.
  pose proof (Zdigits2_bounds b Hb) as [Hb1 Hb2]. fold d2 in Hb1, Hb2.
  assert (Hd1 : 0 < d1) by (apply Zdigits2_pos; assumption).
  assert (Hd2 : 0 < d2) by (apply Zdigits2_pos; assumption).
  set (dq := Zdigits2 q). assert (Hdq : 0 <= dq) by apply Zdigits2_nonneg.
  (* unless clamped at -1074, the quotient has 53 digits or more *)
  assert (Hbig : -1074 < e' -> 53 <= dq).
  { intros He.
    assert (Hk : 2 ^ 52 * b <= a * 2 ^ s).
    { assert (Hds : d2 + 52 <= d1 - 1 + s) by (unfold s, e' in *; lia).
      pose proof (pow2_le (d2 + 52) (d1 - 1 + s) ltac:(lia)) as Hp.
      rewrite !Z.pow_add_r in Hp by lia.
      assert (2 ^ 52 * b <= 2 ^ 52 * 2 ^ d2) by lia.
      assert (2 ^ (d1 - 1) * 2 ^ s <= a * 2 ^ s) by nia.
      lia. }
    pose proof (quot_large a b s 52 Ha Hb Hs ltac:(lia) Hk). fold N q dq in H. lia. }
  set (n := Z.max (dq + e' - 53) (-1074) - e').
  assert (Hn : 0 <= n) by (unfold n; destruct (Z_lt_le_dec (-1074) e'); [specialize (Hbig l)|]; lia).
  pose proof (pow2_pos n Hn) as Hpn.
  exists N, (b * 2 ^ n), (e' + n).
  assert (Hmag : Z.max (dq + e' - 53) (-1074) = Z.max (magn a b - 53) (-1074)).
  { destruct (Z.eq_dec q 0) as [Hq|Hq].
    - assert (He : e' = -1074).
      { destruct (Z_lt_le_dec (-1074) e') as [Hl|Hl]; [|unfold e' in *; lia].
        specialize (Hbig Hl). unfold dq in Hbig. rewrite Hq in Hbig. simpl in Hbig. lia. }
      unfold dq. rewrite Hq. change (Zdigits2 0) with 0.
      assert (Hlt : a * 2 ^ 1074 < b).
      { assert (Hs1 : s = 1074) by (unfold s; lia). unfold q, N in Hq. rewrite Hs1 in Hq.
        apply Z.div_small_iff in Hq; lia. }
      assert (HL : magn a b <= -1074).
      { unfold magn. fold d2.
        pose proof (magn_quot_pos a b Ha Hb) as Hq1. fold d2 in Hq1.
        pose proof (Zdigits2_bounds (a * 2 ^ d2 / b) ltac:(lia)) as [Hl _].
        set (dS := Zdigits2 (a * 2 ^ d2 / b)) in *.
        assert (HdS : 0 < dS) by (apply Zdigits2_pos; lia).
        assert (H1 : 2 ^ (dS - 1) * b <= a * 2 ^ d2).
        { pose proof (Z.mul_div_le (a * 2 ^ d2) b Hb). nia. }
        assert (H2 : 2 ^ (dS - 1 + 1074) < 2 ^ d2).
        { rewrite Z.pow_add_r by lia.
          pose proof (pow2_pos (dS - 1) ltac:(lia)). pose proof (pow2_pos d2 ltac:(lia)).
          assert (2 ^ (dS - 1) * (a * 2 ^ 1074) < 2 ^ (dS - 1) * b) by nia.
          nia. }
        apply pow2_lt_inv in H2; lia. }
      lia.
    - assert (Hq1 : 1 <= a * 2 ^ s / b) by (fold N q; lia).
      pose proof (magn_quot a b s Ha Hb Hs Hq1) as Hm. fold N q dq in Hm.
      unfold s in Hm. replace (dq + e') with (magn a b) by lia. reflexivity. }
  assert (Hdiv : N / (b * 2 ^ n) = q / 2 ^ n).
  { unfold q. rewrite Z.div_div by lia. reflexivity. }
  split; [lia|]. split; [nia|]. split; [|split; [|split; [|split]]].
  - unfold binary_round_aux.
    change ((let '(mrs', e1) := shr_fexp prec emax q e' (new_location b (N mod b)) in
             finish neg mrs' e1) = finish neg (rec_of N (b * 2 ^ n)) (e' + n)).
    unfold shr_fexp. rewrite fexp_eq.
    rewrite new_location_bits by (apply Z.mod_pos_bound; lia).
    change {| shr_m := q; shr_r := b <=? 2 * (N mod b);
              shr_s := negb (N mod b =? 0) && negb (2 * (N mod b) =? b) |}
      with (rec_of N b).
    fold dq. fold n. rewrite shr_rec_of by lia. reflexivity.
  - unfold N, P2, Q2.
    destruct (Z_le_gt_dec 0 (e' + n)) as [He|He].
    + rewrite Z.max_l by lia. rewrite Z.max_r by lia.
      replace n with (e' + n + s) at 2 by (unfold s; lia).
      rewrite (Z.pow_add_r 2 (e' + n) s) by lia. rewrite Z.pow_0_r. ring.
    + rewrite Z.max_r by lia. rewrite Z.max_l by lia.
      replace s with (- (e' + n) + n) at 1 by (unfold s; lia).
      rewrite (Z.pow_add_r 2 (- (e' + n)) n) by lia. rewrite Z.pow_0_r. ring.
  - unfold n. rewrite <- Hmag. lia.
  - rewrite Hdiv.
    destruct (Z_lt_le_dec n dq) as [Hl|Hl].
    + assert (Hqp : 0 < q).
      { destruct (Z.eq_dec q 0) as [E|E]; [|lia].
        unfold dq in Hl. rewrite E in Hl. simpl in Hl. lia. }
      rewrite (div_digits q n Hqp) by (fold dq; lia).
      fold dq. unfold n. lia.
    + rewrite div_small by (fold dq; lia). simpl. lia.
  - rewrite Hdiv.
    destruct (Z_lt_le_dec n dq) as [Hl|Hl].
    + assert (Hqp : 0 < q).
      { destruct (Z.eq_dec q 0) as [E|E]; [|lia].
        unfold dq in Hl. rewrite E in Hl. simpl in Hl. lia. }
      rewrite (div_digits q n Hqp) by (fold dq; lia).
      fold dq. unfold n. lia.
    + right. unfold n in *. lia.
Qed.

(** What [float()] reads depends on the ratio only. *)
Lemma float_of_ratio_scale neg k a b :
  0 < k -> 0 < a -> 0 < b ->
  float_of_ratio neg (k * a) (k * b) = float_of_ratio neg a b.
Proof.
  intros Hk Ha Hb.
  destruct (float_of_ratio_char neg (k * a) (k * b) ltac:(nia) ltac:(nia))
    as (N' & D' & e1' & HN' & HD' & -> & Hr' & He' & _).
  destruct (float_of_ratio_char neg a b Ha Hb)
    as (N & D & e1 & HN & HD & -> & Hr & He & _).
  rewrite magn_scale in He' by assumption.
  assert (Ee : e1' = e1) by lia. clear He He'. subst e1'.
  f_equal. apply rec_of_ratio; try assumption.
  pose proof (P2_pos e1) as HP. pose proof (Q2_pos e1) as HQ.
  assert (E1 : N' * (b * P2 e1) = a * Q2 e1 * D').
  { apply (Z.mul_reg_l _ _ k); [lia|].
    transitivity (N' * (k * b * P2 e1)); [ring|]. rewrite Hr'. ring. }
  assert (E2 : (a * Q2 e1) * (N' * D) = (a * Q2 e1) * (N * D')).
  { transitivity (N' * (N * (b * P2 e1))); [rewrite Hr; ring|].
    transitivity (N * (N' * (b * P2 e1))); [ring|]. rewrite E1. ring. }
  apply Z.mul_reg_l in E2; [lia|nia].
Qed.

End RatioShape.

Section WellFormed.

Lemma Zdigits2_le q k : 0 <= q < 2 ^ k -> 0 <= k -> Zdigits2 q <= k.
Proof.
  intros [Hq Hlt] Hk. destruct (Z.eq_dec q 0) as [->|H0]; [simpl; lia|].
  pose proof (Zdigits2_bounds q ltac:(lia)) as [Hl _].
  pose proof (Zdigits2_pos q ltac:(lia)).
  assert (Zdigits2 q - 1 < k) by (apply pow2_lt_inv; lia). lia.
Qed.

Lemma Zdigits2_ge q k : 2 ^ k <= q -> 0 <= k -> k + 1 <= Zdigits2 q.
Proof.
  intros Hq Hk. pose proof (pow2_pos k Hk).
  pose proof (Zdigits2_bounds q ltac:(lia)) as [_ Hh].
  pose proof (Zdigits2_nonneg q).
  assert (k < Zdigits2 q) by (apply pow2_lt_inv; lia). lia.
Qed.

(** No carry: the rounded mantissa is kept as it is. *)
Lemma finish_small sx mrs e1 :
  -1074 <= e1 ->
  Zdigits2 (round_nearest_even (shr_m mrs) (loc_of_shr_record mrs)) <= 53 ->
  finish sx mrs e1
  = match round_nearest_even (shr_m mrs) (loc_of_shr_record mrs) with
    | 0 => S754_zero sx
    | Z.pos m => if e1 <=? 971 then S754_finite sx m e1 else S754_infinity sx
    | Z.neg _ => S754_nan
    end.
Proof.
  intros He Hd. unfold finish, shr_fexp. rewrite fexp_eq.
  set (M2 := round_nearest_even (shr_m mrs) (loc_of_shr_record mrs)) in *.
  assert (Hn : Z.max (Zdigits2 M2 + e1 - 53) (-1074) - e1 <= 0) by lia.
  unfold shr.
  destruct (Z.max (Zdigits2 M2 + e1 - 53) (-1074) - e1) as [|p|p]; try lia;
    cbn [shr_record_of_loc shr_m]; reflexivity.
Qed.

(** A carry to [2 ^ 53]: one more shift. *)
Lemma finish_carry sx mrs e1 :
  -1074 <= e1 ->
  round_nearest_even (shr_m mrs) (loc_of_shr_record mrs) = 2 ^ 53 ->
  finish sx mrs e1
  = if e1 + 1 <=? 971 then S754_finite sx (Z.to_pos (2 ^ 52)) (e1 + 1)
    else S754_infinity sx.
Proof.
  intros He HM. unfold finish, shr_fexp. rewrite fexp_eq. rewrite HM.
  change (Zdigits2 (2 ^ 53)) with 54.
  replace (Z.max (54 + e1 - 53) (-1074) - e1) with 1 by lia.
  reflexivity.
Qed.

Lemma round_nearest_even_cases m l :
  round_nearest_even m l = m \/ round_nearest_even m l = m + 1.
Proof.
  destruct l as [|[]]; simpl; auto. destruct (Z.even m); auto.
Qed.

Lemma finish_well_formed sx mrs e1 :
  0 <= shr_m mrs -> -1074 <= e1 ->
  Zdigits2 (shr_m mrs) <= 53 ->
  (Zdigits2 (shr_m mrs) = 53 \/ e1 = -1074) ->
  well_formed (finish sx mrs e1).
Proof.
  intros Hm He Hd Hc.
  set (M1 := shr_m mrs) in *.
  assert (HM1 : M1 < 2 ^ 53).
  { destruct (Z.eq_dec M1 0) as [->|H0]; [reflexivity|].
    pose proof (Zdigits2_bounds M1 ltac:(lia)) as [_ Hh].
    pose proof (pow2_le (Zdigits2 M1) 53 ltac:(pose proof (Zdigits2_nonneg M1); lia)). lia. }
  destruct (round_nearest_even_cases M1 (loc_of_shr_record mrs)) as [E|E].
  - rewrite finish_small by (fold M1; rewrite ?E; lia).
    fold M1. rewrite E. destruct M1 as [|p|p] eqn:EM; try lia; [exact I|].
    destruct (e1 <=? 971) eqn:E9; [|exact I]. apply Z.leb_le in E9.
    cbn [well_formed].
    destruct (Z.eq_dec (Zdigits2 (Z.pos p)) 53); [left|right]; lia.
  - destruct (Z.eq_dec (M1 + 1) (2 ^ 53)) as [E53|E53].
    + rewrite finish_carry by (fold M1; lia).
      destruct (e1 + 1 <=? 971) eqn:E9; [|exact I]. apply Z.leb_le in E9.
      left. split; [reflexivity|lia].
    + assert (Hd2 : Zdigits2 (M1 + 1) <= 53) by (apply Zdigits2_le; lia).
      rewrite finish_small by (fold M1; rewrite ?E; lia).
      fold M1. rewrite E. destruct (M1 + 1) as [|p|p] eqn:EM; try lia.
      destruct (e1 <=? 971) eqn:E9; [|exact I]. apply Z.leb_le in E9.
      cbn [well_formed].
      destruct Hc as [Hc|Hc].
      * left. split; [|lia].
        assert (53 <= Zdigits2 (Z.pos p)); [|lia].
        pose proof (Zdigits2_bounds M1 ltac:(destruct M1; simpl in Hc; lia)) as [Hl _].
        rewrite Hc in Hl. change (53 - 1) with 52 in Hl.
        pose proof (Zdigits2_ge (Z.pos p) 52 ltac:(lia) ltac:(lia)). lia.
      * destruct (Z.eq_dec (Zdigits2 (Z.pos p)) 53); [left|right]; lia.
Qed.

Lemma float_of_ratio_well_formed neg a b :
  0 <= a -> 0 < b -> well_formed (float_of_ratio neg a b).
Proof.
  intros Ha Hb. destruct (Z.eq_dec a 0) as [->|H0]; [exact I|].
  destruct (float_of_ratio_char neg a b ltac:(lia) Hb)
    as (N & D & e1 & HN & HD & -> & Hr & He & Hd & Hc).
  apply finish_well_formed.
  - simpl. apply Z.div_pos; lia.
  - lia.
  - exact Hd.
  - exact Hc.
Qed.

Lemma float_of_decimal_well_formed neg m e10 :
  0 <= m -> well_formed (float_of_decimal neg m e10).
Proof.
  intros Hm. unfold float_of_decimal.
  destruct (0 <=? e10) eqn:E.
  - apply float_of_ratio_well_formed; [|lia].
    apply Z.mul_nonneg_nonneg; [exact Hm|]. apply Z.pow_nonneg; lia.
  - apply float_of_ratio_well_formed; [exact Hm|]. apply Z.pow_pos_nonneg; lia.
Qed.

End WellFormed.

Section NearestFloat.

Lemma P2_Q2 e : P2 e = 2 ^ (e + Z.max (- e) 0) /\ Q2 e = 2 ^ Z.max (- e) 0.
Proof.
  unfold P2, Q2. split; [|reflexivity]. f_equal. lia.
Qed.

Lemma PQ_step e : P2 e * Q2 (e - 1) = 2 * Q2 e * P2 (e - 1).
Proof.
  unfold P2, Q2. destruct (Z_le_gt_dec 1 e) as [H|H].
  - rewrite (Z.max_l e 0), (Z.max_r (- (e - 1)) 0), (Z.max_r (- e) 0),
      (Z.max_l (e - 1) 0) by lia.
    replace e with (Z.succ (e - 1)) at 1 by lia.
    rewrite Z.pow_succ_r by lia. rewrite Z.pow_0_r. ring.
  - rewrite (Z.max_r e 0), (Z.max_l (- (e - 1)) 0), (Z.max_l (- e) 0),
      (Z.max_r (e - 1) 0) by lia.
    replace (- (e - 1)) with (Z.succ (- e)) by lia.
    rewrite Z.pow_succ_r by lia. rewrite Z.pow_0_r. ring.
Qed.

(** The record of a ratio within half a unit of an integer, from above. *)
Lemma rec_of_above A B M :
  0 < B -> 0 <= M -> M * B <= A -> 2 * (A - M * B) < B ->
  round_nearest_even (shr_m (rec_of A B)) (loc_of_shr_record (rec_of A B)) = M.
Proof.
  intros HB HM H1 H2.
  assert (Hdiv : A / B = M) by (symmetry; apply Z.div_unique with (A - M * B); lia).
  assert (Hmod : A mod B = A - M * B) by (symmetry; apply Z.mod_unique with M; lia).
  unfold rec_of. rewrite Hdiv, Hmod. cbn [shr_m loc_of_shr_record].
  rewrite (proj2 (Z.leb_gt B (2 * (A - M * B)))) by lia.
  destruct (negb _ && negb _); reflexivity.
Qed.

(** The same from below. *)
Lemma rec_of_below A B M :
  0 < B -> 0 < M -> A < M * B -> 2 * (M * B - A) < B ->
  round_nearest_even (shr_m (rec_of A B)) (loc_of_shr_record (rec_of A B)) = M.
Proof.
  intros HB HM H1 H2.
  assert (Hdiv : A / B = M - 1) by (symmetry; apply Z.div_unique with (A - (M - 1) * B); lia).
  assert (Hmod : A mod B = A - (M - 1) * B) by (symmetry; apply Z.mod_unique with (M - 1); lia).
  unfold rec_of. rewrite Hdiv, Hmod. cbn [shr_m loc_of_shr_record].
  rewrite (proj2 (Z.leb_le B (2 * (A - (M - 1) * B)))) by lia.
  rewrite (proj2 (Z.eqb_neq (A - (M - 1) * B) 0)) by lia.
  rewrite (proj2 (Z.eqb_neq (2 * (A - (M - 1) * B)) B)) by lia.
  cbn [negb andb round_nearest_even]. lia.
Qed.

(** A ratio close enough to a float with 53 digits reads as that float. *)
Lemma float_of_ratio_near a b m e :
  0 < a -> 0 < b ->
  Zdigits2 (Z.pos m) = 53 -> -1073 <= e <= 971 ->
  2 ^ 54 * Z.abs (a * Q2 e - Z.pos m * P2 e * b) < Z.pos m * P2 e * b ->
  float_of_ratio false a b = S754_finite false m e.
Proof.
  intros Ha Hb Hm He Hclose.
  pose proof (Zdigits2_bounds (Z.pos m) ltac:(lia)) as [Hm1 Hm2].
  rewrite Hm in Hm1, Hm2. change (53 - 1) with 52 in Hm1.
  pose proof (P2_pos e) as HP. pose proof (Q2_pos e) as HQ.
  destruct (P2_Q2 e) as [EP EQ]. set (ce := Z.max (- e) 0) in *.
  set (A := a * Q2 e) in *. set (B := b * P2 e).
  assert (HB : 0 < B) by (unfold B; nia).
  assert (HA : 0 < A) by (unfold A; nia).
  replace (Z.pos m * P2 e * b) with (Z.pos m * B) in Hclose by (unfold B; ring).
  set (X := Z.pos m * B) in *.
  assert (HX1 : 2 ^ 52 * B <= X) by (unfold X; nia).
  assert (HX2 : X + B <= 2 ^ 53 * B) by (unfold X; nia).
  destruct (float_of_ratio_char false a b Ha Hb)
    as (N & D & e1 & HN & HD & -> & Hr & He1 & _).
  destruct (Z_le_gt_dec (2 ^ 52 * B) A) as [HcA|HcB].
  - (* the ratio is in the binade of the float *)
    assert (Hmag : magn a b = 53 + e).
    { apply (magn_unique a b (53 + e) ce); try lia.
      replace (53 + e - 1 + ce) with (52 + (e + ce)) by lia.
      replace (53 + e + ce) with (53 + (e + ce)) by lia.
      rewrite (Z.pow_add_r 2 52 (e + ce)), (Z.pow_add_r 2 53 (e + ce)) by lia.
      rewrite <- EP, <- EQ.
      fold A. unfold B in *. lia. }
    assert (Ee : e1 = e) by lia. clear He1. subst e1.
    assert (Hrec : rec_of N D = rec_of A B).
    { apply rec_of_ratio; assumption. }
    rewrite Hrec.
    assert (HM2 : round_nearest_even (shr_m (rec_of A B)) (loc_of_shr_record (rec_of A B))
                  = Z.pos m).
    { destruct (Z_le_gt_dec X A).
      - apply rec_of_above; fold X; lia.
      - apply rec_of_below; fold X; lia. }
    rewrite finish_small by (rewrite ?HM2; lia).
    rewrite HM2. rewrite (proj2 (Z.leb_le e 971)) by lia. reflexivity.
  - (* the ratio is just below the binade: the float is a power of two *)
    assert (HM : Z.pos m = 2 ^ 52).
    { destruct (Z.eq_dec (Z.pos m) (2 ^ 52)) as [|Hne]; [assumption|exfalso].
      assert (2 ^ 52 * B + B <= X) by (unfold X; nia). lia. }
    assert (HX : X = 2 ^ 52 * B) by (unfold X; rewrite HM; reflexivity).
    assert (Hmag : magn a b = 52 + e).
    { apply (magn_unique a b (52 + e) (ce + 1)); try lia.
      replace (52 + e - 1 + (ce + 1)) with (52 + (e + ce)) by lia.
      replace (52 + e + (ce + 1)) with (53 + (e + ce)) by lia.
      replace (ce + 1) with (Z.succ ce) by lia.
      rewrite Z.pow_succ_r by lia.
      rewrite (Z.pow_add_r 2 52 (e + ce)), (Z.pow_add_r 2 53 (e + ce)) by lia.
      rewrite <- EP, <- EQ.
      replace (a * (2 * Q2 e)) with (2 * A) by (unfold A; ring).
      unfold B in *. lia. }
    assert (Ee : e1 = e - 1) by lia. clear He1. subst e1.
    assert (Hrec : rec_of N D = rec_of (2 * A) B).
    { apply rec_of_ratio; try assumption.
      pose proof (Q2_pos (e - 1)) as HQ1. pose proof (PQ_step e) as Hst.
      apply (Z.mul_reg_r _ _ (Q2 (e - 1))); [lia|].
      transitivity (N * b * (P2 e * Q2 (e - 1))); [unfold B; ring|].
      rewrite Hst.
      transitivity (2 * Q2 e * (N * (b * P2 (e - 1)))); [ring|].
      rewrite Hr. unfold A. ring. }
    rewrite Hrec.
    assert (HM2 : round_nearest_even (shr_m (rec_of (2 * A) B))
                    (loc_of_shr_record (rec_of (2 * A) B)) = 2 ^ 53).
    { apply rec_of_below; lia. }
    rewrite finish_carry by (try exact HM2; lia).
    replace (e - 1 + 1) with e by lia.
    rewrite (proj2 (Z.leb_le e 971)) by lia.
    f_equal. rewrite <- HM. reflexivity.
Qed.

End NearestFloat.

Section PositionalNumerals.

Lemma ascii_digit_range c : ascii_digit c = true <-> 48 <= c <= 57.
Proof.
  unfold ascii_digit, in_range. rewrite andb_true_iff, !Z.leb_le. tauto.
Qed.

Lemma len_app {A} (xs ys : list A) : len (xs ++ ys) = len xs + len ys.
Proof. unfold len. rewrite length_app. lia. Qed.

Lemma len_nonneg {A} (xs : list A) : 0 <= len xs.
Proof. unfold len. lia. Qed.

Lemma len_cons {A} (x : A) xs : len (x :: xs) = 1 + len xs.
Proof. unfold len. cbn [List.length]. lia. Qed.

Lemma digits_value_fold ds : forall acc,
  fold_left (fun acc c => acc * 10 + (c - 48)) ds acc
  = acc * 10 ^ len ds + digits_value ds.
Proof.
  unfold digits_value.
  induction ds as [|c r IH]; intros acc; cbn [fold_left].
  - change (len []) with 0. rewrite Z.pow_0_r. lia.
  - rewrite IH. rewrite (IH (0 * 10 + (c - 48))).
    rewrite len_cons. rewrite Z.pow_add_r by (try apply len_nonneg; lia).
    change (10 ^ 1) with 10. ring.
Qed.

Lemma digits_value_app xs ys :
  digits_value (xs ++ ys) = digits_value xs * 10 ^ len ys + digits_value ys.
Proof.
  unfold digits_value at 1. rewrite fold_left_app.
  rewrite digits_value_fold. reflexivity.
Qed.

Lemma digits_value_single c : digits_value [c] = c - 48.
Proof. reflexivity. Qed.

Lemma zeros_digits k : Forall (fun c => ascii_digit c = true) (zeros k).
Proof. unfold zeros. apply Forall_forall. intros c Hc. apply repeat_spec in Hc. subst. reflexivity. Qed.

Lemma zeros_len k : 0 <= k -> len (zeros k) = k.
Proof. intros Hk. unfold zeros, len. rewrite repeat_length. lia. Qed.

Lemma zeros_value k : digits_value (zeros k) = 0.
Proof.
  unfold zeros. induction (Z.to_nat k) as [|n IH]; [reflexivity|].
  change (repeat 48 (S n)) with ([48] ++ repeat 48 n).
  rewrite digits_value_app, IH. reflexivity.
Qed.

(** The decimal digits of a number. *)
Lemma dec_digits_go_spec fuel : forall n acc,
  (1 <= fuel)%nat -> 0 <= n < 10 ^ Z.of_nat fuel ->
  exists pre,
    dec_digits_go fuel n acc = pre ++ acc
    /\ Forall (fun c => ascii_digit c = true) pre /\ digits_value pre = n /\ 1 <= len pre
    /\ (0 < n -> 10 ^ (len pre - 1) <= n).
Proof.
  induction fuel as [|f IH]; intros n acc Hf Hn; [lia|].
  cbn [dec_digits_go]. destruct (n <? 10) eqn:E.
  - apply Z.ltb_lt in E. exists [48 + n]. split; [reflexivity|].
    split; [constructor; [apply ascii_digit_range; lia|constructor]|].
    split; [rewrite digits_value_single; lia|].
    split; [reflexivity|]. intros Hp. change (len [48 + n] - 1) with 0. lia.
  - apply Z.ltb_ge in E.
    assert (Hf1 : (1 <= f)%nat).
    { destruct f; [|lia]. change (10 ^ Z.of_nat 1) with 10 in Hn. lia. }
    assert (Hq : 0 <= n / 10 < 10 ^ Z.of_nat f).
    { split; [apply Z.div_pos; lia|].
      apply Z.div_lt_upper_bound; [lia|].
      rewrite Nat2Z.inj_succ, Z.pow_succ_r in Hn by lia. lia. }
    destruct (IH (n / 10) ((48 + n mod 10) :: acc) Hf1 Hq)
      as (pre & -> & Hd & Hv & Hl & Hlow).
    pose proof (Z.mod_pos_bound n 10 ltac:(lia)) as Hm.
    pose proof (Z.div_mod n 10 ltac:(lia)) as Hdm.
    exists (pre ++ [48 + n mod 10]).
    split; [rewrite <- app_assoc; reflexivity|].
    split; [apply Forall_app; split; [exact Hd|constructor;
                                      [apply ascii_digit_range; lia|constructor]]|].
    split; [rewrite digits_value_app, Hv, digits_value_single;
            change (len [48 + n mod 10]) with 1; change (10 ^ 1) with 10; lia|].
    split; [rewrite len_app; change (len [48 + n mod 10]) with 1; lia|].
    intros _. rewrite len_app. change (len [48 + n mod 10]) with 1.
    replace (len pre + 1 - 1) with (Z.succ (len pre - 1)) by lia.
    rewrite Z.pow_succ_r by lia.
    assert (0 < n / 10) by (apply Z.div_str_pos; lia).
    specialize (Hlow H). lia.
Qed.

Lemma dec_digits_spec n :
  0 <= n ->
  Forall (fun c => ascii_digit c = true) (dec_digits n) /\ digits_value (dec_digits n) = n
  /\ 1 <= len (dec_digits n)
  /\ (0 < n -> 10 ^ (len (dec_digits n) - 1) <= n).
Proof.
  intros Hn. unfold dec_digits.
  assert (Hlt : 0 <= n < 10 ^ Z.of_nat (S (Z.to_nat (Z.log2 n)))).
  { split; [exact Hn|].
    rewrite Nat2Z.inj_succ, Z2Nat.id by apply Z.log2_nonneg.
    destruct (Z.eq_dec n 0) as [->|H0]; [reflexivity|].
    pose proof (Z.log2_spec n ltac:(lia)) as [_ Hs].
    pose proof (Z.log2_nonneg n).
    pose proof (Z.pow_le_mono_l 2 10 (Z.succ (Z.log2 n)) ltac:(lia)). lia. }
  destruct (dec_digits_go_spec (S (Z.to_nat (Z.log2 n))) n [] ltac:(lia) Hlt)
    as (pre & -> & H).
  rewrite app_nil_r. exact H.
Qed.

Lemma span_digits_app xs rest :
  Forall (fun c => ascii_digit c = true) xs ->
  match rest with [] => True | c :: _ => ascii_digit c = false end ->
  span_digits (xs ++ rest) = (xs, rest).
Proof.
  intros Hx Hr. induction Hx as [|c r Hc Hrest IH]; cbn [app span_digits].
  - destruct rest as [|c r]; [reflexivity|]. cbn [span_digits]. rewrite Hr. reflexivity.
  - rewrite Hc, IH. reflexivity.
Qed.

Lemma take_sign_digit c r : ascii_digit c = true -> take_sign (c :: r) = (false, c :: r).
Proof.
  intros Hc. apply ascii_digit_range in Hc. unfold take_sign.
  destruct c as [|p|p]; try lia.
  do 6 (destruct p as [p|p|]; try reflexivity); lia.
Qed.

Lemma lowercase_digit c r :
  ascii_digit c = true -> ascii_lowercase (c :: r) = c :: ascii_lowercase r.
Proof.
  intros Hc. apply ascii_digit_range in Hc. unfold ascii_lowercase. cbn [List.map].
  unfold ascii_upper, in_range.
  rewrite (proj2 (andb_false_iff _ _)); [reflexivity|].
  left. apply Z.leb_gt. lia.
Qed.

(** What [strtod] reads in digits, a point and digits. *)
Lemma strtod_positional ip fp :
  Forall (fun c => ascii_digit c = true) ip -> Forall (fun c => ascii_digit c = true) fp -> ip <> [] ->
  strtod (ip ++ 46 :: fp)
  = Some (float_of_decimal false (digits_value (ip ++ fp)) (- len fp)).
Proof.
  intros Hip Hfp Hne. destruct ip as [|c ip']; [contradiction|].
  inversion Hip as [|? ? Hc Hip']; subst.
  unfold strtod. cbn [app]. rewrite take_sign_digit by exact Hc.
  rewrite lowercase_digit by exact Hc.
  assert (Hc' := Hc). apply ascii_digit_range in Hc'.
  assert (E1 : str_eqb (c :: ascii_lowercase (ip' ++ 46 :: fp)) (u "inf") = false).
  { change (u "inf") with [105; 110; 102]. cbn [str_eqb].
    rewrite (proj2 (Z.eqb_neq c 105)) by lia. reflexivity. }
  assert (E2 : str_eqb (c :: ascii_lowercase (ip' ++ 46 :: fp)) (u "infinity") = false).
  { change (u "infinity") with [105; 110; 102; 105; 110; 105; 116; 121]. cbn [str_eqb].
    rewrite (proj2 (Z.eqb_neq c 105)) by lia. reflexivity. }
  assert (E3 : str_eqb (c :: ascii_lowercase (ip' ++ 46 :: fp)) (u "nan") = false).
  { change (u "nan") with [110; 97; 110]. cbn [str_eqb].
    rewrite (proj2 (Z.eqb_neq c 110)) by lia. reflexivity. }
  rewrite E1, E2, E3. cbn [orb].
  change (c :: ip' ++ 46 :: fp) with ((c :: ip') ++ 46 :: fp).
  rewrite (span_digits_app (c :: ip') (46 :: fp)) by (try exact Hip; reflexivity).
  pose proof (span_digits_app fp [] Hfp I) as Hs. rewrite app_nil_r in Hs.
  rewrite Hs. cbn [app]. reflexivity.
Qed.

Lemma c_lstrip_id c r : c_isspace c = false -> c_lstrip (c :: r) = c :: r.
Proof. intros H. cbn [c_lstrip]. rewrite H. reflexivity. Qed.

Lemma positional_not_space c : ascii_digit c || (c =? 46) = true -> c_isspace c = false.
Proof.
  intros H. apply orb_true_iff in H. unfold c_isspace, in_range.
  destruct H as [H|H].
  - apply ascii_digit_range in H.
    rewrite (proj2 (Z.leb_gt c 13)) by lia. rewrite andb_false_r.
    rewrite (proj2 (Z.eqb_neq c 32)) by lia. reflexivity.
  - apply Z.eqb_eq in H. subst. reflexivity.
Qed.

Lemma c_strip_positional s : positional s = true -> c_strip s = s.
Proof.
  intros H. unfold positional in H. rewrite forallb_forall in H.
  assert (G : forall t, (forall c, In c t -> ascii_digit c || (c =? 46) = true) ->
                        c_lstrip t = t).
  { intros [|c r] Ht; [reflexivity|]. apply c_lstrip_id, positional_not_space, Ht.
    left; reflexivity. }
  unfold c_strip. rewrite (G s H).
  rewrite G by (intros c Hc; apply H, in_rev; exact Hc).
  apply rev_involutive.
Qed.

Lemma to_ascii_numeral_positional {R : Runtime} s :
  positional s = true -> to_ascii_numeral s = s.
Proof.
  intros H. unfold positional in H. rewrite forallb_forall in H.
  unfold to_ascii_numeral. rewrite <- (map_id s) at 2.
  apply map_ext_in. intros c Hc. specialize (H c Hc).
  apply orb_true_iff in H.
  rewrite (proj2 (Z.ltb_lt c 127)); [reflexivity|].
  destruct H as [H|H]; [apply ascii_digit_range in H; lia|apply Z.eqb_eq in H; lia].
Qed.

Lemma underscores_ok_positional s : forall prev,
  prev <> 95 -> positional s = true -> underscores_ok prev s = true.
Proof.
  induction s as [|c r IH]; intros prev Hp H; cbn [underscores_ok].
  - rewrite (proj2 (Z.eqb_neq prev 95)) by lia. reflexivity.
  - unfold positional in H. cbn [forallb] in H. apply andb_true_iff in H as [Hc Hr].
    assert (Hc95 : c <> 95).
    { apply orb_true_iff in Hc.
      destruct Hc as [Hc|Hc]; [apply ascii_digit_range in Hc; lia|apply Z.eqb_eq in Hc; lia]. }
    rewrite (proj2 (Z.eqb_neq c 95)) by lia.
    rewrite (proj2 (Z.eqb_neq prev 95)) by lia. cbn [negb orb andb].
    apply IH; assumption.
Qed.

Lemma drop_underscores_positional s : positional s = true -> drop_underscores s = s.
Proof.
  intros H. unfold positional in H. rewrite forallb_forall in H.
  unfold drop_underscores. apply forallb_filter_id.
  apply forallb_forall. intros c Hc. specialize (H c Hc).
  apply orb_true_iff in H. apply negb_true_iff, Z.eqb_neq.
  destruct H as [H|H]; [apply ascii_digit_range in H; lia|apply Z.eqb_eq in H; lia].
Qed.

Lemma positional_app s t : positional (s ++ t) = positional s && positional t.
Proof. apply forallb_app. Qed.

Lemma positional_digits ds : Forall (fun c => ascii_digit c = true) ds -> positional ds = true.
Proof.
  intros H. unfold positional. apply forallb_forall. intros c Hc.
  rewrite Forall_forall in H. rewrite (H c Hc). reflexivity.
Qed.

(** [float()] of digits, a point and digits. *)
Lemma float_of_str_positional {R : Runtime} ip fp :
  Forall (fun c => ascii_digit c = true) ip -> Forall (fun c => ascii_digit c = true) fp -> ip <> [] ->
  float_of_str (ip ++ 46 :: fp)
  = Ok (float_of_decimal false (digits_value (ip ++ fp)) (- len fp)).
Proof.
  intros Hip Hfp Hne.
  assert (Hpos : positional (ip ++ 46 :: fp) = true).
  { rewrite positional_app. rewrite positional_digits by exact Hip.
    change (46 :: fp) with ([46] ++ fp). rewrite positional_app.
    rewrite (positional_digits fp) by exact Hfp. reflexivity. }
  unfold float_of_str.
  rewrite to_ascii_numeral_positional, c_strip_positional by assumption.
  rewrite underscores_ok_positional by (try assumption; lia).
  rewrite drop_underscores_positional by assumption.
  rewrite strtod_positional by assumption. reflexivity.
Qed.

End PositionalNumerals.

Section ReprFormats.

Lemma pow2_pos_gen b n : 0 < b -> 0 <= n -> 0 < b ^ n.
Proof. intros; apply Z.pow_pos_nonneg; lia. Qed.

Lemma float_of_ratio_zero neg den : float_of_ratio neg 0 den = S754_zero neg.
Proof. reflexivity. Qed.

(** A zero moved from the digits to the exponent. *)
Lemma float_of_decimal_shift d sc :
  0 <= d -> float_of_decimal false (10 * d) sc = float_of_decimal false d (sc + 1).
Proof.
  intros Hd. unfold float_of_decimal.
  destruct (Z_le_gt_dec 0 sc) as [H|H].
  - rewrite (proj2 (Z.leb_le 0 sc)), (proj2 (Z.leb_le 0 (sc + 1))) by lia.
    f_equal. replace (sc + 1) with (Z.succ sc) by lia.
    rewrite Z.pow_succ_r by lia. ring.
  - rewrite (proj2 (Z.leb_gt 0 sc)) by lia.
    destruct (Z.eq_dec d 0) as [->|Hd0].
    { rewrite Z.mul_0_r, float_of_ratio_zero.
      destruct (0 <=? sc + 1); rewrite ?Z.mul_0_l; reflexivity. }
    destruct (Z.eq_dec sc (-1)) as [->|Hs].
    + transitivity (float_of_ratio false (10 * d) (10 * 1)); [reflexivity|].
      rewrite float_of_ratio_scale by lia.
      change (0 <=? -1 + 1) with true. cbv iota. f_equal.
      change (-1 + 1) with 0. rewrite Z.pow_0_r. lia.
    + rewrite (proj2 (Z.leb_gt 0 (sc + 1))) by lia.
      replace (- sc) with (Z.succ (- (sc + 1))) by lia.
      rewrite Z.pow_succ_r by lia.
      apply float_of_ratio_scale; try lia; apply pow2_pos_gen; lia.
Qed.

Lemma strip_zeros_spec fuel : forall d sc,
  0 <= d ->
  0 <= fst (strip_zeros fuel d sc)
  /\ (0 < d -> 0 < fst (strip_zeros fuel d sc))
  /\ float_of_decimal false (fst (strip_zeros fuel d sc)) (snd (strip_zeros fuel d sc))
     = float_of_decimal false d sc
  /\ sc <= snd (strip_zeros fuel d sc)
  /\ d = fst (strip_zeros fuel d sc) * 10 ^ (snd (strip_zeros fuel d sc) - sc).
Proof.
  induction fuel as [|f IH]; intros d sc Hd; cbn [strip_zeros].
  - cbn [fst snd]. rewrite Z.sub_diag, Z.pow_0_r. repeat split; auto; lia.
  - destruct ((d mod 10 =? 0) && (0 <? d)) eqn:E.
    + apply andb_true_iff in E as [E1 E2]. apply Z.eqb_eq in E1. apply Z.ltb_lt in E2.
      pose proof (Z.div_mod d 10 ltac:(lia)) as Hdm.
      assert (Hq : 0 < d / 10) by lia.
      destruct (IH (d / 10) (sc + 1) ltac:(lia)) as (H1 & H2 & H3 & H4 & H5).
      split; [exact H1|]. split; [intros _; apply H2, Hq|].
      split; [rewrite H3; rewrite <- float_of_decimal_shift by lia; f_equal; lia|].
      split; [lia|].
      set (d' := fst (strip_zeros f (d / 10) (sc + 1))) in *.
      set (sc' := snd (strip_zeros f (d / 10) (sc + 1))) in *.
      replace (sc' - sc) with (Z.succ (sc' - (sc + 1))) by lia.
      rewrite Z.pow_succ_r by lia. lia.
    + cbn [fst snd]. rewrite Z.sub_diag, Z.pow_0_r. repeat split; auto; lia.
Qed.

(** What [float()] reads in the positional numeral of the digits of [d]
    with the decimal point after [sc + len ds] of them. *)
Lemma format_reads {R : Runtime} d sc :
  0 <= d -> -4 < sc + len (dec_digits d) <= 16 ->
  float_of_str (format_repr (dec_digits d) (sc + len (dec_digits d)))
  = Ok (float_of_decimal false d sc).
Proof.
  intros Hd Hr.
  destruct (dec_digits_spec d Hd) as (Hdig & Hval & Hlen & _).
  set (ds := dec_digits d) in *. set (decpt := sc + len ds) in *.
  unfold format_repr.
  rewrite (proj2 (Z.leb_gt decpt (-4))), (proj2 (Z.ltb_ge 16 decpt)) by lia.
  cbn [orb].
  destruct (Z_le_gt_dec decpt 0) as [H0|H0].
  - rewrite (proj2 (Z.leb_le decpt 0)) by lia.
    change (u "0." ++ zeros (- decpt) ++ ds) with ([48] ++ 46 :: (zeros (- decpt) ++ ds)).
    rewrite float_of_str_positional.
    + f_equal. f_equal.
      * change ([48] ++ zeros (- decpt) ++ ds) with (48 :: (zeros (- decpt) ++ ds)).
        change (48 :: (zeros (- decpt) ++ ds)) with ([48] ++ (zeros (- decpt) ++ ds)).
        rewrite !digits_value_app, zeros_value, Hval. change (digits_value [48]) with 0. lia.
      * rewrite len_app, zeros_len by lia. unfold decpt. lia.
    + constructor; [reflexivity|constructor].
    + apply Forall_app; split; [apply zeros_digits|exact Hdig].
    + discriminate.
  - rewrite (proj2 (Z.leb_gt decpt 0)) by lia.
    destruct (Z_le_gt_dec (len ds) decpt) as [H1|H1].
    + rewrite (proj2 (Z.leb_le (len ds) decpt)) by lia.
      replace (ds ++ zeros (decpt - len ds) ++ u ".0")
        with ((ds ++ zeros (decpt - len ds)) ++ 46 :: [48])
        by (rewrite <- app_assoc; reflexivity).
      rewrite float_of_str_positional.
      * f_equal.
        rewrite digits_value_app. change (len [48]) with 1. change (digits_value [48]) with 0.
        rewrite digits_value_app, zeros_value, Hval, zeros_len by lia.
        change (- 1) with (-1).
        replace (decpt - len ds) with sc by (unfold decpt; lia).
        replace ((d * 10 ^ sc + 0) * 10 ^ 1 + 0) with (10 * (d * 10 ^ sc))
          by (change (10 ^ 1) with 10; ring).
        assert (Hsc : 0 <= sc) by (unfold decpt in H1; lia).
        rewrite float_of_decimal_shift
          by (apply Z.mul_nonneg_nonneg; [lia|apply Z.pow_nonneg; lia]).
        change (-1 + 1) with 0. unfold float_of_decimal.
        change (0 <=? 0) with true. rewrite (proj2 (Z.leb_le 0 sc)) by lia.
        cbv iota. rewrite Z.pow_0_r, Z.mul_1_r. reflexivity.
      * apply Forall_app; split; [exact Hdig|apply zeros_digits].
      * constructor; [reflexivity|constructor].
      * destruct ds; [change (len []) with 0 in Hlen; lia|discriminate].
    + rewrite (proj2 (Z.leb_gt (len ds) decpt)) by lia.
      change (firstn (Z.to_nat decpt) ds ++ [46] ++ skipn (Z.to_nat decpt) ds)
        with (firstn (Z.to_nat decpt) ds ++ 46 :: skipn (Z.to_nat decpt) ds).
      pose proof (firstn_skipn (Z.to_nat decpt) ds) as Hfs.
      assert (Hboth : Forall (fun c => ascii_digit c = true)
                             (firstn (Z.to_nat decpt) ds ++ skipn (Z.to_nat decpt) ds))
        by (rewrite Hfs; exact Hdig).
      apply Forall_app in Hboth as [Hf Hs].
      rewrite float_of_str_positional; try assumption.
      * rewrite Hfs, Hval. f_equal. f_equal.
        unfold len. rewrite length_skipn. unfold decpt, len in *. lia.
      * intros Hnil.
        assert (Hl : List.length (firstn (Z.to_nat decpt) ds) = 0%nat)
          by (rewrite Hnil; reflexivity).
        rewrite length_firstn in Hl. unfold len in *. lia.
Qed.

End ReprFormats.

Section ShortestNumeral.

Lemma float_eq_finite y m e :
  float_eq y (S754_finite false m e) = true -> y = S754_finite false m e.
Proof.
  unfold float_eq, SFeqb, SFcompare.
  destruct y as [s|s| |s m' e']; try discriminate.
  - destruct s; discriminate.
  - destruct s; [discriminate|].
    destruct (e' ?= e) eqn:Ee; try discriminate.
    destruct (Pos.compare_cont Eq m' m) eqn:Em; try discriminate.
    intros _. apply Z.compare_eq in Ee. apply Pos.compare_eq in Em. congruence.
Qed.

Lemma scaled_pos num den sc :
  0 < num -> 0 < den -> 0 < fst (scaled num den sc) /\ 0 < snd (scaled num den sc).
Proof.
  intros Hn Hd. unfold scaled. destruct (0 <=? sc) eqn:E; cbn [fst snd].
  - apply Z.leb_le in E. pose proof (pow2_pos_gen 10 sc ltac:(lia) E). nia.
  - apply Z.leb_gt in E. pose proof (pow2_pos_gen 10 (- sc) ltac:(lia) ltac:(lia)). nia.
Qed.

(** What [shortest_at] returns reads back as the float, unless it is the
    last resort at 17 digits, the nearest numeral of that length. *)
Lemma shortest_at_spec m e num den decpt n dd sc :
  0 < num -> 0 < den ->
  shortest_at (S754_finite false m e) num den decpt n = Some (dd, sc) ->
  0 <= dd /\ sc = decpt - n
  /\ (float_of_decimal false dd sc = S754_finite false m e
      \/ (n = 17
          /\ 2 * Z.abs (dd * snd (scaled num den sc) - fst (scaled num den sc))
             <= snd (scaled num den sc))).
Proof.
  intros Hn Hd. unfold shortest_at.
  pose proof (scaled_pos num den (decpt - n) Hn Hd) as [Ha Hb].
  change (if 0 <=? decpt - n
          then (num, den * 10 ^ (decpt - n))
          else (num * 10 ^ (- (decpt - n)), den)) with (scaled num den (decpt - n)).
  destruct (scaled num den (decpt - n)) as [a b] eqn:Esc.
  cbn [fst snd] in Ha, Hb.
  pose proof (Z.div_mod a b ltac:(lia)) as Hdm.
  pose proof (Z.mod_pos_bound a b Hb) as Hr.
  assert (Hlo : 0 <= a / b) by (apply Z.div_pos; lia).
  set (lo := a / b) in *. set (r := a mod b) in *. clearbody lo r.
  set (near := if (2 * r <? b) || (2 * r =? b) && Z.even lo then lo else lo + 1).
  assert (Hnear : 0 <= near /\ 2 * Z.abs (near * b - a) <= b).
  { unfold near. destruct ((2 * r <? b) || (2 * r =? b) && Z.even lo) eqn:Enear.
    - apply orb_true_iff in Enear.
      assert (2 * r <= b).
      { destruct Enear as [H|H]; [apply Z.ltb_lt in H; lia|].
        apply andb_true_iff in H as [H _]. apply Z.eqb_eq in H. lia. }
      replace (lo * b - a) with (- r) by (rewrite Hdm at 1; ring). lia.
    - apply orb_false_iff in Enear as [H _]. apply Z.ltb_ge in H.
      replace ((lo + 1) * b - a) with (b - r) by (rewrite Hdm at 1; ring). lia. }
  assert (Hnear2 : near = lo \/ near = lo + 1)
    by (unfold near; destruct (_ || _); auto).
  clearbody near.
  destruct (float_eq (float_of_decimal false lo (decpt - n)) (S754_finite false m e)) eqn:Elo;
    destruct (float_eq (float_of_decimal false (lo + 1) (decpt - n)) (S754_finite false m e))
      eqn:Ehi.
  - intros E. injection E as <- <-. split; [lia|]. split; [reflexivity|]. left.
    destruct Hnear2 as [->| ->]; apply float_eq_finite; assumption.
  - intros E. injection E as <- <-. split; [lia|]. split; [reflexivity|]. left.
    apply float_eq_finite; assumption.
  - intros E. injection E as <- <-. split; [lia|]. split; [reflexivity|]. left.
    apply float_eq_finite; assumption.
  - destruct (n =? 17) eqn:E17; [|discriminate]. apply Z.eqb_eq in E17.
    intros E. injection E as <- <-. split; [lia|]. split; [reflexivity|]. right.
    split; [exact E17|]. rewrite Esc. unfold fst, snd. apply Hnear.
Qed.

Lemma shortest_at_last m e num den decpt :
  shortest_at (S754_finite false m e) num den decpt 17 <> None.
Proof.
  unfold shortest_at.
  destruct (if 0 <=? decpt - 17 then _ else _) as [a b].
  destruct (float_eq _ _); destruct (float_eq _ _); discriminate.
Qed.

Lemma shortest_go_spec m e num den decpt fuel : forall n d0 sc0,
  0 < num -> 0 < den ->
  1 <= n <= 17 -> 18 - n <= Z.of_nat fuel ->
  shortest_go fuel (S754_finite false m e) num den decpt n = (d0, sc0) ->
  0 <= d0
  /\ (float_of_decimal false d0 sc0 = S754_finite false m e
      \/ (sc0 = decpt - 17
          /\ 2 * Z.abs (d0 * snd (scaled num den sc0) - fst (scaled num den sc0))
             <= snd (scaled num den sc0))).
Proof.
  induction fuel as [|f IH]; intros n d0 sc0 Hn Hd Hr Hf; [lia|].
  cbn [shortest_go].
  destruct (shortest_at (S754_finite false m e) num den decpt n) as [[dd sc]|] eqn:E.
  - intros [= <- <-].
    destruct (shortest_at_spec _ _ _ _ _ _ _ _ Hn Hd E) as (H0 & Hsc & [H|[H17 H]]).
    + split; [exact H0|left; exact H].
    + split; [exact H0|right]. split; [lia|exact H].
  - assert (n <> 17) by (intros ->; apply shortest_at_last in E; exact E).
    apply IH; try assumption; lia.
Qed.

End ShortestNumeral.

Section DecimalPoint.

Lemma pow10_pos n : 0 <= n -> 0 < 10 ^ n.
Proof. intros; apply Z.pow_pos_nonneg; lia. Qed.

Lemma pow10_lt_inv a b : 0 <= b -> 10 ^ a < 10 ^ b -> a < b.
Proof.
  intros Hb H. destruct (Z_lt_le_dec a b) as [|Hge]; [assumption|].
  exfalso. pose proof (Z.pow_le_mono_r 10 b a ltac:(lia) Hge). lia.
Qed.

Lemma digits10_go_spec fuel : forall n,
  1 <= n < 10 ^ Z.of_nat fuel ->
  1 <= digits10_go fuel n
  /\ 10 ^ (digits10_go fuel n - 1) <= n < 10 ^ digits10_go fuel n.
Proof.
  induction fuel as [|f IH]; intros n Hn.
  - change (10 ^ Z.of_nat 0) with 1 in Hn. lia.
  - cbn [digits10_go]. destruct (n <? 10) eqn:E.
    + apply Z.ltb_lt in E. change (10 ^ (1 - 1)) with 1. change (10 ^ 1) with 10. lia.
    + apply Z.ltb_ge in E.
      assert (Hq : 1 <= n / 10 < 10 ^ Z.of_nat f).
      { split; [apply Z.div_le_lower_bound; lia|].
        apply Z.div_lt_upper_bound; [lia|].
        rewrite Nat2Z.inj_succ, Z.pow_succ_r in Hn by lia. lia. }
      destruct (IH (n / 10) Hq) as (H1 & H2 & H3).
      set (k := digits10_go f (n / 10)) in *.
      pose proof (Z.div_mod n 10 ltac:(lia)) as Hdm.
      pose proof (Z.mod_pos_bound n 10 ltac:(lia)) as Hm.
      split; [lia|].
      replace (1 + k - 1) with (Z.succ (k - 1)) by lia.
      replace (1 + k) with (Z.succ k) by lia.
      rewrite !Z.pow_succ_r by lia. lia.
Qed.

Lemma decpt_small_spec den fuel : forall num j,
  0 < num -> num < den -> den <= num * 10 ^ Z.of_nat fuel ->
  exists i, 0 <= i
            /\ decpt_small fuel num den j = - (j + i)
            /\ num * 10 ^ i < den <= num * 10 ^ (i + 1).
Proof.
  induction fuel as [|f IH]; intros num j Hn Hlt Hle.
  - change (10 ^ Z.of_nat 0) with 1 in Hle. lia.
  - cbn [decpt_small]. destruct (den <=? num * 10) eqn:E.
    + apply Z.leb_le in E. exists 0. split; [lia|]. split; [f_equal; lia|].
      change (10 ^ 0) with 1. change (10 ^ (0 + 1)) with 10. lia.
    + apply Z.leb_gt in E.
      assert (Hle' : den <= num * 10 * 10 ^ Z.of_nat f).
      { rewrite Nat2Z.inj_succ, Z.pow_succ_r in Hle by lia. lia. }
      destruct (IH (num * 10) (j + 1) ltac:(lia) E Hle') as (i & Hi & -> & H1 & H2).
      exists (i + 1). split; [lia|]. split; [f_equal; lia|].
      pose proof (pow10_pos i Hi).
      replace (i + 1) with (Z.succ i) by lia.
      replace (Z.succ i + 1) with (Z.succ (i + 1)) by lia.
      rewrite !Z.pow_succ_r by lia. lia.
Qed.

(** With 17 digits before the point, the ratio is between [10 ^ 16] and
    [10 ^ 17]. *)
Lemma decimal_point_scaled num den :
  0 < num -> 0 < den ->
  num < 10 ^ 400 * den -> den <= num * 10 ^ 400 ->
  10 ^ 16 * snd (scaled num den (decimal_point num den - 17))
  <= fst (scaled num den (decimal_point num den - 17))
  < 10 ^ 17 * snd (scaled num den (decimal_point num den - 17)).
Proof.
  intros Hn Hd Hup Hlo. unfold decimal_point.
  destruct (den <=? num) eqn:E.
  - apply Z.leb_le in E.
    assert (Hq : 1 <= num / den < 10 ^ Z.of_nat 400).
    { split; [apply Z.div_le_lower_bound; lia|].
      apply Z.div_lt_upper_bound; [lia|].
      change (Z.of_nat 400) with 400. lia. }
    destruct (digits10_go_spec 400 (num / den) Hq) as (H1 & H2 & H3).
    set (k := digits10_go 400 (num / den)) in *.
    pose proof (Z.mul_div_le num den Hd) as Hm1.
    pose proof (Z.mul_succ_div_gt num den Hd) as Hm2.
    pose proof (pow10_pos (k - 1) ltac:(lia)) as Hp.
    assert (Hl : 10 ^ (k - 1) * den <= num) by nia.
    assert (Hu : num < 10 ^ k * den).
    { assert (num / den + 1 <= 10 ^ k) by lia. nia. }
    unfold scaled. destruct (0 <=? k - 17) eqn:Es; cbn [fst snd].
    + apply Z.leb_le in Es.
      replace (k - 1) with (16 + (k - 17)) in Hl by lia.
      replace k with (17 + (k - 17)) in Hu at 1 by lia.
      rewrite Z.pow_add_r in Hl, Hu by lia. lia.
    + apply Z.leb_gt in Es.
      pose proof (pow10_pos (- (k - 17)) ltac:(lia)) as Hp2.
      assert (E16 : 10 ^ 16 = 10 ^ (k - 1) * 10 ^ (- (k - 17))).
      { rewrite <- Z.pow_add_r by lia. f_equal. lia. }
      assert (E17 : 10 ^ 17 = 10 ^ k * 10 ^ (- (k - 17))).
      { rewrite <- Z.pow_add_r by lia. f_equal. lia. }
      rewrite E16, E17. split; nia.
  - apply Z.leb_gt in E.
    destruct (decpt_small_spec den 400 num 0 Hn E) as (i & Hi & -> & H1 & H2).
    { change (Z.of_nat 400) with 400. exact Hlo. }
    unfold scaled. rewrite (proj2 (Z.leb_gt 0 (- (0 + i) - 17))) by lia. cbn [fst snd].
    replace (- (- (0 + i) - 17)) with (i + 17) by lia.
    replace (i + 17) with (i + 1 + 16) at 1 by lia.
    rewrite (Z.pow_add_r 10 (i + 1) 16), (Z.pow_add_r 10 i 17) by lia.
    lia.
Qed.

End DecimalPoint.

Section ReadBack.
Context {R : Runtime}.

Lemma format_positional ds decpt :
  positional (format_repr ds decpt) = true -> -4 < decpt <= 16.
Proof.
  unfold format_repr.
  destruct ((decpt <=? -4) || (16 <? decpt)) eqn:E.
  - rewrite positional_app.
    match goal with
    | |- context [[101; ?x] ++ ?y] => change ([101; x] ++ y) with (101 :: x :: y)
    end.
    unfold positional at 2. cbn [forallb].
    change (ascii_digit 101 || (101 =? 46)) with false. cbn [andb].
    rewrite andb_false_r. discriminate.
  - intros _. apply orb_false_iff in E as [E1 E2].
    apply Z.leb_gt in E1. apply Z.ltb_ge in E2. lia.
Qed.

Lemma fraction_of_float m e :
  exists num den,
    (if 0 <=? e then (Z.pos m * 2 ^ e, 1) else (Z.pos m, 2 ^ (- e))) = (num, den)
    /\ 0 < num /\ 0 < den /\ num = Z.pos m * P2 e /\ den = Q2 e.
Proof.
  unfold P2, Q2. destruct (0 <=? e) eqn:E.
  - apply Z.leb_le in E. exists (Z.pos m * 2 ^ e), 1. split; [reflexivity|].
    pose proof (pow2_pos e E).
    rewrite (Z.max_l e 0), (Z.max_r (- e) 0) by lia. rewrite Z.pow_0_r.
    repeat split; nia.
  - apply Z.leb_gt in E. exists (Z.pos m), (2 ^ (- e)). split; [reflexivity|].
    pose proof (pow2_pos (- e) ltac:(lia)).
    rewrite (Z.max_r e 0), (Z.max_l (- e) 0) by lia. rewrite Z.pow_0_r.
    repeat split; lia.
Qed.

Lemma well_formed_bounds s m e :
  well_formed (S754_finite s m e) -> Z.pos m < 2 ^ 53 /\ -1074 <= e <= 971.
Proof.
  cbn [well_formed]. intros H.
  assert (Zdigits2 (Z.pos m) <= 53 /\ -1074 <= e <= 971) as [Hd He] by lia.
  split; [|exact He].
  pose proof (Zdigits2_bounds (Z.pos m) ltac:(lia)) as [_ Hh].
  pose proof (pow2_le (Zdigits2 (Z.pos m)) 53
                ltac:(pose proof (Zdigits2_nonneg (Z.pos m)); lia)). lia.
Qed.

(** The nearest numeral of 17 digits reads back as the float. *)
Lemma last_resort_reads m e num den d0 sc0 :
  Zdigits2 (Z.pos m) = 53 -> -1073 <= e <= 971 ->
  num = Z.pos m * P2 e -> den = Q2 e ->
  10 ^ 16 * snd (scaled num den sc0) <= fst (scaled num den sc0) ->
  2 * Z.abs (d0 * snd (scaled num den sc0) - fst (scaled num den sc0))
  <= snd (scaled num den sc0) ->
  float_of_decimal false d0 sc0 = S754_finite false m e.
Proof.
  intros Hm He -> -> Hlow Hnear.
  pose proof (P2_pos e) as HP. pose proof (Q2_pos e) as HQ.
  assert (Hnum : 0 < Z.pos m * P2 e) by nia.
  pose proof (scaled_pos (Z.pos m * P2 e) (Q2 e) sc0 Hnum HQ) as [Ha Hb].
  revert Hlow Hnear Ha Hb. unfold scaled, float_of_decimal.
  destruct (0 <=? sc0) eqn:Es; unfold fst, snd; intros Hlow Hnear Ha Hb.
  - apply Z.leb_le in Es. pose proof (pow10_pos sc0 Es) as Hp.
    assert (Hd0 : 0 < d0).
    { destruct (Z_lt_le_dec 0 d0) as [|Hle]; [assumption|exfalso].
      assert (d0 * (Q2 e * 10 ^ sc0) <= 0) by nia. lia. }
    apply float_of_ratio_near; try assumption; [nia | lia | ].
    replace (d0 * 10 ^ sc0 * Q2 e - Z.pos m * P2 e * 1)
      with (d0 * (Q2 e * 10 ^ sc0) - Z.pos m * P2 e) by ring.
    replace (Z.pos m * P2 e * 1) with (Z.pos m * P2 e) by ring.
    set (a := Z.pos m * P2 e) in *. set (b := Q2 e * 10 ^ sc0) in *.
    clearbody a b. lia.
  - apply Z.leb_gt in Es. pose proof (pow10_pos (- sc0) ltac:(lia)) as Hp.
    assert (Hd0 : 0 < d0).
    { destruct (Z_lt_le_dec 0 d0) as [|Hle]; [assumption|exfalso].
      assert (d0 * Q2 e <= 0) by nia. lia. }
    apply float_of_ratio_near; try assumption.
    set (a := Z.pos m * P2 e * 10 ^ (- sc0)) in *. set (b := Q2 e) in *.
    clearbody a b. lia.
Qed.

Lemma fraction_bounds m e :
  Z.pos m < 2 ^ 53 -> -1074 <= e <= 971 ->
  Z.pos m * P2 e < 10 ^ 400 * Q2 e /\ Q2 e <= Z.pos m * P2 e * 10 ^ 400.
Proof.
  intros Hm He. unfold P2, Q2.
  assert (H1 : 2 ^ 53 * 2 ^ 971 < 10 ^ 400) by (vm_compute; reflexivity).
  assert (H2 : 2 ^ 1074 < 10 ^ 400) by (vm_compute; reflexivity).
  assert (H3 : 2 ^ 53 < 10 ^ 400) by (vm_compute; reflexivity).
  assert (H4 : 0 < 2 ^ 971) by (vm_compute; reflexivity).
  remember (10 ^ 400) as T eqn:HT. remember (2 ^ 53) as A eqn:HA.
  remember (2 ^ 971) as B eqn:HB. remember (2 ^ 1074) as C eqn:HC.
  destruct (Z_le_gt_dec 0 e) as [Hp|Hn].
  - rewrite (Z.max_l e 0), (Z.max_r (- e) 0) by lia. rewrite Z.pow_0_r.
    pose proof (pow2_le e 971 ltac:(lia)) as Hle. rewrite <- HB in Hle.
    pose proof (pow2_pos e Hp) as Hpos.
    assert (Z.pos m * 2 ^ e <= A * B) by (apply Z.mul_le_mono_nonneg; lia).
    split; [lia|]. nia.
  - rewrite (Z.max_r e 0), (Z.max_l (- e) 0) by lia. rewrite Z.pow_0_r.
    pose proof (pow2_le (- e) 1074 ltac:(lia)) as Hle. rewrite <- HC in Hle.
    pose proof (pow2_pos (- e) ltac:(lia)) as Hpos.
    split; nia.
Qed.

(** Where the last resort is printed in positional notation the float is
    a normal one. *)
Lemma last_resort_normal m e sc0 :
  well_formed (S754_finite false m e) ->
  -21 <= sc0 ->
  10 ^ 16 * snd (scaled (Z.pos m * P2 e) (Q2 e) sc0)
  <= fst (scaled (Z.pos m * P2 e) (Q2 e) sc0) ->
  Zdigits2 (Z.pos m) = 53 /\ -1073 <= e <= 971.
Proof.
  intros Hwf Hsc Hlow.
  pose proof (well_formed_bounds _ _ _ Hwf) as [Hm He].
  assert (He' : -1073 <= e).
  { destruct (Z_le_gt_dec 0 e) as [Hp|Hn]; [lia|].
    pose proof (pow2_pos (- e) ltac:(lia)) as Hpos.
    assert (H70 : 2 ^ 53 * 10 ^ 21 < 10 ^ 16 * 2 ^ 70) by (vm_compute; reflexivity).
    assert (Hlt : 2 ^ (- e) < 2 ^ 70).
    { revert Hlow. unfold scaled, P2, Q2.
      rewrite (Z.max_r e 0), (Z.max_l (- e) 0) by lia. rewrite Z.pow_0_r, Z.mul_1_r.
      destruct (0 <=? sc0) eqn:Es; unfold fst, snd; intros Hlow.
      - apply Z.leb_le in Es. pose proof (pow10_pos sc0 Es) as H10.
        assert (2 ^ (- e) <= 2 ^ (- e) * 10 ^ sc0) by nia.
        assert (2 ^ 53 < 2 ^ 70) by (vm_compute; reflexivity). lia.
      - apply Z.leb_gt in Es.
        assert (H21 : 10 ^ (- sc0) <= 10 ^ 21) by (apply Z.pow_le_mono_r; lia).
        pose proof (pow10_pos (- sc0) ltac:(lia)) as H10.
        assert (Z.pos m * 10 ^ (- sc0) <= 2 ^ 53 * 10 ^ 21)
          by (apply Z.mul_le_mono_nonneg; lia).
        lia. }
    apply pow2_lt_inv in Hlt; lia. }
  split; [|lia].
  cbn [well_formed] in Hwf. lia.
Qed.

Lemma shortest_digits_eq m e :
  exists num den d0 sc0 d sc,
    0 < num /\ 0 < den /\ num = Z.pos m * P2 e /\ den = Q2 e
    /\ shortest_go 17 (S754_finite false m e) num den (decimal_point num den) 1
       = (d0, sc0)
    /\ strip_zeros 18 d0 sc0 = (d, sc)
    /\ shortest_digits m e = (dec_digits d, sc + len (dec_digits d)).
Proof.
  destruct (fraction_of_float m e) as (num & den & Hnd & Hnum & Hden & En & Ed).
  destruct (shortest_go 17 (S754_finite false m e) num den (decimal_point num den) 1)
    as [d0 sc0] eqn:Ego.
  destruct (strip_zeros 18 d0 sc0) as [d sc] eqn:Est.
  exists num, den, d0, sc0, d, sc.
  repeat (split; [assumption|]).
  unfold shortest_digits. rewrite Hnd, Ego, Est. reflexivity.
Qed.

(** [repr] of a finite positive float in positional notation reads back
    as the float. *)
Lemma float_repr_reads_back m e :
  well_formed (S754_finite false m e) ->
  positional (float_repr (S754_finite false m e)) = true ->
  float_of_str (float_repr (S754_finite false m e)) = Ok (S754_finite false m e).
Proof.
  intros Hwf.
  pose proof (well_formed_bounds _ _ _ Hwf) as [Hm He].
  destruct (shortest_digits_eq m e)
    as (num & den & d0 & sc0 & d & sc & Hnum & Hden & En & Ed & Ego & Est & Esd).
  pose proof (fraction_bounds m e Hm He) as [Hup Hlo]. rewrite <- En, <- Ed in Hup, Hlo.
  cbn [float_repr]. rewrite Esd. cbn [app].
  intros Hpos. apply format_positional in Hpos.
  apply (shortest_go_spec m e num den (decimal_point num den) 17 1 d0 sc0
           Hnum Hden ltac:(lia) ltac:(cbn; lia)) in Ego as [Hd0 Hgo].
  destruct (strip_zeros_spec 18 d0 sc0 Hd0) as (Hd & Hdpos & Hsame & Hsc & Hmul).
  rewrite Est in Hd, Hdpos, Hsame, Hsc, Hmul. cbn [fst snd] in Hd, Hdpos, Hsame, Hsc, Hmul.
  rewrite (format_reads d sc Hd Hpos). f_equal. rewrite Hsame.
  destruct Hgo as [Hgo|[Esc Hnear]]; [exact Hgo|].
  pose proof (decimal_point_scaled num den Hnum Hden Hup Hlo) as [Hlow Hhigh].
  rewrite <- Esc in Hlow, Hhigh.
  pose proof (scaled_pos num den sc0 Hnum Hden) as [Ha Hb].
  assert (Hr : 10 ^ 16 <= d0 <= 10 ^ 17).
  { set (a := fst (scaled num den sc0)) in *. set (b := snd (scaled num den sc0)) in *.
    clearbody a b.
    assert (A16 : 10 ^ 16 = 10000000000000000) by reflexivity.
    assert (A17 : 10 ^ 17 = 100000000000000000) by reflexivity.
    rewrite A16, A17 in *. nia. }
  assert (Hsc0 : -21 <= sc0).
  { assert (0 < d0) by (assert (0 < 10 ^ 16) by reflexivity; lia).
    specialize (Hdpos ltac:(assumption)).
    destruct (dec_digits_spec d Hd) as (_ & _ & Hlen & Hten).
    specialize (Hten Hdpos).
    assert (H10 : 10 ^ (len (dec_digits d) - 1 + (sc - sc0)) <= d0).
    { rewrite Z.pow_add_r by lia. rewrite Hmul.
      pose proof (pow10_pos (sc - sc0) ltac:(lia)). nia. }
    assert (Hlt : 10 ^ (len (dec_digits d) - 1 + (sc - sc0)) < 10 ^ 18).
    { assert (10 ^ 17 < 10 ^ 18) by reflexivity. lia. }
    apply pow10_lt_inv in Hlt; lia. }
  subst num den.
  destruct (last_resort_normal m e sc0 Hwf Hsc0 Hlow) as [Hm53 He'].
  eapply last_resort_reads; eauto.
Qed.

End ReadBack.

Section RoundTrip.
Context {R : Runtime}.

(** What [strtod] reads is an infinity, [nan], or the float nearest to a
    decimal fraction. *)
Lemma strtod_well_formed s x : strtod s = Some x -> well_formed x.
Proof.
  unfold strtod. destruct (take_sign s) as [neg body].
  destruct (str_eqb (ascii_lowercase body) (u "inf")
            || str_eqb (ascii_lowercase body) (u "infinity")).
  { intros [= <-]. exact I. }
  destruct (str_eqb (ascii_lowercase body) (u "nan")).
  { intros [= <-]. exact I. }
  pose proof (span_digits_digits body) as Hip.
  destruct (span_digits body) as [ip r1]; simpl in Hip.
  assert (Hfp : forall fp r2,
            match r1 with 46 :: r => span_digits r | _ => ([], r1) end = (fp, r2) ->
            Forall (fun c => ascii_digit c = true) fp).
  { intros fp r2 E.
    destruct r1 as [|c r]; [injection E as <- _; constructor|].
    destruct (Z.eq_dec c 46) as [->|Hc].
    - pose proof (span_digits_digits r) as H. rewrite E in H. exact H.
    - assert (E' : ([], c :: r) = (fp, r2)).
      { rewrite <- E. destruct c as [|p|p]; try reflexivity.
        do 6 (destruct p as [p|p|]; try reflexivity). congruence. }
      injection E' as <- _; constructor. }
  destruct (match r1 with 46 :: r => span_digits r | _ => ([], r1) end) as [fp r2].
  specialize (Hfp fp r2 eq_refl).
  assert (Hds : 0 <= digits_value (ip ++ fp)).
  { apply digits_value_nonneg, Forall_app; split; assumption. }
  destruct (ip ++ fp) as [|d ds] eqn:Eds; [discriminate|].
  destruct r2 as [|c r3].
  { intros [= <-]. apply float_of_decimal_well_formed; exact Hds. }
  destruct ((c =? 101) || (c =? 69)); [|discriminate].
  destruct (take_sign r3) as [eneg r4].
  destruct (span_digits r4) as [ed r5].
  destruct ed; [discriminate|]. destruct r5; [|discriminate].
  intros [= <-]. apply float_of_decimal_well_formed; exact Hds.
Qed.

Lemma float_of_str_well_formed s x : float_of_str s = Ok x -> well_formed x.
Proof.
  unfold float_of_str.
  destruct (underscores_ok 0 _); [|discriminate].
  destruct (strtod _) as [y|] eqn:E; [|discriminate].
  intros [= <-]. exact (strtod_well_formed _ _ E).
Qed.

Lemma ascii_digit_isdecimal c : ascii_digit c = true -> isdecimal c = true.
Proof.
  intros Hdig. unfold isdecimal, decimal, is_ascii. rewrite Hdig.
  unfold ascii_digit, in_range in Hdig. zbool.
  replace (c <? 128) with true by (symmetry; apply Z.ltb_lt; lia). reflexivity.
Qed.

(** Cleaning leaves a numeral in positional notation as it is. *)
Lemma cleaned_positional s : positional s = true -> cleaned s = s.
Proof.
  intros Hs. unfold cleaned, Noon.not_price_char. change (u ",") with [44].
  rewrite replace_char_filter, sub_chr_filter.
  unfold positional in Hs. rewrite forallb_forall in Hs.
  assert (H1 : List.filter
                 (fun ch => negb (cls_match false (Among true [ADigit; ALit 46; ALit 44]) ch)) s
               = s).
  { apply forallb_filter_id. apply forallb_forall. intros c Hc.
    specialize (Hs c Hc). cbn [cls_match atom_match existsb].
    pose proof (ascii_digit_isdecimal c) as Hd.
    destruct (ascii_digit c); [rewrite (Hd eq_refl); reflexivity|].
    cbn [orb] in Hs. rewrite Hs. destruct (isdecimal c); reflexivity. }
  rewrite H1.
  apply forallb_filter_id. apply forallb_forall. intros c Hc.
  specialize (Hs c Hc). unfold ascii_digit, in_range in Hs.
  destruct (44 =? c) eqn:E; [|reflexivity].
  apply Z.eqb_eq in E. subst c. discriminate Hs.
Qed.

Lemma float_repr_zero_reads_back :
  float_of_str (float_repr (S754_zero false)) = Ok (S754_zero false).
Proof.
  change (float_repr (S754_zero false)) with ([48] ++ 46 :: [48]).
  rewrite float_of_str_positional.
  - change (digits_value ([48] ++ [48])) with 0. unfold float_of_decimal.
    change (0 <=? - len [48]) with false. cbv iota.
    rewrite float_of_ratio_zero. reflexivity.
  - repeat constructor.
  - repeat constructor.
  - discriminate.
Qed.

(** A float read from a cleaned price string and shown in positional
    notation reads back from what is shown. *)
Lemma shown_price_reads_back raw v :
  float_of_str (cleaned raw) = Ok v ->
  positional (float_repr v) = true ->
  float_of_str (float_repr v) = Ok v.
Proof.
  intros E Hpos.
  pose proof (float_of_cleaned _ _ E) as Hs.
  pose proof (float_of_str_well_formed _ _ E) as Hwf.
  destruct Hs as [|m e|].
  - apply float_repr_zero_reads_back.
  - apply float_repr_reads_back; assumption.
  - discriminate Hpos.
Qed.

End RoundTrip.

(* ===================================================================== *)
(** * The claims                                                          *)
(* ===================================================================== *)

Section BudgetCeiling.

(** C1, as amended.  For a search item whose price ceiling [m] is present
    and positive, every record [search_item] returns whose [price_value]
    is present has [price_value <= m], on noon.com and on amazon.ae: a
    record whose price is known and above the ceiling is left out of the
    list.  (The filter tests truth values, [if max_price and
    product_info.price_value], so that a ceiling of zero is no ceiling.) *)
Theorem positive_ceiling_respected {R : Runtime} :
  (forall self item m rs r pv,
      Noon.max_price item = Some m ->
      float_lt float_zero m = true ->
      Noon.search_item self item = Ok rs ->
      In r rs ->
      Noon.price_value r = Some pv ->
      float_le pv m = true)
  /\ (forall self item m rs r pv,
      Amazon.max_price item = Some m ->
      float_lt float_zero m = true ->
      Amazon.search_item self item = Ok rs ->
      In r rs ->
      Amazon.price_value r = Some pv ->
      float_le pv m = true).
Proof.
  split; intros self item m rs r pv Hm Hpos Hs Hin Hpv.
  - apply not_over_budget_le; [exact Hpos|].
    rewrite <- Hpv, <- Hm.
    apply noon_search_item_cases in Hs as [->|[found ->]]; [destruct Hin|].
    clear Hpv. revert r Hin. apply Forall_forall.
    apply filter_products_budget; constructor.
  - apply not_over_budget_le; [exact Hpos|].
    rewrite <- Hpv, <- Hm.
    apply amazon_search_item_cases in Hs as [->|[found ->]]; [destruct Hin|].
    clear Hpv. revert r Hin. apply Forall_forall.
    apply filter_products_budget; constructor.
Qed.


(** The theorem at work: under a ceiling of AED 500, of the two mice at
    AED 100 and AED 899 the first alone is returned. *)
Lemma positive_ceiling_witness :
  exists r,
    @Noon.search_item ascii_only mouse_scraper (mouse_under 500) = Ok [r]
    /\ Noon.price_value r = Some (float_of_int 100)
    /\ float_le (float_of_int 100) (float_of_int 500) = true.
Proof.
  eexists. split; [vm_compute; reflexivity|]. split; [reflexivity|].
  eapply (proj1 (@positive_ceiling_respected ascii_only)
            mouse_scraper (mouse_under 500) (float_of_int 500)).
  - reflexivity.
  - vm_compute; reflexivity.
  - vm_compute; reflexivity.
  - left; reflexivity.
  - reflexivity.
Defined.


(** C1 as it was stated fails for a ceiling that is present and zero:
    with [max_price = 0.0] the filter is off, and the mouse at AED 899 is
    returned although [899 <= 0] is false. *)
Lemma zero_ceiling_counterexample :
  ~ (forall (R : Runtime) self item m rs r pv,
        Noon.max_price item = Some m ->
        Noon.search_item self item = Ok rs ->
        In r rs ->
        Noon.price_value r = Some pv ->
        float_le pv m = true).
Proof.
  intros H.
  assert (E : exists rs, @Noon.search_item ascii_only mouse_scraper (mouse_under 0) = Ok rs
                         /\ exists r, nth_error rs 1 = Some r
                         /\ Noon.price_value r = Some (float_of_int 899)).
  { eexists. split; [vm_compute; reflexivity|].
    eexists. split; [reflexivity|reflexivity]. }
  destruct E as (rs & Hs & r & Hr & Hpv).
  specialize (H ascii_only mouse_scraper (mouse_under 0) (float_of_int 0) rs r
                (float_of_int 899) eq_refl Hs (nth_error_In _ _ Hr) Hpv).
  vm_compute in H. discriminate H.
Qed.


(** Scenario D of the specification. *)
Example scenario_D :
  exists r,
    @Noon.search_item ascii_only mouse_scraper (mouse_under 500) = Ok [r]
    /\ Noon.title r = u "Wireless Mouse Logitech".
Proof. eexists. split; vm_compute; reflexivity. Qed.

End BudgetCeiling.

Section BudgetAnnotation.

(** C2.  In every record [save_unified_results] and [save_results] write,
    [within_budget] is set only when the record's [price_value] and the
    [max_price_filter] written beside it are both there, and it is then
    [price_value <= max_price]; when either is absent it is unset. *)
Theorem within_budget_annotation :
  (forall now results term key site sp,
      In (key, site) (Unified.sites (Unified.save_unified_results now results term)) ->
      In sp (Unified.saved_products site) ->
      budget_annotation (Unified.within_budget sp)
                        (Unified.saved_price_value sp)
                        (Unified.max_price_filter site))
  /\ (forall results key saved sp,
      In (key, saved) (Amazon.save_results results) ->
      In sp (Amazon.saved_products saved) ->
      budget_annotation (Amazon.within_budget sp)
                        (Amazon.saved_price_value sp)
                        (Amazon.max_price_filter saved)).
Proof.
  split.
  - intros now results term key site sp Hsite Hsp.
    apply unified_saved_sites in Hsite as (data & _ & ->).
    cbn [Unified.saved_products Unified.max_price_filter] in *.
    apply in_map_iff in Hsp as (p & <- & _).
    apply budget_flag_annotation.
  - intros results key saved sp Hsaved Hsp.
    apply amazon_saved_searches in Hsaved as (data & _ & ->).
    cbn [Amazon.saved_products Amazon.max_price_filter] in *.
    apply in_map_iff in Hsp as (p & <- & _).
    apply budget_flag_annotation.
Qed.


(** The theorem at work: a cable at AED 25 saved under a ceiling of AED 40
    is flagged within budget. *)
Lemma within_budget_annotation_witness :
  exists saved sp,
    In (u "usb cable", saved) (Amazon.save_results amazon_results)
    /\ In sp (Amazon.saved_products saved)
    /\ Amazon.within_budget sp = Some true
    /\ budget_annotation (Amazon.within_budget sp) (Amazon.saved_price_value sp)
                         (Amazon.max_price_filter saved).
Proof.
  eexists. eexists.
  split; [left; reflexivity|]. split; [left; reflexivity|].
  split; [vm_compute; reflexivity|].
  eapply (proj2 within_budget_annotation amazon_results (u "usb cable"));
    left; reflexivity.
Defined.


End BudgetAnnotation.

Section PriceNormalizer.

(** C3.  For every string, [extract_numeric_price] returns and does not
    raise; what it returns is no value or a float that is not negative; it
    is no value when the string cleaned to digits, points and commas is
    empty, and when [float()] rejects the cleaned string. *)
Theorem extract_numeric_price_safe {R : Runtime} (price_str : str) :
  exists r,
    Noon.extract_numeric_price price_str = Ok r
    /\ Amazon.extract_numeric_price price_str = Ok r
    /\ match r with
       | Some x => float_le float_zero x = true
       | None => True
       end
    /\ (Re.sub false Noon.not_price_char [] price_str = [] -> r = None)
    /\ (forall e, float_of_str (cleaned price_str) = Raise e -> r = None).
Proof.
  change (Amazon.extract_numeric_price price_str)
    with (Noon.extract_numeric_price price_str).
  rewrite extract_numeric_price_eq.
  destruct (float_of_str (cleaned price_str)) as [x|e] eqn:E.
  - exists (Some x). repeat split.
    + apply signed_false_nonneg. eapply float_of_cleaned; exact E.
    + intros Hempty. unfold cleaned in E. rewrite Hempty in E.
      vm_compute in E. discriminate E.
    + intros e' [=].
  - exists None. repeat split.
Qed.


(** The theorem at work: a string with no digit in it has no value. *)
Lemma extract_numeric_price_safe_witness :
  @Noon.extract_numeric_price ascii_only (u "Call for price") = Ok None.
Proof.
  destruct (@extract_numeric_price_safe ascii_only (u "Call for price"))
    as (r & Hr & _ & _ & Hempty & _).
  rewrite Hr. rewrite (Hempty eq_refl). reflexivity.
Defined.


(** Scenario C of the specification. *)
Example scenario_C :
  @Noon.extract_numeric_price ascii_only (u "AED 1,299.00") = Ok (Some (float_of_int 1299)).
Proof. vm_compute. reflexivity. Qed.


(** C4, as amended.  For every raw string whose normalization yields a
    numeric value [v] that [repr] writes in positional notation, digits
    and a point with no exponent, normalizing the display made of it,
    [f"AED {v}"], yields [v] again. *)
Theorem price_display_renormalizes {R : Runtime} raw v :
  Noon.extract_numeric_price raw = Ok (Some v) ->
  positional (float_repr v) = true ->
  Noon.extract_numeric_price (Noon.price_message v) = Ok (Some v).
Proof.
  intros Hraw Hpos.
  rewrite extract_numeric_price_eq in Hraw.
  destruct (float_of_str (cleaned raw)) as [x|] eqn:E; [|discriminate Hraw].
  injection Hraw as ->.
  unfold Noon.price_message.
  rewrite extract_numeric_price_eq, cleaned_aed, (cleaned_positional _ Hpos).
  rewrite (shown_price_reads_back raw v E Hpos). reflexivity.
Qed.

(** The theorem at work on the price of scenario C, shown as
    ["AED 1299.0"]. *)
Lemma price_display_witness :
  @Noon.extract_numeric_price ascii_only (u "AED 1,299.00")
  = Ok (Some (float_of_int 1299))
  /\ positional (float_repr (float_of_int 1299)) = true
  /\ Noon.price_message (float_of_int 1299) = u "AED 1299.0"
  /\ @Noon.extract_numeric_price ascii_only (Noon.price_message (float_of_int 1299))
     = Ok (Some (float_of_int 1299)).
Proof.
  split; [vm_compute; reflexivity|].
  split; [vm_compute; reflexivity|].
  split; [vm_compute; reflexivity|].
  apply (@price_display_renormalizes ascii_only (u "AED 1,299.00") (float_of_int 1299));
    vm_compute; reflexivity.
Defined.

(** C4 as it was stated fails where [repr] writes the value with an
    exponent: the string ["10000000000000000"] normalizes to [1e16], which
    is shown as ["AED 1e+16"], and that normalizes to [116.0]. *)
Lemma display_of_value_counterexample :
  ~ (forall (R : Runtime) raw v,
        Noon.extract_numeric_price raw = Ok (Some v) ->
        Noon.extract_numeric_price (Noon.price_message v) = Ok (Some v)).
Proof.
  intros H.
  specialize (H ascii_only (u "10000000000000000") (float_of_int (10 ^ 16))).
  vm_compute in H. specialize (H eq_refl). discriminate H.
Qed.


End PriceNormalizer.

Section CandidateCap.

(** C5, as amended.  In the fallback tier, the scan of the page's [div]
    elements that runs when no selector located a product, the elements
    located are never more than the maximum of the source, 5 on noon.com
    and 10 on namshi.com and amazon.ae: the scan stops there.  And
    whichever tier located the elements, no search returns more records
    than that maximum. *)
Theorem candidates_capped {R : Runtime} :
  (forall pg item found,
      Noon.strategy_1 pg Noon.class_selectors [] = [] ->
      Noon.potential_products pg item = Ok found ->
      len found <= 5)
  /\ (forall pg item found,
      Namshi.strategy_1 pg Namshi.product_selectors = [] ->
      Namshi.potential_products pg item = Ok found ->
      len found <= 10)
  /\ (forall pg item found,
      Amazon.strategy_1 pg item Amazon.product_selectors = [] ->
      Amazon.potential_products pg item = Ok found ->
      len found <= 10)
  /\ (forall self item rs, Noon.search_item self item = Ok rs -> len rs <= 5)
  /\ (forall self item rs, Namshi.search_item self item = Ok rs -> len rs <= 10)
  /\ (forall self item rs, Amazon.search_item self item = Ok rs -> len rs <= 10).
Proof.
  split; [|split; [|split; [|split; [|split]]]].
  - intros pg item found Hs H.
    unfold Noon.potential_products in H. rewrite Hs in H. simpl in H.
    step H. injection H as <-. apply noon_strategy_2_length. reflexivity.
  - intros pg item found Hs H.
    unfold Namshi.potential_products in H. rewrite Hs in H. simpl in H.
    step H. injection H as <-. apply namshi_strategy_2_length. reflexivity.
  - intros pg item found Hs H.
    unfold Amazon.potential_products in H. rewrite Hs in H. simpl in H.
    step H. injection H as <-. apply amazon_strategy_2_length. reflexivity.
  - intros self item rs H.
    apply noon_search_item_cases in H as [->|[found ->]]; [unfold len; simpl; lia|].
    pose proof (filter_products_length Noon.price_value Noon.extract_simple_product_info
                  (Noon.name item) (Noon.max_price item) (slice_to 5 found) []) as Hl.
    pose proof (length_slice_to 5 found). unfold len. cbn [List.length] in Hl. lia.
  - intros self item rs H.
    apply namshi_search_item_cases in H as [->|[found ->]]; [unfold len; simpl; lia|].
    pose proof (filter_products_length Namshi.price_value Namshi.extract_namshi_product_info
                  (Namshi.name item) (Namshi.max_price item) (slice_to 10 found) []) as Hl.
    pose proof (length_slice_to 10 found). unfold len. cbn [List.length] in Hl. lia.
  - intros self item rs H.
    apply amazon_search_item_cases in H as [->|[found ->]]; [unfold len; simpl; lia|].
    pose proof (filter_products_length Amazon.price_value Amazon.extract_amazon_product_info
                  (Amazon.name item) (Amazon.max_price item) (slice_to 10 found) []) as Hl.
    pose proof (length_slice_to 10 found). unfold len. cbn [List.length] in Hl. lia.
Qed.


(** The theorem at work: a page of six boxes, all within the ceiling,
    gives five records. *)
Lemma candidates_capped_witness :
  exists rs,
    @Noon.search_item ascii_only
      {| Noon.headless := true; Noon.driver := Some (driver_showing six_boxes_page) |}
      (mouse_under 500) = Ok rs
    /\ len rs = 5
    /\ len rs <= 5.
Proof.
  eexists. split; [vm_compute; reflexivity|]. split; [reflexivity|].
  apply (proj1 (proj2 (proj2 (proj2 (@candidates_capped ascii_only))))
           {| Noon.headless := true; Noon.driver := Some (driver_showing six_boxes_page) |}
           (mouse_under 500)).
  vm_compute; reflexivity.
Defined.

(** C5 as it was stated fails in the strategy tier: a selector that
    matches six product boxes of noon.com locates all six, one more than
    the maximum. *)
Lemma strategy_tier_counterexample :
  ~ (forall (R : Runtime) pg item found,
        Noon.potential_products pg item = Ok found -> len found <= 5).
Proof.
  intros H.
  assert (E : exists found,
             @Noon.potential_products ascii_only six_boxes_page (u "mouse") = Ok found
             /\ len found = 6).
  { eexists. split; vm_compute; reflexivity. }
  destruct E as (found & E & L).
  apply H in E. lia.
Qed.


End CandidateCap.

Section ItemsFile.

(** C6.  The line ["Desk Lamp,150"] gives the item of name ["Desk Lamp"]
    and ceiling 150; the line ["Desk Lamp,abc"] gives the same name with
    no ceiling, and no error; a blank line and a line that starts with
    [#] give no item; and the items of a file are those of the lines
    before any of its lines, those of that line and those of the lines
    after it, so that no line, whatever its price part, costs the others
    their items. *)
Theorem parse_items_from_file_lines {R : Runtime} :
  (forall file_path,
      Noon.parse_items_from_file (fun _ => Ok [u "Desk Lamp,150"]) file_path
      = Ok [{| Noon.name := u "Desk Lamp";
               Noon.max_price := Some (float_of_int 150) |}])
  /\ (forall file_path,
      Noon.parse_items_from_file (fun _ => Ok [u "Desk Lamp,abc"]) file_path
      = Ok [{| Noon.name := u "Desk Lamp"; Noon.max_price := None |}])
  /\ (forall items line,
      strip line = [] \/ startswith (u "#") (strip line) = true ->
      Noon.parse_line items line = Ok items)
  /\ (forall before line after file_path,
      exists xs ys zs,
        Noon.parse_items_from_file (fun _ => Ok before) file_path = Ok xs
        /\ Noon.parse_items_from_file (fun _ => Ok [line]) file_path = Ok ys
        /\ Noon.parse_items_from_file (fun _ => Ok after) file_path = Ok zs
        /\ Noon.parse_items_from_file (fun _ => Ok (before ++ line :: after)) file_path
           = Ok (xs ++ ys ++ zs)).
Proof.
  split; [|split; [|split]].
  - intros file_path. vm_compute. reflexivity.
  - intros file_path. vm_compute. reflexivity.
  - intros items line [H|H]; unfold Noon.parse_line; rewrite H; [reflexivity|].
    rewrite orb_true_r. reflexivity.
  - intros before line after file_path.
    destruct (parse_lines_appends before) as [xs Hxs].
    destruct (parse_line_appends line) as [ys Hys].
    destruct (parse_lines_appends after) as [zs Hzs].
    exists xs, ys, zs. rewrite !parse_items_from_lines.
    rewrite parse_lines_app, Hxs. simpl. rewrite !Hys. simpl. rewrite !Hzs.
    rewrite <- app_assoc. auto.
Qed.


(** The theorem at work on a comment line. *)
Lemma comment_line_witness :
  @Noon.parse_line ascii_only [] (u "# Samsung Galaxy S24,2000") = Ok [].
Proof.
  apply (proj1 (proj2 (proj2 (@parse_items_from_file_lines ascii_only)))).
  right. vm_compute. reflexivity.
Defined.

End ItemsFile.

Section FailureIsolation.

(** C7.  Once the scraper modules are imported, [search_all_sites] always
    returns a dictionary with the three keys [noon], [namshi] and
    [amazon]; the products under a key are empty when that source's
    driver could not be set up and when its search raised, and are
    otherwise all that its own [search_item] returned, whatever happened
    to the other two sources. *)
Theorem per_source_failure_isolation {R : Runtime}
    (w : Unified.world) (search_term : str) (max_price : option float) (headless : bool) :
  exists noon namshi amazon,
    Unified.search_all_sites (Ok tt) w search_term max_price headless
    = Ok [(u "noon", {| Unified.site := u "Noon.com"; Unified.products := noon;
                        Unified.max_price := max_price |});
          (u "namshi", {| Unified.site := u "Namshi.com"; Unified.products := namshi;
                          Unified.max_price := max_price |});
          (u "amazon", {| Unified.site := u "Amazon.ae"; Unified.products := amazon;
                          Unified.max_price := max_price |})]
    /\ source_outcome
         (Noon.setup_driver (Unified.noon_chrome w)
            {| Noon.headless := headless; Noon.driver := None |})
         (fun s => Noon.search_item_body s
                     {| Noon.name := search_term; Noon.max_price := max_price |})
         (fun s => Noon.search_item s
                     {| Noon.name := search_term; Noon.max_price := max_price |})
         Unified.NoonProduct noon
    /\ source_outcome
         (Namshi.setup_driver (Unified.namshi_chrome w)
            {| Namshi.headless := headless; Namshi.driver := None |})
         (fun s => Namshi.search_item_body s
                     {| Namshi.name := search_term; Namshi.max_price := max_price |})
         (fun s => Namshi.search_item s
                     {| Namshi.name := search_term; Namshi.max_price := max_price |})
         Unified.NamshiProduct namshi
    /\ source_outcome
         (Amazon.setup_driver (Unified.amazon_chrome w)
            {| Amazon.headless := headless; Amazon.driver := None |})
         (fun s => Amazon.search_item_body s
                     {| Amazon.name := search_term; Amazon.max_price := max_price |})
         (fun s => Amazon.search_item s
                     {| Amazon.name := search_term; Amazon.max_price := max_price |})
         Unified.AmazonProduct amazon.
Proof.
  destruct (noon_outcome w search_term max_price headless) as (noon & Hn & On).
  destruct (namshi_outcome w search_term max_price headless) as (namshi & Hm & Om).
  destruct (amazon_outcome w search_term max_price headless) as (amazon & Ha & Oa).
  exists noon, namshi, amazon. repeat split; try assumption;
    try (apply On || apply Om || apply Oa).
  unfold Unified.search_all_sites, try_except. cbn [Py.bind].
  rewrite Hn, Hm, Ha. reflexivity.
Qed.


(** The theorem at work: Chrome is missing for namshi.com, and the session
    has that source with no product. *)
Lemma per_source_failure_isolation_witness :
  exists results data,
    @Unified.search_all_sites ascii_only (Ok tt) noon_only_world (u "mouse")
      (Some (float_of_int 500)) true = Ok results
    /\ dict_get (u "namshi") results = Some data
    /\ Unified.products data = [].
Proof.
  destruct (@per_source_failure_isolation ascii_only noon_only_world (u "mouse")
              (Some (float_of_int 500)) true)
    as (noon & namshi & amazon & Hs & _ & (Hsetup & _) & _).
  eexists. eexists. split; [exact Hs|]. split; [reflexivity|].
  apply Hsetup. reflexivity.
Defined.


(** Scenario E of the specification: Chrome starts for noon.com alone. *)
Example noon_only_session :
  exists r,
    @Unified.search_all_sites ascii_only (Ok tt) noon_only_world (u "mouse")
      (Some (float_of_int 500)) true
    = Ok [(u "noon", {| Unified.site := u "Noon.com";
                        Unified.products := [Unified.NoonProduct r];
                        Unified.max_price := Some (float_of_int 500) |});
          (u "namshi", {| Unified.site := u "Namshi.com"; Unified.products := [];
                          Unified.max_price := Some (float_of_int 500) |});
          (u "amazon", {| Unified.site := u "Amazon.ae"; Unified.products := [];
                          Unified.max_price := Some (float_of_int 500) |})].
Proof. eexists. vm_compute. reflexivity. Qed.


End FailureIsolation.

Section PriceFloor.

(** C8, at the input on which the code departs from it.  A noon.com box
    with no price markup and the text ["5.00 AED"]: the first pattern
    matches, the floor is tested on [int("500")], and the record is built
    with the price ["AED 5.00"] and a [price_value] of 5, which is not
    above 50. *)
Theorem noon_pattern_floor_missed :
  exists r,
    @Noon.extract_simple_product_info ascii_only protector_box (u "screen protector")
    = Ok (Some r)
    /\ @Noon.price_from_selectors ascii_only protector_box = None
    /\ @Noon.price_from_patterns ascii_only Noon.price_patterns protector_text
       = Ok (Some (u "AED 5.00"))
    /\ Noon.price r = u "AED 5.00"
    /\ Noon.price_value r = Some (float_of_int 5)
    /\ float_lt (float_of_int 50) (float_of_int 5) = false.
Proof.
  eexists. split; [vm_compute; reflexivity|].
  repeat split; vm_compute; reflexivity.
Qed.


End PriceFloor.

Section TitleDefault.

(** C9, at the input on which the code departs from it.  An amazon.ae
    result whose title span holds ["Shoes"]: no title strategy reads a
    text of more than 10 characters, no line of the text would do as a
    title, and yet the record is built with the title ["Shoes"], not
    ["Unknown Product"]: the cascade assigns [title] before it tests it. *)
Theorem short_title_kept :
  (forall selector t,
      In selector Amazon.title_selectors ->
      @strategy_text ascii_only shoes_result selector = Ok t ->
      (10 <? len t) = false)
  /\ List.find (@Amazon.title_line ascii_only) (@stripped_lines ascii_only shoes_text) = None
  /\ exists r,
       @Amazon.extract_amazon_product_info ascii_only shoes_result (u "shoes") = Ok (Some r)
       /\ Amazon.title r = u "Shoes"
       /\ Amazon.title r <> u "Unknown Product".
Proof.
  split; [|split].
  - intros selector t Hin.
    repeat (destruct Hin as [<-|Hin]; [vm_compute; intros [= <-]; reflexivity || discriminate|]).
    destruct Hin.
  - vm_compute. reflexivity.
  - eexists. split; [vm_compute; reflexivity|]. split; [reflexivity|].
    vm_compute. discriminate.
Qed.


End TitleDefault.

Section SavedFlag.

(** C10.  In what [save_results] writes after the searches of [main] on
    amazon.ae, and in what [save_unified_results] writes after
    [search_all_sites], [within_budget] is never false: the records whose
    flag would be false were left out by the filter of [search_item]. *)
Theorem saved_flag_never_false {R : Runtime} :
  (forall self items,
      exists results,
        Amazon.search_all self items = Ok results
        /\ forall key saved sp,
             In (key, saved) (Amazon.save_results results) ->
             In sp (Amazon.saved_products saved) ->
             Amazon.within_budget sp <> Some false)
  /\ (forall imports w term mp headless results now key site sp,
        Unified.search_all_sites imports w term mp headless = Ok results ->
        In (key, site) (Unified.sites (Unified.save_unified_results now results term)) ->
        In sp (Unified.saved_products site) ->
        Unified.within_budget sp <> Some false).
Proof.
  split.
  - intros self items.
    destruct (amazon_search_all_budget self items) as (results & Hres & Hinv).
    exists results; split; [exact Hres|].
    intros key saved sp Hsaved Hsp.
    apply amazon_saved_searches in Hsaved as (data & Hdata & ->).
    cbn [Amazon.saved_products] in Hsp.
    apply in_map_iff in Hsp as (p & <- & Hp).
    apply in_map_iff in Hdata as ([k d] & <- & Hkd). simpl in *.
    specialize (Hinv k d Hkd). rewrite Forall_forall in Hinv. apply Hinv, Hp.
  - intros imports w term mp headless results now key site sp Hres Hsite Hsp.
    apply unified_saved_sites in Hsite as (data & Hdata & ->).
    cbn [Unified.saved_products] in Hsp.
    apply in_map_iff in Hsp as (p & <- & Hp).
    apply in_map_iff in Hdata as ([k d] & <- & Hkd). simpl in *.
    pose proof (unified_search_all_sites_budget _ _ _ _ _ _ Hres k d Hkd) as Hinv.
    rewrite Forall_forall in Hinv. apply Hinv, Hp.
Qed.


(** The theorem at work: the mouse at AED 100 found under a ceiling of
    AED 500 is saved with the flag set to true. *)
Lemma saved_flag_never_false_witness :
  exists results site sp,
    @Unified.search_all_sites ascii_only (Ok tt) noon_only_world (u "mouse")
      (Some (float_of_int 500)) true = Ok results
    /\ In (u "noon", site)
          (Unified.sites (Unified.save_unified_results (u "2025-01-01 00:00:00") results (u "mouse")))
    /\ In sp (Unified.saved_products site)
    /\ Unified.within_budget sp = Some true
    /\ Unified.within_budget sp <> Some false.
Proof.
  eexists. eexists. eexists.
  split; [vm_compute; reflexivity|].
  split; [left; reflexivity|]. split; [left; reflexivity|].
  split; [vm_compute; reflexivity|].
  eapply (proj2 (@saved_flag_never_false ascii_only) (Ok tt) noon_only_world (u "mouse")
            (Some (float_of_int 500)) true _ (u "2025-01-01 00:00:00") (u "noon")).
  - vm_compute; reflexivity.
  - left; reflexivity.
  - left; reflexivity.
Defined.


End SavedFlag.


(* ===================================================================== *)
(** * Further properties of the scrapers                                  *)
(* ===================================================================== *)

(** Through the body of a record builder: each [bind] that went on, each
    early [return None] that was not taken. *)
Ltac open_record E :=
  repeat match type of E with
  | Py.bind ?r _ = Ok _ =>
    let E' := fresh "E" in destruct r eqn:E'; cbn [Py.bind] in E; [|discriminate E]
  | (if ?c then Ok None else _) = Ok _ =>
    let C := fresh "C" in destruct c eqn:C; [discriminate E|]
  | (let '(_, _) := ?p in _) = Ok _ =>
    let P := fresh "P" in destruct p eqn:P
  end.

(** The record built, in place of its name. *)
Ltac name_record E r :=
  match type of E with
  | Ok (Some ?built) = Ok (Some _) =>
    let Hr := fresh "Hr" in
    assert (Hr : r = built) by congruence; rewrite Hr; clear Hr E
  end.

Section Cascades.
Context {A : Type}.

(** What a cascade returns was returned for one of its selectors. *)
Lemma first_hit_some selectors (attempt : str -> result (option A)) a :
  first_hit selectors attempt = Some a ->
  exists selector, In selector selectors /\ attempt selector = Ok (Some a).
Proof.
  induction selectors as [|selector rest IH]; simpl; [discriminate|].
  destruct (attempt selector) as [[b|]|e] eqn:E.
  - intros [= ->]. exists selector; auto.
  - intros H. destruct (IH H) as (s & Hs & Es). exists s; auto.
  - intros H. destruct (IH H) as (s & Hs & Es). exists s; auto.
Qed.

End Cascades.

Section Builders.
Context {R : Runtime}.

Lemma str_eqb_eq a : forall b, str_eqb a b = true <-> a = b.
Proof.
  induction a as [|x a IH]; intros [|y b]; simpl; split; try discriminate; auto.
  - intros H. apply andb_true_iff in H as [Hx Hr]. apply Z.eqb_eq in Hx. subst y.
    f_equal. apply IH, Hr.
  - intros [= -> ->]. rewrite Z.eqb_refl. apply IH. reflexivity.
Qed.

Lemma len_truncated (n : nat) (t : str) :
  len (if Z.of_nat n <? len t then slice_to n t ++ u "..." else t) <= Z.of_nat n + 3.
Proof.
  destruct (Z.of_nat n <? len t) eqn:E.
  - unfold len. rewrite length_app.
    pose proof (length_slice_to n t). change (List.length (u "...")) with 3%nat. lia.
  - apply Z.ltb_ge in E. lia.
Qed.

(** The image cascade of noon.com and namshi.com. *)
Lemma image_attempt_facts (e : Dom.element) (sel v : str) :
  (img_element <- el_find_element e sel ;;
   src <- el_get_attribute img_element (u "src") ;;
   match src with
   | Some v =>
     if str_bool v && negb (contains (u "placeholder") v) && startswith (u "http") v
     then Ok (Some v) else Ok None
   | None => Ok None
   end) = Ok (Some v) ->
  startswith (u "http") v = true /\ contains (u "placeholder") v = false.
Proof.
  destruct (el_find_element e sel) as [img|]; [|discriminate]. cbn [Py.bind].
  destruct (el_get_attribute img _) as [[w|]|]; try discriminate. cbn [Py.bind].
  destruct (_ && _) eqn:C; [|discriminate]. intros [= ->]. zbool; auto.
Qed.

Lemma noon_record_facts element term r :
  Noon.extract_simple_product_info element term = Ok (Some r) ->
  len (Noon.title r) <= 103
  /\ (forall v, Noon.image_url r = Some v ->
        startswith (u "http") v = true /\ contains (u "placeholder") v = false)
  /\ (forall t, Noon.rating r = Some t ->
        exists x, float_of_str t = Ok x
                  /\ float_le (float_of_int 0) x = true
                  /\ float_le x (float_of_int 5) = true)
  /\ (startswith (u "http") (Noon.url r) = true
      \/ (el_tag_name element = Ok (u "a")
          /\ el_get_attribute element (u "href") = Ok (Some (Noon.url r))
          /\ contains (u "/p/") (Noon.url r) = true))
  /\ (Noon.price r = Noon.price_not_available -> Noon.price_value r = None)
  /\ exists t, el_text element = Ok t /\ 10 <= len (strip t).
Proof.
  unfold Noon.extract_simple_product_info, try_except.
  match goal with |- match ?b with _ => _ end = _ -> _ => destruct b as [o|e] eqn:E end;
    [|simpl; discriminate].
  intros [= ->].
  open_record E. name_record E r.
  cbn [Noon.title Noon.image_url Noon.rating Noon.url Noon.price Noon.price_value].
  split; [|split; [|split; [|split; [|split]]]].
  - apply (len_truncated 100).
  - intros v H. apply first_hit_some in H as (sel & _ & H).
    eapply image_attempt_facts; exact H.
  - intros t H. apply first_hit_some in H as (sel & _ & H).
    destruct (el_find_element element sel) as [re|]; [|discriminate]. cbn [Py.bind] in H.
    destruct (el_text re) as [rt|]; [|discriminate]. cbn [Py.bind] in H.
    destruct (str_bool (strip rt)); [|discriminate].
    destruct (Re.match_ false Noon.rating_pattern (strip rt)); [|discriminate].
    destruct (float_of_str (strip rt)) as [x|] eqn:Ex; [|discriminate]. cbn [Py.bind] in H.
    destruct (_ && _) eqn:C'; [|discriminate]. injection H as <-.
    exists x. zbool; auto.
  - set (search_url := u "https://www.noon.com/uae-en/search?q=" ++ a1) in *.
    match type of E3 with
    | (if endswith a1 ?U then _ else _) = _ => set (url := U) in *
    end.
    assert (Hurl : startswith (u "http") url = true).
    { subst url. destruct (first_hit _ _) as [x|] eqn:F; [|reflexivity].
      apply first_hit_some in F as (sel & _ & F). cbn [or_default].
      destruct (el_find_element element sel) as [le|]; [|discriminate]. cbn [Py.bind] in F.
      destruct (el_get_attribute le _) as [[h|]|]; try discriminate. cbn [Py.bind] in F.
      destruct (str_bool h); [|discriminate].
      destruct (startswith (u "/") h); [injection F as <-; reflexivity|].
      destruct (startswith (u "http") h) eqn:Eh; injection F as <-; [exact Eh|reflexivity]. }
    destruct (endswith a1 url); [|injection E3 as <-; left; exact Hurl].
    destruct (el_tag_name element) as [tag|]; [|discriminate]. cbn [Py.bind] in E3.
    destruct (str_eqb tag (u "a")) eqn:Etag; [|injection E3 as <-; left; exact Hurl].
    apply str_eqb_eq in Etag. subst tag.
    destruct (el_get_attribute element (u "href")) as [[h|]|]; try discriminate;
      cbn [Py.bind] in E3; [|injection E3 as <-; left; exact Hurl].
    destruct (str_bool h && contains (u "/p/") h) eqn:Ch;
      [|injection E3 as <-; left; exact Hurl].
    destruct (startswith (u "/") h); injection E3 as <-.
    + left. reflexivity.
    + right. zbool. auto.
  - intros ->. vm_compute in E4. injection E4 as <-. reflexivity.
  - exists a. split; [reflexivity|]. zbool. lia.
Qed.

End Builders.



Section ErrorPages.
Context {R : Runtime}.

(** X1.  A search whose page has an error title gives no product, whatever
    the page holds: a title with [error] or [can't be reached] on noon.com
    and namshi.com, with [robot] or [captcha] on amazon.ae, in any case of
    letters; so does a page of noon.com whose source has fewer than 1000
    characters. *)
Theorem error_page_gives_no_product :
  (forall self item d pg page_title,
      Noon.driver self = Some d ->
      (forall url, wd_get d url = Ok pg) ->
      pg_title pg = Ok page_title ->
      contains (u "can't be reached") (lower page_title)
      || contains (u "error") (lower page_title) = true ->
      Noon.search_item self item = Ok [])
  /\ (forall self item d pg page_source,
      Noon.driver self = Some d ->
      (forall url, wd_get d url = Ok pg) ->
      pg_page_source pg = Ok page_source ->
      len page_source < 1000 ->
      Noon.search_item self item = Ok [])
  /\ (forall self item d pg page_title,
      Namshi.driver self = Some d ->
      (forall url, wd_get d url = Ok pg) ->
      pg_title pg = Ok page_title ->
      contains (u "can't be reached") (lower page_title)
      || contains (u "error") (lower page_title) = true ->
      Namshi.search_item self item = Ok [])
  /\ (forall self item d pg page_title,
      Amazon.driver self = Some d ->
      (forall url, wd_get d url = Ok pg) ->
      pg_title pg = Ok page_title ->
      contains (u "robot") (lower page_title)
      || contains (u "captcha") (lower page_title) = true ->
      Amazon.search_item self item = Ok []).
Proof.
  split; [|split; [|split]].
  - intros self item d pg page_title Hd Hget Ht Herr.
    unfold Noon.search_item, Noon.search_item_body, try_except.
    destruct (quote_plus _); [|reflexivity]. cbn [Py.bind].
    rewrite Hd. cbn [Py.bind]. rewrite Hget. cbn [Py.bind]. rewrite Ht. cbn [Py.bind].
    destruct (pg_current_url pg); [|reflexivity]. cbn [Py.bind].
    rewrite Herr. reflexivity.
  - intros self item d pg page_source Hd Hget Hsrc Hlen.
    unfold Noon.search_item, Noon.search_item_body, try_except.
    destruct (quote_plus _); [|reflexivity]. cbn [Py.bind].
    rewrite Hd. cbn [Py.bind]. rewrite Hget. cbn [Py.bind].
    destruct (pg_title pg); [|reflexivity]. cbn [Py.bind].
    destruct (pg_current_url pg); [|reflexivity]. cbn [Py.bind].
    destruct (_ || _); [reflexivity|].
    rewrite Hsrc. cbn [Py.bind].
    replace (len page_source <? 1000) with true by (symmetry; apply Z.ltb_lt; exact Hlen).
    reflexivity.
  - intros self item d pg page_title Hd Hget Ht Herr.
    unfold Namshi.search_item, Namshi.search_item_body, try_except.
    destruct (quote_plus _); [|reflexivity]. cbn [Py.bind].
    rewrite Hd. cbn [Py.bind]. rewrite Hget. cbn [Py.bind]. rewrite Ht. cbn [Py.bind].
    destruct (pg_current_url pg); [|reflexivity]. cbn [Py.bind].
    rewrite Herr. reflexivity.
  - intros self item d pg page_title Hd Hget Ht Herr.
    unfold Amazon.search_item, Amazon.search_item_body, try_except.
    destruct (quote_plus _); [|reflexivity]. cbn [Py.bind].
    rewrite Hd. cbn [Py.bind]. rewrite Hget. cbn [Py.bind]. rewrite Ht. cbn [Py.bind].
    destruct (pg_current_url pg); [|reflexivity]. cbn [Py.bind].
    rewrite Herr. reflexivity.
Qed.

End ErrorPages.

(** The theorem at work: a page titled [Error 503] with a product box. *)
Lemma error_page_witness :
  @Noon.search_item ascii_only error_scraper (mouse_under 500) = Ok [].
Proof.
  apply (proj1 (@error_page_gives_no_product ascii_only)
           error_scraper (mouse_under 500) (driver_showing error_page) error_page
           (u "Error 503")).
  - reflexivity.
  - intros url. reflexivity.
  - reflexivity.
  - vm_compute. reflexivity.
Defined.

Section Candidates.
Context {R : Runtime}.

Lemma noon_collect_products_text elements :
  forall found,
    Forall (readable_text 30 1000) found ->
    Forall (readable_text 30 1000) (fst (Noon.collect_products elements found)).
Proof.
  induction elements as [|element rest IH]; intros found Hf;
    cbn [Noon.collect_products]; [exact Hf|].
  destruct (el_text element) as [t|e] eqn:Et; [|exact Hf].
  match goal with |- context [if ?c then _ else _] => destruct c eqn:Ec end.
  - apply IH, Forall_app; split; [exact Hf|].
    constructor; [|constructor]. exists t. split; [exact Et|].
    apply andb_true_iff in Ec as [Ec _]. zbool. lia.
  - apply IH, Hf.
Qed.

Lemma noon_strategy_1_text pg selectors :
  forall found,
    Forall (readable_text 30 1000) found ->
    Forall (readable_text 30 1000) (Noon.strategy_1 pg selectors found).
Proof.
  induction selectors as [|selector rest IH]; intros found Hf; simpl; [exact Hf|].
  destruct (pg_find_css pg selector) as [elements|e]; [|apply IH, Hf].
  pose proof (noon_collect_products_text elements found Hf) as Hc.
  destruct (Noon.collect_products elements found) as [found' [e|]]; simpl in Hc.
  - apply IH, Hc.
  - destruct (list_bool found'); [exact Hc|apply IH, Hc].
Qed.

Lemma noon_strategy_2_text item divs :
  forall found,
    Forall (readable_text 30 1000) found ->
    Forall (readable_text 30 1000) (Noon.strategy_2 item divs found).
Proof.
  induction divs as [|div rest IH]; intros found Hf;
    cbn [Noon.strategy_2 Amazon.strategy_2 Namshi.strategy_2]; [exact Hf|].
  destruct (el_text div) as [t|e] eqn:Et; [|apply IH, Hf].
  match goal with |- context [if ?c then _ else _] => destruct c eqn:Ec end;
    [|apply IH, Hf].
  assert (Hf' : Forall (readable_text 30 1000) (found ++ [div])).
  { apply Forall_app; split; [exact Hf|]. constructor; [|constructor].
    exists t. split; [exact Et|].
    zbool; lia. }
  destruct (5 <=? len (found ++ [div])); [exact Hf'|apply IH, Hf'].
Qed.

Lemma amazon_valid_elements_text item elements :
  Forall (substantial_text 30) (Amazon.valid_elements item elements).
Proof.
  induction elements as [|element rest IH]; cbn [Amazon.valid_elements]; [constructor|].
  destruct (el_text element) as [t|e] eqn:Et; [|exact IH].
  match goal with |- context [if ?c then _ else _] => destruct c eqn:Ec end;
    [|exact IH].
  constructor; [|exact IH]. exists t. split; [exact Et|].
  apply andb_true_iff in Ec as [Ec _]. zbool. lia.
Qed.

Lemma amazon_strategy_1_text pg item selectors :
  Forall (substantial_text 30) (Amazon.strategy_1 pg item selectors).
Proof.
  induction selectors as [|selector rest IH]; simpl; [constructor|].
  destruct (pg_find_css pg selector) as [elements|e]; [|exact IH].
  destruct (list_bool elements); [|exact IH].
  destruct (list_bool _); [apply amazon_valid_elements_text|exact IH].
Qed.

Lemma amazon_strategy_2_text item divs :
  forall found,
    Forall (substantial_text 30) found ->
    Forall (substantial_text 30) (Amazon.strategy_2 item divs found).
Proof.
  induction divs as [|div rest IH]; intros found Hf;
    cbn [Noon.strategy_2 Amazon.strategy_2 Namshi.strategy_2]; [exact Hf|].
  destruct (el_text div) as [t|e] eqn:Et; [|apply IH, Hf].
  match goal with |- context [if ?c then _ else _] => destruct c eqn:Ec end;
    [|apply IH, Hf].
  assert (Hf' : Forall (substantial_text 30) (found ++ [div])).
  { apply Forall_app; split; [exact Hf|]. constructor; [|constructor].
    exists t. split; [exact Et|].
    zbool; lia. }
  destruct (10 <=? len (found ++ [div])); [exact Hf'|apply IH, Hf'].
Qed.

Lemma namshi_strategy_2_text item divs :
  forall found,
    Forall (readable_text 50 800) found ->
    Forall (readable_text 50 800) (Namshi.strategy_2 item divs found).
Proof.
  induction divs as [|div rest IH]; intros found Hf;
    cbn [Noon.strategy_2 Amazon.strategy_2 Namshi.strategy_2]; [exact Hf|].
  destruct (el_text div) as [t|e] eqn:Et; [|apply IH, Hf].
  match goal with |- context [if ?c then _ else _] => destruct c eqn:Ec end;
    [|apply IH, Hf].
  assert (Hf' : Forall (readable_text 50 800) (found ++ [div])).
  { apply Forall_app; split; [exact Hf|]. constructor; [|constructor].
    exists t. split; [exact Et|].
    zbool; lia. }
  destruct (10 <=? len (found ++ [div])); [exact Hf'|apply IH, Hf'].
Qed.

(** X2.  Every element the search takes for a product has a text that can
    be read: of more than 30 and fewer than 1000 characters on noon.com, of
    more than 30 on amazon.ae, and, on namshi.com when no selector found a
    product, of more than 50 and fewer than 800. *)
Theorem candidates_have_text :
  (forall pg item found,
      Noon.potential_products pg item = Ok found ->
      Forall (readable_text 30 1000) found)
  /\ (forall pg item found,
      Amazon.potential_products pg item = Ok found ->
      Forall (substantial_text 30) found)
  /\ (forall pg item found,
      Namshi.strategy_1 pg Namshi.product_selectors = [] ->
      Namshi.potential_products pg item = Ok found ->
      Forall (readable_text 50 800) found).
Proof.
  split; [|split].
  - intros pg item found. unfold Noon.potential_products.
    pose proof (noon_strategy_1_text pg Noon.class_selectors [] (Forall_nil _)) as H1.
    destruct (negb (list_bool _)).
    + destruct (pg_find_tag pg _) as [divs|e]; [|discriminate]. simpl.
      intros [= <-]. apply noon_strategy_2_text, H1.
    + intros [= <-]. exact H1.
  - intros pg item found. unfold Amazon.potential_products.
    pose proof (amazon_strategy_1_text pg item Amazon.product_selectors) as H1.
    destruct (negb (list_bool _)).
    + destruct (pg_find_tag pg _) as [divs|e]; [|discriminate]. simpl.
      intros [= <-]. apply amazon_strategy_2_text, H1.
    + intros [= <-]. exact H1.
  - intros pg item found Hs. unfold Namshi.potential_products. rewrite Hs. simpl.
    destruct (pg_find_tag pg _) as [divs|e]; [|discriminate]. simpl.
    intros [= <-]. apply namshi_strategy_2_text. constructor.
Qed.

End Candidates.

(** The theorem at work: the two boxes of the mouse page. *)
Lemma candidates_have_text_witness :
  exists found,
    @Noon.potential_products ascii_only mouse_page (u "mouse") = Ok found
    /\ len found = 2
    /\ Forall (@readable_text ascii_only 30 1000) found.
Proof.
  eexists. split; [vm_compute; reflexivity|]. split; [reflexivity|].
  apply (proj1 (@candidates_have_text ascii_only) mouse_page (u "mouse")).
  vm_compute; reflexivity.
Defined.

Section PricedBuilders.
Context {R : Runtime}.

Lemma amazon_price_from_selectors_priced element selectors :
  forall price pv,
    priced Amazon.price_not_available price pv ->
    priced Amazon.price_not_available
      (fst (Amazon.price_from_selectors element selectors price pv))
      (snd (Amazon.price_from_selectors element selectors price pv)).
Proof.
  induction selectors as [|selector rest IH]; intros price pv H;
    cbn [Amazon.price_from_selectors]; [exact H|].
  match goal with |- context [match ?b with Ok _ => _ | Raise _ => _ end] =>
    destruct b as [whole|] end; [|apply IH, H].
  match goal with |- context [if ?c then _ else _] => destruct c end; [|apply IH, H].
  destruct (float_of_str _) as [v|].
  - right. reflexivity.
  - apply IH. right. reflexivity.
Qed.

Lemma amazon_price_from_offscreen_priced elements :
  forall price pv,
    priced Amazon.price_not_available price pv ->
    priced Amazon.price_not_available
      (fst (Amazon.price_from_offscreen elements price pv))
      (snd (Amazon.price_from_offscreen elements price pv)).
Proof.
  induction elements as [|offscreen rest IH]; intros price pv H;
    cbn [Amazon.price_from_offscreen]; [exact H|].
  destruct (el_text offscreen) as [t|]; [|exact H].
  destruct (contains _ _); [|apply IH, H].
  destruct (Re.search _ _ _) as [m|]; [|apply IH, H].
  destruct (float_of_str _); right; reflexivity.
Qed.

Lemma priced_facts na price pv :
  startswith (u "AED ") na = false ->
  priced na price pv ->
  (price = na -> pv = None)
  /\ (forall v, pv = Some v -> startswith (u "AED ") price = true).
Proof.
  intros Hna [[-> ->]|H]; split; try discriminate; auto.
  intros ->. congruence.
Qed.

Lemma amazon_record_facts element term r :
  Amazon.extract_amazon_product_info element term = Ok (Some r) ->
  len (Amazon.title r) <= 153
  /\ (forall v, Amazon.image_url r = Some v ->
        startswith (u "http") v = true /\ contains (u "transparent") v = false)
  /\ (forall t, Amazon.rating r = Some t ->
        exists x, t = float_repr x
                  /\ float_le (float_of_int 0) x = true
                  /\ float_le x (float_of_int 5) = true)
  /\ startswith (u "http") (Amazon.url r) = true
  /\ priced Amazon.price_not_available (Amazon.price r) (Amazon.price_value r)
  /\ exists t, el_text element = Ok t /\ 20 <= len (strip t).
Proof.
  unfold Amazon.extract_amazon_product_info, try_except.
  match goal with |- match ?b with _ => _ end = _ -> _ => destruct b as [o|e] eqn:E end;
    [|simpl; discriminate].
  intros [= ->].
  open_record E. name_record E r.
  cbn [Amazon.title Amazon.image_url Amazon.rating Amazon.url Amazon.price
       Amazon.price_value].
  split; [|split; [|split; [|split; [|split]]]].
  - apply (len_truncated 150).
  - intros v H. apply first_hit_some in H as (sel & _ & H).
    destruct (el_find_element element sel) as [img|]; [|discriminate]. cbn [Py.bind] in H.
    destruct (el_get_attribute img (u "src")) as [a1|]; [|discriminate]. cbn [Py.bind] in H.
    match type of H with Py.bind ?b _ = _ => destruct b as [[w|]|] end;
      try discriminate. cbn [Py.bind] in H.
    destruct (_ && _) eqn:C'; [|discriminate]. injection H as <-. zbool; auto.
  - intros t H. apply first_hit_some in H as (sel & _ & H).
    destruct (el_find_element element sel) as [re|]; [|discriminate]. cbn [Py.bind] in H.
    destruct (el_text re) as [rt|]; [|discriminate]. cbn [Py.bind] in H.
    match type of H with Py.bind ?b _ = _ => destruct b as [rating_text|] end;
      [|discriminate]. cbn [Py.bind] in H.
    destruct (Re.search false Amazon.rating_number rating_text) as [m|]; [|discriminate].
    destruct (float_of_str (the_group m)) as [x|]; [|discriminate]. cbn [Py.bind] in H.
    destruct (_ && _) eqn:C'; [|discriminate]. injection H as <-.
    exists x. zbool; auto.
  - destruct (first_hit _ _) as [x|] eqn:F; [|reflexivity].
    apply first_hit_some in F as (sel & _ & F). cbn [or_default].
    destruct (el_find_element element sel) as [le|]; [|discriminate]. cbn [Py.bind] in F.
    destruct (el_get_attribute le _) as [[h|]|]; try discriminate. cbn [Py.bind] in F.
    destruct (_ && _); [|discriminate].
    destruct (startswith (u "/") h); [injection F as <-; reflexivity|].
    destruct (startswith (u "http") h) eqn:Eh; injection F as <-; [exact Eh|reflexivity].
  - pose proof (amazon_price_from_selectors_priced element Amazon.price_selectors
                  Amazon.price_not_available None (or_introl (conj eq_refl eq_refl))) as H1.
    rewrite P in H1. cbn [fst snd] in H1.
    destruct (str_eqb s Amazon.price_not_available).
    + destruct (el_find_elements element _) as [offs|].
      * pose proof (amazon_price_from_offscreen_priced offs s o H1) as H2.
        rewrite P0 in H2. exact H2.
      * injection P0 as <- <-. exact H1.
    + injection P0 as <- <-. exact H1.
  - exists a. split; [reflexivity|]. zbool. lia.
Qed.

(** ** namshi *)

Lemma namshi_price_from_selectors_priced element selectors :
  forall price pv,
    priced Namshi.price_not_available price pv ->
    priced Namshi.price_not_available
      (fst (Namshi.price_from_selectors element selectors price pv))
      (snd (Namshi.price_from_selectors element selectors price pv)).
Proof.
  induction selectors as [|selector rest IH]; intros price pv H;
    cbn [Namshi.price_from_selectors]; [exact H|].
  match goal with |- context [match ?b with Ok _ => _ | Raise _ => _ end] =>
    destruct b as [price_text|] end; [|apply IH, H].
  match goal with |- context [if ?c then _ else _] => destruct c end; [|apply IH, H].
  destruct (float_of_str _) as [v|].
  - right. reflexivity.
  - apply IH. right. reflexivity.
Qed.

Lemma namshi_price_from_patterns_aed patterns full_text p v :
  Namshi.price_from_patterns patterns full_text = Ok (Some (p, v)) ->
  startswith (u "AED ") p = true.
Proof.
  induction patterns as [|pattern rest IH]; cbn [Namshi.price_from_patterns];
    [discriminate|].
  destruct (Re.search true pattern full_text) as [m|]; [|exact IH].
  destruct (isdigit _); [|exact IH].
  destruct (float_of_str (the_group m)) as [x|]; [|discriminate]. cbn [Py.bind].
  destruct (float_lt _ x); [|exact IH].
  intros [= <- _]. reflexivity.
Qed.

Lemma namshi_price_from_numbers_range numbers p v :
  Namshi.price_from_numbers numbers = Ok (Some (p, v)) ->
  exists num n,
    In num numbers /\ p = u "AED " ++ num
    /\ int_of_str num = Ok n /\ 50 <= n <= 5000
    /\ float_of_str num = Ok v.
Proof.
  induction numbers as [|num rest IH]; cbn [Namshi.price_from_numbers]; [discriminate|].
  destruct (int_of_str num) as [n|] eqn:En; [|discriminate]. cbn [Py.bind].
  destruct ((50 <=? n) && (n <=? 5000)) eqn:C.
  - destruct (float_of_str num) as [x|] eqn:Ex; [|discriminate]. cbn [Py.bind].
    intros [= <- <-]. exists num, n. zbool. repeat split; auto. left; reflexivity.
  - intros H. destruct (IH H) as (num' & n' & Hin & Hrest).
    exists num', n'. split; [right; exact Hin|exact Hrest].
Qed.

Lemma namshi_price_from_lines_range lines p v :
  Namshi.price_from_lines lines = Ok (Some (p, v)) ->
  exists line num n,
    In line lines /\ In num (Re.findall false Namshi.standalone_number line)
    /\ p = u "AED " ++ num
    /\ int_of_str num = Ok n /\ 50 <= n <= 5000
    /\ float_of_str num = Ok v.
Proof.
  induction lines as [|line rest IH]; cbn [Namshi.price_from_lines]; [discriminate|].
  destruct (Namshi.price_from_numbers _) as [[[p' v']|]|] eqn:E; try discriminate;
    cbn [Py.bind].
  - intros [= <- <-]. apply namshi_price_from_numbers_range in E
      as (num & n & Hin & Hrest).
    exists line, num, n. split; [left; reflexivity|]. split; [exact Hin|exact Hrest].
  - intros H. destruct (IH H) as (line' & num & n & Hin & Hrest).
    exists line', num, n. split; [right; exact Hin|exact Hrest].
Qed.

Lemma startswith_app p s t : startswith p s = true -> startswith p (s ++ t) = true.
Proof.
  revert s. induction p as [|a p IH]; intros [|b s]; simpl; try discriminate; auto.
  intros H. apply andb_true_iff in H as [-> H]. simpl. apply IH, H.
Qed.

Lemma namshi_record_facts element term r :
  Namshi.extract_namshi_product_info element term = Ok (Some r) ->
  len (Namshi.title r) <= 103
  /\ (forall v, Namshi.image_url r = Some v ->
        startswith (u "http") v = true /\ contains (u "placeholder") v = false)
  /\ Namshi.rating r = None
  /\ startswith (u "http") (Namshi.url r) = true
  /\ (forall v, Namshi.price_value r = Some v ->
        startswith (u "AED ") (Namshi.price r) = true)
  /\ (startswith Namshi.price_not_available (Namshi.price r) = true ->
        Namshi.price_value r = None)
  /\ (forall d, Namshi.delivery_info r = Some d -> 0 < len d < 50)
  /\ exists t, el_text element = Ok t /\ 10 <= len (strip t).
Proof.
  unfold Namshi.extract_namshi_product_info, try_except.
  match goal with |- match ?b with _ => _ end = _ -> _ => destruct b as [o|e] eqn:E end;
    [|simpl; discriminate].
  intros [= ->].
  open_record E. name_record E r.
  cbn [Namshi.title Namshi.image_url Namshi.rating Namshi.url Namshi.price
       Namshi.price_value Namshi.delivery_info].
  assert (Hp : priced Namshi.price_not_available s0 o0).
  { pose proof (namshi_price_from_selectors_priced element Namshi.price_selectors
                  Namshi.price_not_available None (or_introl (conj eq_refl eq_refl))) as H1.
    rewrite P in H1. cbn [fst snd] in H1. subst a0.
    destruct (str_eqb s Namshi.price_not_available).
    - destruct (Namshi.price_from_patterns _ _) as [[[p v]|]|] eqn:Ep; try discriminate;
        cbn [Py.bind] in E1.
      + injection E1 as <- <-. right.
        eapply namshi_price_from_patterns_aed; exact Ep.
      + destruct (Namshi.price_from_lines _) as [[[p v]|]|] eqn:El; try discriminate;
          cbn [Py.bind] in E1; injection E1 as <- <-; [|exact H1].
        apply namshi_price_from_lines_range in El as (? & ? & ? & _ & _ & -> & _).
        right. reflexivity.
    - injection E1 as <- <-. exact H1. }
  split; [|split; [|split; [|split; [|split; [|split; [|split]]]]]].
  - apply (len_truncated 100).
  - intros v H. apply first_hit_some in H as (sel & _ & H).
    destruct (el_find_element element sel) as [img|]; [|discriminate]. cbn [Py.bind] in H.
    destruct (el_get_attribute img _) as [[w|]|]; try discriminate. cbn [Py.bind] in H.
    destruct (_ && _) eqn:C'; [|discriminate]. injection H as <-. zbool; auto.
  - reflexivity.
  - destruct (first_hit _ _) as [x|] eqn:F; [|reflexivity].
    apply first_hit_some in F as (sel & _ & F). cbn [or_default].
    destruct (el_find_element element sel) as [le|]; [|discriminate]. cbn [Py.bind] in F.
    destruct (el_get_attribute le _) as [[h|]|]; try discriminate. cbn [Py.bind] in F.
    destruct (_ && _); [|discriminate].
    destruct (startswith (u "/") h); [injection F as <-; reflexivity|].
    destruct (startswith (u "http") h) eqn:Eh; injection F as <-; [exact Eh|reflexivity].
  - intros v ->. destruct Hp as [[_ [=]]|Hp].
    destruct (Namshi.old_price_from_selectors element);
      destruct (opt_str_bool _); try exact Hp; apply startswith_app, Hp.
  - intros H. destruct Hp as [[_ ->]|Hp]; [reflexivity|exfalso].
    destruct s0 as [|c0 s0]; [discriminate Hp|].
    cbn [startswith] in Hp. apply andb_true_iff in Hp as [Hc _].
    apply Z.eqb_eq in Hc. subst c0.
    destruct (Namshi.old_price_from_selectors element);
      destruct (opt_str_bool _); discriminate H.
  - intros d H. apply first_hit_some in H as (sel & _ & H).
    destruct (el_find_element element sel) as [de|]; [|discriminate]. cbn [Py.bind] in H.
    destruct (el_text de) as [dt|]; [|discriminate]. cbn [Py.bind] in H.
    destruct (_ && _) eqn:C'; [|discriminate]. injection H as <-. zbool.
    split; [|assumption]. destruct (strip dt); [discriminate|].
    unfold len. simpl. lia.
  - exists a. split; [reflexivity|]. zbool. lia.
Qed.

(** ** noon: the last resort *)

Lemma noon_price_from_numbers_range numbers p :
  Noon.price_from_numbers numbers = Ok (Some p) ->
  exists num n,
    In num numbers /\ p = u "AED " ++ num
    /\ int_of_str (replace (u ",") [] num) = Ok n /\ 100 <= n <= 50000.
Proof.
  induction numbers as [|num rest IH]; cbn [Noon.price_from_numbers]; [discriminate|].
  destruct (isdigit _); [|exact (fun H => match IH H with
                                         | ex_intro _ x (ex_intro _ n (conj Hin Hr)) =>
                                           ex_intro _ x (ex_intro _ n (conj (or_intror Hin) Hr))
                                         end)].
  destruct (int_of_str _) as [n|] eqn:En; [|discriminate]. cbn [Py.bind].
  destruct ((100 <=? n) && (n <=? 50000)) eqn:C.
  - intros [= <-]. exists num, n. zbool. repeat split; auto. left; reflexivity.
  - intros H. destruct (IH H) as (num' & n' & Hin & Hrest).
    exists num', n'. split; [right; exact Hin|exact Hrest].
Qed.

Lemma noon_price_from_lines_range lines p :
  Noon.price_from_lines lines = Ok (Some p) ->
  exists line num n,
    In line lines /\ In num (Re.findall false Noon.any_number line)
    /\ p = u "AED " ++ num
    /\ int_of_str (replace (u ",") [] num) = Ok n /\ 100 <= n <= 50000.
Proof.
  induction lines as [|line rest IH]; cbn [Noon.price_from_lines]; [discriminate|].
  destruct (Noon.price_from_numbers _) as [[p'|]|] eqn:E; try discriminate;
    cbn [Py.bind].
  - intros [= <-]. apply noon_price_from_numbers_range in E
      as (num & n & Hin & Hrest).
    exists line, num, n. split; [left; reflexivity|]. split; [exact Hin|exact Hrest].
  - intros H. destruct (IH H) as (line' & num & n & Hin & Hrest).
    exists line', num, n. split; [right; exact Hin|exact Hrest].
Qed.

End PricedBuilders.



Section FilterLaw.
Context {ProductInfo : Type}.
Variable price_value : ProductInfo -> option float.
Variable extract : Dom.element -> str -> result (option ProductInfo).

Lemma filter_products_built item mp elements :
  forall products,
    filter_products price_value extract item mp elements products
    = products ++ List.filter (fun p => passes_filter mp (price_value p))
                              (built extract item elements).
Proof.
  induction elements as [|element rest IH]; intros products.
  - cbn. rewrite app_nil_r; reflexivity.
  - change (built extract item (element :: rest))
      with ((match extract element item with
             | Ok (Some p) => [p]
             | _ => []
             end) ++ built extract item rest).
    cbn [filter_products].
    destruct (extract element item) as [[p|]|e]; cbn [app]; try apply IH.
    rewrite !IH. cbn [List.filter].
    generalize (List.filter (fun p => passes_filter mp (price_value p))
                            (built extract item rest)); intros kept.
    destruct mp as [m|]; destruct (price_value p) as [v|];
      cbn [passes_filter opt_float_bool andb];
      rewrite ?andb_false_r; rewrite <- ?app_assoc; try reflexivity.
    destruct (float_bool m && float_bool v); cbn [negb orb];
      [|rewrite <- ?app_assoc; reflexivity].
    destruct (float_le v m); rewrite <- ?app_assoc; reflexivity.
Qed.

End FilterLaw.

Section SearchLaw.
Context {R : Runtime}.

(** X3.  When the browser shows a page that passes the checks of
    [search_item], what [search_item] returns is the records built from
    the first 5 (noon.com) or 10 (namshi.com, amazon.ae) of the elements
    located on that page, in their order, without those whose price is
    above a ceiling that is set: nothing is added, reordered or changed,
    and an element for which the builder raised or returned [None] is
    skipped.  And a result that is not empty always comes about so. *)
Theorem search_item_is_a_filter :
  (forall self item pg found,
      noon_searched self (Noon.name item) pg ->
      Noon.potential_products pg (Noon.name item) = Ok found ->
      Noon.search_item self item
      = Ok (List.filter (fun p => passes_filter (Noon.max_price item) (Noon.price_value p))
              (built Noon.extract_simple_product_info (Noon.name item)
                     (slice_to 5 found))))
  /\ (forall self item rs,
      Noon.search_item self item = Ok rs -> rs <> [] ->
      exists pg found,
        noon_searched self (Noon.name item) pg
        /\ Noon.potential_products pg (Noon.name item) = Ok found
        /\ rs = List.filter
                  (fun p => passes_filter (Noon.max_price item) (Noon.price_value p))
                  (built Noon.extract_simple_product_info (Noon.name item)
                         (slice_to 5 found)))
  /\ (forall self item pg found,
      namshi_searched self (Namshi.name item) pg ->
      Namshi.potential_products pg (Namshi.name item) = Ok found ->
      Namshi.search_item self item
      = Ok (List.filter
              (fun p => passes_filter (Namshi.max_price item) (Namshi.price_value p))
              (built Namshi.extract_namshi_product_info (Namshi.name item)
                     (slice_to 10 found))))
  /\ (forall self item rs,
      Namshi.search_item self item = Ok rs -> rs <> [] ->
      exists pg found,
        namshi_searched self (Namshi.name item) pg
        /\ Namshi.potential_products pg (Namshi.name item) = Ok found
        /\ rs = List.filter
                  (fun p => passes_filter (Namshi.max_price item) (Namshi.price_value p))
                  (built Namshi.extract_namshi_product_info (Namshi.name item)
                         (slice_to 10 found)))
  /\ (forall self item pg found,
      amazon_searched self (Amazon.name item) pg ->
      Amazon.potential_products pg (Amazon.name item) = Ok found ->
      Amazon.search_item self item
      = Ok (List.filter
              (fun p => passes_filter (Amazon.max_price item) (Amazon.price_value p))
              (built Amazon.extract_amazon_product_info (Amazon.name item)
                     (slice_to 10 found))))
  /\ (forall self item rs,
      Amazon.search_item self item = Ok rs -> rs <> [] ->
      exists pg found,
        amazon_searched self (Amazon.name item) pg
        /\ Amazon.potential_products pg (Amazon.name item) = Ok found
        /\ rs = List.filter
                  (fun p => passes_filter (Amazon.max_price item) (Amazon.price_value p))
                  (built Amazon.extract_amazon_product_info (Amazon.name item)
                         (slice_to 10 found))).
Proof.
  split; [|split; [|split; [|split; [|split]]]].
  - intros self item pg found
      (q & d & t & cu & src & Hq & Hd & Hget & Ht & Hcu & Herr & Hsrc & Hlen) Hfound.
    unfold Noon.search_item, Noon.search_item_body, try_except.
    rewrite Hq. cbn [Py.bind]. rewrite Hd. cbn [Py.bind]. rewrite Hget. cbn [Py.bind].
    rewrite Ht. cbn [Py.bind]. rewrite Hcu. cbn [Py.bind]. rewrite Herr.
    rewrite Hsrc. cbn [Py.bind]. rewrite Hlen. rewrite Hfound. cbn [Py.bind].
    f_equal. apply (filter_products_built _ _ _ _ _ []).
  - intros self item rs H Hne. unfold Noon.search_item, try_except in H.
    destruct (Noon.search_item_body self item) as [l|e] eqn:E;
      [|injection H as <-; contradiction].
    injection H as <-. unfold Noon.search_item_body in E.
    destruct (quote_plus _) as [q|] eqn:Hq; [|discriminate]. cbn [Py.bind] in E.
    destruct (Noon.driver self) as [d|] eqn:Hd; [|discriminate]. cbn [Py.bind] in E.
    destruct (wd_get d _) as [pg|] eqn:Hget; [|discriminate]. cbn [Py.bind] in E.
    destruct (pg_title pg) as [t|] eqn:Ht; [|discriminate]. cbn [Py.bind] in E.
    destruct (pg_current_url pg) as [cu|] eqn:Hcu; [|discriminate]. cbn [Py.bind] in E.
    destruct (_ || _) eqn:Herr; [injection E as <-; contradiction|].
    destruct (pg_page_source pg) as [src|] eqn:Hsrc; [|discriminate]. cbn [Py.bind] in E.
    destruct (len src <? 1000) eqn:Hlen; [injection E as <-; contradiction|].
    destruct (Noon.potential_products pg _) as [found|] eqn:Hfound; [|discriminate].
    cbn [Py.bind] in E. injection E as <-.
    exists pg, found. split; [|split; [exact Hfound|]].
    + exists q, d, t, cu, src. repeat split; assumption.
    + apply (filter_products_built _ _ _ _ _ []).
  - intros self item pg found
      (q & d & t & cu & Hq & Hd & Hget & Ht & Hcu & Herr) Hfound.
    unfold Namshi.search_item, Namshi.search_item_body, try_except.
    rewrite Hq. cbn [Py.bind]. rewrite Hd. cbn [Py.bind]. rewrite Hget. cbn [Py.bind].
    rewrite Ht. cbn [Py.bind]. rewrite Hcu. cbn [Py.bind]. rewrite Herr.
    rewrite Hfound. cbn [Py.bind].
    f_equal. apply (filter_products_built _ _ _ _ _ []).
  - intros self item rs H Hne. unfold Namshi.search_item, try_except in H.
    destruct (Namshi.search_item_body self item) as [l|e] eqn:E;
      [|injection H as <-; contradiction].
    injection H as <-. unfold Namshi.search_item_body in E.
    destruct (quote_plus _) as [q|] eqn:Hq; [|discriminate]. cbn [Py.bind] in E.
    destruct (Namshi.driver self) as [d|] eqn:Hd; [|discriminate]. cbn [Py.bind] in E.
    destruct (wd_get d _) as [pg|] eqn:Hget; [|discriminate]. cbn [Py.bind] in E.
    destruct (pg_title pg) as [t|] eqn:Ht; [|discriminate]. cbn [Py.bind] in E.
    destruct (pg_current_url pg) as [cu|] eqn:Hcu; [|discriminate]. cbn [Py.bind] in E.
    destruct (_ || _) eqn:Herr; [injection E as <-; contradiction|].
    destruct (Namshi.potential_products pg _) as [found|] eqn:Hfound; [|discriminate].
    cbn [Py.bind] in E. injection E as <-.
    exists pg, found. split; [|split; [exact Hfound|]].
    + exists q, d, t, cu. repeat split; assumption.
    + apply (filter_products_built _ _ _ _ _ []).
  - intros self item pg found
      (q & d & t & cu & Hq & Hd & Hget & Ht & Hcu & Herr) Hfound.
    unfold Amazon.search_item, Amazon.search_item_body, try_except.
    rewrite Hq. cbn [Py.bind]. rewrite Hd. cbn [Py.bind]. rewrite Hget. cbn [Py.bind].
    rewrite Ht. cbn [Py.bind]. rewrite Hcu. cbn [Py.bind]. rewrite Herr.
    rewrite Hfound. cbn [Py.bind].
    f_equal. apply (filter_products_built _ _ _ _ _ []).
  - intros self item rs H Hne. unfold Amazon.search_item, try_except in H.
    destruct (Amazon.search_item_body self item) as [l|e] eqn:E;
      [|injection H as <-; contradiction].
    injection H as <-. unfold Amazon.search_item_body in E.
    destruct (quote_plus _) as [q|] eqn:Hq; [|discriminate]. cbn [Py.bind] in E.
    destruct (Amazon.driver self) as [d|] eqn:Hd; [|discriminate]. cbn [Py.bind] in E.
    destruct (wd_get d _) as [pg|] eqn:Hget; [|discriminate]. cbn [Py.bind] in E.
    destruct (pg_title pg) as [t|] eqn:Ht; [|discriminate]. cbn [Py.bind] in E.
    destruct (pg_current_url pg) as [cu|] eqn:Hcu; [|discriminate]. cbn [Py.bind] in E.
    destruct (_ || _) eqn:Herr; [injection E as <-; contradiction|].
    destruct (Amazon.potential_products pg _) as [found|] eqn:Hfound; [|discriminate].
    cbn [Py.bind] in E. injection E as <-.
    exists pg, found. split; [|split; [exact Hfound|]].
    + exists q, d, t, cu. repeat split; assumption.
    + apply (filter_products_built _ _ _ _ _ []).
Qed.

End SearchLaw.

(** The theorem at work: of the two mice located on the page, the one at
    AED 100 is returned under a ceiling of AED 500. *)
Lemma search_item_is_a_filter_witness :
  exists found,
    @Noon.potential_products ascii_only mouse_page (u "mouse") = Ok found
    /\ len found = 2
    /\ @Noon.search_item ascii_only mouse_scraper (mouse_under 500)
       = Ok (List.filter
               (fun p => passes_filter (Noon.max_price (mouse_under 500))
                                       (Noon.price_value p))
               (built (@Noon.extract_simple_product_info ascii_only)
                      (Noon.name (mouse_under 500)) (slice_to 5 found)))
    /\ (exists rs, @Noon.search_item ascii_only mouse_scraper (mouse_under 500) = Ok rs
                   /\ len rs = 1).
Proof.
  eexists. split; [vm_compute; reflexivity|]. split; [reflexivity|]. split.
  - apply (proj1 (@search_item_is_a_filter ascii_only) mouse_scraper (mouse_under 500)
             mouse_page).
    + exists (u "mouse"), (driver_showing mouse_page), (u "noon"),
        (u "https://example.test/"), (List.repeat 32 2000).
      repeat split; vm_compute; reflexivity.
    + vm_compute; reflexivity.
  - eexists. split; vm_compute; reflexivity.
Defined.

Section ItemsCount.
Context {R : Runtime}.

Lemma parse_line_length items line ys :
  Noon.parse_line items line = Ok ys ->
  List.length ys = (List.length items + if item_line line then 1 else 0)%nat.
Proof.
  unfold Noon.parse_line, item_line.
  destruct (str_bool (strip line)); cbn [negb orb andb];
    [|intros [= <-]; lia].
  destruct (startswith (u "#") (strip line)); cbn [negb];
    [intros [= <-]; lia|].
  destruct (contains (u ",") (strip line));
    [|intros [= <-]; rewrite length_app; reflexivity].
  destruct (List.map strip (split (u ",") (strip line))) as [|item_name [|price_part rest]];
    try (intros [= <-]; rewrite length_app; reflexivity).
  unfold try_except.
  destruct (float_of_str price_part) as [x|e] eqn:E; cbn [Py.bind].
  - intros [= <-]; rewrite length_app; reflexivity.
  - apply float_of_str_raises in E as ->. cbn.
    intros [= <-]; rewrite length_app; reflexivity.
Qed.

Lemma parse_lines_length lines :
  forall items ys,
    Noon.parse_lines lines items = Ok ys ->
    List.length ys = (List.length items + List.length (List.filter item_line lines))%nat.
Proof.
  induction lines as [|line rest IH]; intros items ys; cbn [Noon.parse_lines List.filter].
  - intros [= <-]; simpl; lia.
  - destruct (Noon.parse_line items line) as [zs|] eqn:E; [|discriminate]. cbn [Py.bind].
    intros H. apply IH in H. apply parse_line_length in E. rewrite H, E.
    destruct (item_line line); simpl; lia.
Qed.

(** X4.  Printing taken to succeed, [parse_items_from_file] gives one item
    for each line of the file that is neither blank nor a comment, and no
    other: a line with a price that cannot be read still counts; and a
    file that cannot be opened gives the empty list, the error being
    handled. *)
Theorem parse_items_from_file_count :
  (forall lines file_path,
      exists items,
        Noon.parse_items_from_file (fun _ => Ok lines) file_path = Ok items
        /\ List.length items = List.length (List.filter item_line lines))
  /\ (forall fs file_path e,
      fs file_path = Raise e ->
      Noon.parse_items_from_file fs file_path = Ok []).
Proof.
  split.
  - intros lines file_path. rewrite parse_items_from_lines.
    destruct (parse_lines_appends lines) as [ys Hys].
    exists ([] ++ ys). split; [apply Hys|].
    apply (parse_lines_length lines [] _ (Hys [])).
  - intros fs file_path e H. unfold Noon.parse_items_from_file, try_except.
    rewrite H. cbn [Py.bind]. destruct (one_of _ e); reflexivity.
Qed.

End ItemsCount.

(** The theorem at work: a file of four lines with two items, and a file
    that is not there. *)
Lemma parse_items_from_file_count_witness :
  (exists items,
      @Noon.parse_items_from_file ascii_only (fun _ => Ok items_file) (u "items.txt")
      = Ok items
      /\ List.length items = 2%nat)
  /\ @Noon.parse_items_from_file ascii_only (fun _ => Raise FileNotFoundError)
       (u "items.txt") = Ok [].
Proof.
  split.
  - destruct (proj1 (@parse_items_from_file_count ascii_only) items_file (u "items.txt"))
      as (items & H & Hlen).
    exists items. split; [exact H|]. rewrite Hlen. vm_compute. reflexivity.
  - apply (proj2 (@parse_items_from_file_count ascii_only)
             (fun _ => Raise FileNotFoundError) (u "items.txt") FileNotFoundError).
    reflexivity.
Defined.

Section DictLaws.
Context {V : Type}.

Lemma str_eqb_refl a : str_eqb a a = true.
Proof. apply str_eqb_eq. reflexivity. Qed.

Lemma str_eqb_neq a b : a <> b -> str_eqb a b = false.
Proof.
  intros H. destruct (str_eqb a b) eqn:E; [|reflexivity].
  apply str_eqb_eq in E. contradiction.
Qed.

Lemma dict_get_set_same k (v : V) d : dict_get k (dict_set k v d) = Some v.
Proof.
  induction d as [|[k0 v0] r IH]; simpl.
  - rewrite str_eqb_refl. reflexivity.
  - destruct (str_eqb k k0) eqn:E; simpl.
    + rewrite str_eqb_refl. reflexivity.
    + rewrite E. exact IH.
Qed.

Lemma dict_get_set_other k k' (v : V) d :
  k <> k' -> dict_get k' (dict_set k v d) = dict_get k' d.
Proof.
  intros Hk. induction d as [|[k0 v0] r IH]; simpl.
  - rewrite str_eqb_neq by congruence. reflexivity.
  - destruct (str_eqb k k0) eqn:E; simpl.
    + apply str_eqb_eq in E. subst k0. rewrite !str_eqb_neq by congruence. reflexivity.
    + rewrite IH. reflexivity.
Qed.

Lemma dict_set_length k (v : V) d :
  (List.length (dict_set k v d) <= S (List.length d))%nat.
Proof.
  induction d as [|[k0 v0] r IH]; simpl; [lia|].
  destruct (str_eqb k k0); simpl; lia.
Qed.

End DictLaws.

Section SearchAll.
Context {R : Runtime}.

(** The loop of [main] from any dictionary on. *)
Lemma noon_search_all_from self items :
  forall all_results,
    exists results,
      fold_left (fun acc item =>
                   all_results <- acc ;;
                   results <- Noon.search_item self item ;;
                   Ok (dict_set (Noon.name item)
                         {| Noon.data_products := results;
                            Noon.data_max_price := Noon.max_price item |}
                         all_results))
                items (Ok all_results) = Ok results
      /\ (List.length results <= List.length all_results + List.length items)%nat
      /\ (forall k, (forall i, In i items -> Noon.name i <> k) ->
            dict_get k results = dict_get k all_results)
      /\ (forall before item after,
            items = before ++ item :: after ->
            (forall i, In i after -> Noon.name i <> Noon.name item) ->
            exists rs,
              Noon.search_item self item = Ok rs
              /\ dict_get (Noon.name item) results
                 = Some {| Noon.data_products := rs;
                           Noon.data_max_price := Noon.max_price item |}).
Proof.
  induction items as [|item rest IH]; intros all_results; cbn [fold_left].
  - exists all_results. split; [reflexivity|]. split; [simpl; lia|].
    split; [reflexivity|]. intros [|? ?] ? ? [=].
  - destruct (noon_search_item_total self item) as [rs Hrs]. rewrite Hrs. cbn [Py.bind].
    destruct (IH (dict_set (Noon.name item)
                    {| Noon.data_products := rs;
                       Noon.data_max_price := Noon.max_price item |} all_results))
      as (results & Hres & Hlen & Hother & Hlast).
    exists results. split; [exact Hres|]. split; [|split].
    + pose proof (dict_set_length (Noon.name item)
                    {| Noon.data_products := rs;
                       Noon.data_max_price := Noon.max_price item |} all_results).
      simpl. lia.
    + intros k Hk. rewrite Hother by (intros i Hi; apply Hk; right; exact Hi).
      apply dict_get_set_other. apply Hk. left; reflexivity.
    + intros [|b before] it after Heq Hafter; injection Heq as -> ->.
      * exists rs. split; [exact Hrs|].
        rewrite Hother by exact Hafter. apply dict_get_set_same.
      * apply (Hlast before it after eq_refl Hafter).
Qed.

(** X5.  Printing taken to succeed, the loop of [main] goes through all
    the items; its dictionary has at most one entry for each item and none
    under a name that was not searched; and the entry under a name holds
    the products and the ceiling of the last item of that name: an earlier
    search of the same name is overwritten. *)
Theorem search_all_keeps_last_search self items :
  exists results,
    Noon.search_all self items = Ok results
    /\ len results <= len items
    /\ (forall before item after,
          items = before ++ item :: after ->
          (forall i, In i after -> Noon.name i <> Noon.name item) ->
          exists rs,
            Noon.search_item self item = Ok rs
            /\ dict_get (Noon.name item) results
               = Some {| Noon.data_products := rs;
                         Noon.data_max_price := Noon.max_price item |})
    /\ (forall k, (forall i, In i items -> Noon.name i <> k) ->
          dict_get k results = None).
Proof.
  destruct (noon_search_all_from self items []) as (results & Hres & Hlen & Hother & Hlast).
  exists results. split; [exact Hres|]. split; [unfold len; simpl in Hlen; lia|].
  split; [exact Hlast|]. intros k Hk. rewrite (Hother k Hk). reflexivity.
Qed.

End SearchAll.

(** The theorem at work: the mouse asked for under AED 500 and then under
    AED 50 leaves one entry, that of the second search. *)
Lemma search_all_keeps_last_search_witness :
  exists results rs,
    @Noon.search_all ascii_only mouse_scraper mouse_twice = Ok results
    /\ len results = 1
    /\ @Noon.search_item ascii_only mouse_scraper (mouse_under 50) = Ok rs
    /\ dict_get (Noon.name (mouse_under 50)) results
       = Some {| Noon.data_products := rs;
                 Noon.data_max_price := Noon.max_price (mouse_under 50) |}.
Proof.
  destruct (@search_all_keeps_last_search ascii_only mouse_scraper mouse_twice)
    as (results & Hres & Hlen & Hlast & _).
  destruct (Hlast [mouse_under 500] (mouse_under 50) [] eq_refl) as (rs & Hrs & Hget).
  { intros i []. }
  exists results, rs. split; [exact Hres|]. split; [|split; [exact Hrs|exact Hget]].
  vm_compute in Hres. injection Hres as <-. reflexivity.
Defined.


(* ===================================================================== *)
(** * What the record builders guarantee                                  *)
(* ===================================================================== *)

Section BuilderInvariants.
Context {R : Runtime}.

Lemma namshi_extract_never_raises element search_term :
  exists o, Namshi.extract_namshi_product_info element search_term = Ok o.
Proof.
  unfold Namshi.extract_namshi_product_info, try_except.
  match goal with |- exists o, match ?b with _ => _ end = _ => destruct b end;
    simpl; eauto.
Qed.

(** X6.  A record is built only from an element whose text can be read
    and has, once stripped, at least 10 characters (noon.com, namshi.com)
    or 20 (amazon.ae); for any other element the builders return [None],
    and they never raise. *)
Theorem records_need_text :
  (forall element term,
      exists o, Noon.extract_simple_product_info element term = Ok o
                /\ (forall r, o = Some r ->
                      exists t, el_text element = Ok t /\ 10 <= len (strip t)))
  /\ (forall element term,
      exists o, Namshi.extract_namshi_product_info element term = Ok o
                /\ (forall r, o = Some r ->
                      exists t, el_text element = Ok t /\ 10 <= len (strip t)))
  /\ (forall element term,
      exists o, Amazon.extract_amazon_product_info element term = Ok o
                /\ (forall r, o = Some r ->
                      exists t, el_text element = Ok t /\ 20 <= len (strip t))).
Proof.
  split; [|split]; intros element term.
  - destruct (noon_extract_never_raises element term) as [o Ho]. exists o.
    split; [exact Ho|]. intros r ->. apply noon_record_facts in Ho. apply Ho.
  - destruct (namshi_extract_never_raises element term) as [o Ho]. exists o.
    split; [exact Ho|]. intros r ->. apply namshi_record_facts in Ho. apply Ho.
  - destruct (amazon_extract_never_raises element term) as [o Ho]. exists o.
    split; [exact Ho|]. intros r ->. apply amazon_record_facts in Ho. apply Ho.
Qed.

(** X7.  The title of a record has at most 103 characters on noon.com and
    namshi.com and at most 153 on amazon.ae: a longer title is cut after
    100 (150) characters and three points are put after it. *)
Theorem record_title_bounded :
  (forall element term r,
      Noon.extract_simple_product_info element term = Ok (Some r) ->
      len (Noon.title r) <= 103)
  /\ (forall element term r,
      Namshi.extract_namshi_product_info element term = Ok (Some r) ->
      len (Namshi.title r) <= 103)
  /\ (forall element term r,
      Amazon.extract_amazon_product_info element term = Ok (Some r) ->
      len (Amazon.title r) <= 153).
Proof.
  split; [|split]; intros element term r H.
  - apply noon_record_facts in H. apply H.
  - apply namshi_record_facts in H. apply H.
  - apply amazon_record_facts in H. apply H.
Qed.

(** X8.  The [url] of a record begins with [http] on namshi.com and
    amazon.ae; on noon.com it does too, unless the element is itself a
    link ([a]) whose [href] holds [/p/], which is then taken as it is. *)
Theorem record_url_absolute :
  (forall element term r,
      Noon.extract_simple_product_info element term = Ok (Some r) ->
      startswith (u "http") (Noon.url r) = true
      \/ (el_tag_name element = Ok (u "a")
          /\ el_get_attribute element (u "href") = Ok (Some (Noon.url r))
          /\ contains (u "/p/") (Noon.url r) = true))
  /\ (forall element term r,
      Namshi.extract_namshi_product_info element term = Ok (Some r) ->
      startswith (u "http") (Namshi.url r) = true)
  /\ (forall element term r,
      Amazon.extract_amazon_product_info element term = Ok (Some r) ->
      startswith (u "http") (Amazon.url r) = true).
Proof.
  split; [|split]; intros element term r H.
  - apply noon_record_facts in H. apply H.
  - apply namshi_record_facts in H. apply H.
  - apply amazon_record_facts in H. apply H.
Qed.

(** X9.  The [image_url] of a record, when there is one, begins with
    [http] and does not hold [placeholder] (noon.com, namshi.com) or
    [transparent] (amazon.ae). *)
Theorem record_image_url_usable :
  (forall element term r v,
      Noon.extract_simple_product_info element term = Ok (Some r) ->
      Noon.image_url r = Some v ->
      startswith (u "http") v = true /\ contains (u "placeholder") v = false)
  /\ (forall element term r v,
      Namshi.extract_namshi_product_info element term = Ok (Some r) ->
      Namshi.image_url r = Some v ->
      startswith (u "http") v = true /\ contains (u "placeholder") v = false)
  /\ (forall element term r v,
      Amazon.extract_amazon_product_info element term = Ok (Some r) ->
      Amazon.image_url r = Some v ->
      startswith (u "http") v = true /\ contains (u "transparent") v = false).
Proof.
  split; [|split]; intros element term r v H Hv.
  - apply noon_record_facts in H. apply H, Hv.
  - apply namshi_record_facts in H. apply H, Hv.
  - apply amazon_record_facts in H. apply H, Hv.
Qed.

(** X10.  The [rating] of a record of noon.com, when there is one, is a
    text that [float()] reads as a number from 0 to 5; that of a record
    of amazon.ae is [str] of such a number; a record of namshi.com has
    none. *)
Theorem record_rating_in_range :
  (forall element term r t,
      Noon.extract_simple_product_info element term = Ok (Some r) ->
      Noon.rating r = Some t ->
      exists x, float_of_str t = Ok x
                /\ float_le (float_of_int 0) x = true
                /\ float_le x (float_of_int 5) = true)
  /\ (forall element term r t,
      Amazon.extract_amazon_product_info element term = Ok (Some r) ->
      Amazon.rating r = Some t ->
      exists x, t = float_repr x
                /\ float_le (float_of_int 0) x = true
                /\ float_le x (float_of_int 5) = true)
  /\ (forall element term r,
      Namshi.extract_namshi_product_info element term = Ok (Some r) ->
      Namshi.rating r = None).
Proof.
  split; [|split].
  - intros element term r t H Ht. apply noon_record_facts in H. apply H, Ht.
  - intros element term r t H Ht. apply amazon_record_facts in H. apply H, Ht.
  - intros element term r H. apply namshi_record_facts in H. apply H.
Qed.

(** X11.  A record whose price display is ["Price not available"] has no
    numeric price, and on namshi.com and amazon.ae a record that has a
    numeric price has a display that begins with ["AED "]. *)
Theorem record_price_display_and_value :
  (forall element term r,
      Noon.extract_simple_product_info element term = Ok (Some r) ->
      Noon.price r = Noon.price_not_available ->
      Noon.price_value r = None)
  /\ (forall element term r,
      Namshi.extract_namshi_product_info element term = Ok (Some r) ->
      (startswith Namshi.price_not_available (Namshi.price r) = true ->
       Namshi.price_value r = None)
      /\ (forall v, Namshi.price_value r = Some v ->
            startswith (u "AED ") (Namshi.price r) = true))
  /\ (forall element term r,
      Amazon.extract_amazon_product_info element term = Ok (Some r) ->
      (Amazon.price r = Amazon.price_not_available -> Amazon.price_value r = None)
      /\ (forall v, Amazon.price_value r = Some v ->
            startswith (u "AED ") (Amazon.price r) = true)).
Proof.
  split; [|split]; intros element term r H.
  - apply noon_record_facts in H. apply H.
  - apply namshi_record_facts in H. split; apply H.
  - apply amazon_record_facts in H.
    apply (priced_facts Amazon.price_not_available); [reflexivity|apply H].
Qed.

(** X12.  The last resort of the price search, a bare number in a line of
    the text, takes a number only from 100 to 50000 on noon.com (commas
    apart) and from 50 to 5000 on namshi.com, where the numeric price is
    [float()] of the number taken. *)
Theorem last_resort_price_range :
  (forall lines p,
      Noon.price_from_lines lines = Ok (Some p) ->
      exists line num n,
        In line lines /\ In num (Re.findall false Noon.any_number line)
        /\ p = u "AED " ++ num
        /\ int_of_str (replace (u ",") [] num) = Ok n /\ 100 <= n <= 50000)
  /\ (forall lines p v,
      Namshi.price_from_lines lines = Ok (Some (p, v)) ->
      exists line num n,
        In line lines /\ In num (Re.findall false Namshi.standalone_number line)
        /\ p = u "AED " ++ num
        /\ int_of_str num = Ok n /\ 50 <= n <= 5000
        /\ float_of_str num = Ok v).
Proof.
  split.
  - apply noon_price_from_lines_range.
  - apply namshi_price_from_lines_range.
Qed.

End BuilderInvariants.

Lemma records_need_text_witness :
  @Noon.extract_simple_product_info ascii_only (leaf "AED 5") (u "mouse") = Ok None.
Proof.
  destruct (proj1 (@records_need_text ascii_only) (leaf "AED 5") (u "mouse"))
    as (o & Ho & Htext).
  rewrite Ho. destruct o as [r|]; [|reflexivity].
  destruct (Htext r eq_refl) as (t & Ht & Hlen).
  injection Ht as <-. vm_compute in Hlen. exfalso. apply Hlen. reflexivity.
Defined.

Lemma record_title_bounded_witness :
  exists r,
    @Noon.extract_simple_product_info ascii_only marked_box (u "mouse") = Ok (Some r)
    /\ Noon.title r = u "Wireless Mouse Logitech"
    /\ len (Noon.title r) <= 103.
Proof.
  eexists. split; [vm_compute; reflexivity|]. split; [reflexivity|].
  apply (proj1 (@record_title_bounded ascii_only) marked_box (u "mouse")).
  vm_compute; reflexivity.
Defined.

Lemma record_url_absolute_witness :
  exists r,
    @Noon.extract_simple_product_info ascii_only marked_box (u "mouse") = Ok (Some r)
    /\ Noon.url r = u "https://www.noon.com/uae-en/p/mouse"
    /\ (startswith (u "http") (Noon.url r) = true
        \/ (el_tag_name marked_box = Ok (u "a")
            /\ el_get_attribute marked_box (u "href") = Ok (Some (Noon.url r))
            /\ contains (u "/p/") (Noon.url r) = true)).
Proof.
  eexists. split; [vm_compute; reflexivity|]. split; [reflexivity|].
  apply (proj1 (@record_url_absolute ascii_only) marked_box (u "mouse")).
  vm_compute; reflexivity.
Defined.

Lemma record_image_url_usable_witness :
  exists r,
    @Noon.extract_simple_product_info ascii_only marked_box (u "mouse") = Ok (Some r)
    /\ Noon.image_url r = Some (u "https://f.nooncdn.com/p/mouse.jpg")
    /\ startswith (u "http") (u "https://f.nooncdn.com/p/mouse.jpg") = true
    /\ contains (u "placeholder") (u "https://f.nooncdn.com/p/mouse.jpg") = false.
Proof.
  eexists. split; [vm_compute; reflexivity|]. split; [reflexivity|].
  eapply (proj1 (@record_image_url_usable ascii_only) marked_box (u "mouse")).
  - vm_compute; reflexivity.
  - reflexivity.
Defined.

Lemma record_rating_in_range_witness :
  exists r x,
    @Noon.extract_simple_product_info ascii_only marked_box (u "mouse") = Ok (Some r)
    /\ Noon.rating r = Some (u "4.5")
    /\ @float_of_str ascii_only (u "4.5") = Ok x
    /\ float_le (float_of_int 0) x = true
    /\ float_le x (float_of_int 5) = true.
Proof.
  destruct (proj1 (@record_rating_in_range ascii_only) marked_box (u "mouse")
              _ (u "4.5") eq_refl eq_refl) as (x & Hx).
  eexists. exists x. split; [vm_compute; reflexivity|]. split; [reflexivity|exact Hx].
Defined.

Lemma record_price_display_and_value_witness :
  exists r,
    @Noon.extract_simple_product_info ascii_only
      (node "div" (u "A box with a name and no price") []) (u "mouse") = Ok (Some r)
    /\ Noon.price r = Noon.price_not_available
    /\ Noon.price_value r = None.
Proof.
  eexists. split; [vm_compute; reflexivity|]. split; [reflexivity|].
  apply (proj1 (@record_price_display_and_value ascii_only)
           (node "div" (u "A box with a name and no price") []) (u "mouse")).
  - vm_compute; reflexivity.
  - reflexivity.
Defined.

Lemma last_resort_price_range_witness :
  exists line num n,
    @Noon.price_from_lines ascii_only (split [10] bare_price_text) = Ok (Some (u "AED 1,250"))
    /\ In line (split [10] bare_price_text)
    /\ In num (@Re.findall ascii_only false Noon.any_number line)
    /\ u "AED 1,250" = u "AED " ++ num
    /\ @int_of_str ascii_only (replace (u ",") [] num) = Ok n /\ 100 <= n <= 50000.
Proof.
  assert (H : @Noon.price_from_lines ascii_only (split [10] bare_price_text)
              = Ok (Some (u "AED 1,250"))) by (vm_compute; reflexivity).
  destruct (proj1 (@last_resort_price_range ascii_only) _ _ H) as (line & num & n & Hrest).
  exists line, num, n. split; [exact H|exact Hrest].
Defined.


(* ===================================================================== *)
(** * What the runs save                                                  *)
(* ===================================================================== *)

Section CsvFacts.

(** The cell of the CSV file holds what the field of the JSON file holds,
    the empty string standing for [None]. *)
Lemma budget_cell_of_flag mp pv :
  budget_cell_of mp pv = match budget_flag mp pv with
                         | Some b => Within b
                         | None => Blank
                         end.
Proof.
  unfold budget_cell_of, budget_flag.
  destruct (opt_float_bool mp && opt_float_bool pv); [|reflexivity].
  destruct pv; [|reflexivity]. destruct mp; reflexivity.
Qed.

Lemma budget_cell_not_over mp pv :
  budget_flag mp pv <> Some false -> budget_cell_of mp pv <> Within false.
Proof.
  intros H. rewrite budget_cell_of_flag.
  destruct (budget_flag mp pv) as [[]|]; try discriminate. contradiction.
Qed.

End CsvFacts.

Section SavedEverywhere.
Context {R : Runtime}.

Lemma noon_search_all_budget self items :
  exists results,
    Noon.search_all self items = Ok results
    /\ forall key data,
         In (key, data) results ->
         Forall (fun p => budget_flag (Noon.data_max_price data) (Noon.price_value p)
                          <> Some false)
                (Noon.data_products data).
Proof.
  unfold Noon.search_all.
  assert (G : forall all_results,
            (forall key data, In (key, data) all_results ->
               Forall (fun p => budget_flag (Noon.data_max_price data) (Noon.price_value p)
                                <> Some false) (Noon.data_products data)) ->
            exists results,
              fold_left (fun acc item =>
                           all_results <- acc ;;
                           results <- Noon.search_item self item ;;
                           Ok (dict_set (Noon.name item)
                                 {| Noon.data_products := results;
                                    Noon.data_max_price := Noon.max_price item |}
                                 all_results))
                        items (Ok all_results) = Ok results
              /\ forall key data, In (key, data) results ->
                   Forall (fun p => budget_flag (Noon.data_max_price data) (Noon.price_value p)
                                    <> Some false) (Noon.data_products data)).
  { induction items as [|item rest IH]; intros all_results Hall; simpl.
    - eauto.
    - destruct (noon_search_item_total self item) as [rs Hrs]. rewrite Hrs. simpl.
      apply IH. intros key data Hin.
      apply dict_set_In in Hin as [->|Hin]; [|eapply Hall; exact Hin].
      simpl. eapply noon_search_item_budget; exact Hrs. }
  apply G. intros key data [].
Qed.

Lemma namshi_search_all_budget self items :
  exists results,
    Namshi.search_all self items = Ok results
    /\ forall key data,
         In (key, data) results ->
         Forall (fun p => budget_flag (Namshi.data_max_price data) (Namshi.price_value p)
                          <> Some false)
                (Namshi.data_products data).
Proof.
  unfold Namshi.search_all.
  assert (G : forall all_results,
            (forall key data, In (key, data) all_results ->
               Forall (fun p => budget_flag (Namshi.data_max_price data) (Namshi.price_value p)
                                <> Some false) (Namshi.data_products data)) ->
            exists results,
              fold_left (fun acc item =>
                           all_results <- acc ;;
                           results <- Namshi.search_item self item ;;
                           Ok (dict_set (Namshi.name item)
                                 {| Namshi.data_products := results;
                                    Namshi.data_max_price := Namshi.max_price item |}
                                 all_results))
                        items (Ok all_results) = Ok results
              /\ forall key data, In (key, data) results ->
                   Forall (fun p => budget_flag (Namshi.data_max_price data)
                                      (Namshi.price_value p)
                                    <> Some false) (Namshi.data_products data)).
  { induction items as [|item rest IH]; intros all_results Hall; simpl.
    - eauto.
    - destruct (namshi_search_item_total self item) as [rs Hrs]. rewrite Hrs. simpl.
      apply IH. intros key data Hin.
      apply dict_set_In in Hin as [->|Hin]; [|eapply Hall; exact Hin].
      simpl. eapply namshi_search_item_budget; exact Hrs. }
  apply G. intros key data [].
Qed.

Lemma noon_saved_searches results key saved :
  In (key, saved) (Noon.save_results results) ->
  exists data,
    In data (List.map snd results)
    /\ saved = {| Noon.max_price_filter := Noon.data_max_price data;
                  Noon.saved_products :=
                    List.map (Noon.save_product (Noon.data_max_price data))
                             (Noon.data_products data) |}.
Proof.
  unfold Noon.save_results. intros H.
  refine (fold_dict_set_values fst
            (fun kv : str * Noon.search_data =>
               {| Noon.max_price_filter := Noon.data_max_price (snd kv);
                  Noon.saved_products :=
                    List.map (Noon.save_product (Noon.data_max_price (snd kv)))
                             (Noon.data_products (snd kv)) |})
            _
            (fun saved => exists data, In data (List.map snd results) /\ saved = _)
            results _ _ [] _ key saved H).
  - intros acc [k d]; reflexivity.
  - intros kv Hkv. exists (snd kv). split; [apply in_map; exact Hkv|reflexivity].
  - intros k v [].
Qed.

Lemma namshi_saved_searches results key saved :
  In (key, saved) (Namshi.save_results results) ->
  exists data,
    In data (List.map snd results)
    /\ saved = {| Namshi.max_price_filter := Namshi.data_max_price data;
                  Namshi.saved_products :=
                    List.map (Namshi.save_product (Namshi.data_max_price data))
                             (Namshi.data_products data) |}.
Proof.
  unfold Namshi.save_results. intros H.
  refine (fold_dict_set_values fst
            (fun kv : str * Namshi.search_data =>
               {| Namshi.max_price_filter := Namshi.data_max_price (snd kv);
                  Namshi.saved_products :=
                    List.map (Namshi.save_product (Namshi.data_max_price (snd kv)))
                             (Namshi.data_products (snd kv)) |})
            _
            (fun saved => exists data, In data (List.map snd results) /\ saved = _)
            results _ _ [] _ key saved H).
  - intros acc [k d]; reflexivity.
  - intros kv Hkv. exists (snd kv). split; [apply in_map; exact Hkv|reflexivity].
  - intros k v [].
Qed.

(** What is saved of results that are not over budget is not flagged so. *)
Lemma noon_saved_not_over results :
  (forall key data, In (key, data) results ->
     Forall (fun p => budget_flag (Noon.data_max_price data) (Noon.price_value p)
                      <> Some false) (Noon.data_products data)) ->
  (forall key saved sp,
      In (key, saved) (Noon.save_results results) ->
      In sp (Noon.saved_products saved) ->
      Noon.within_budget sp <> Some false)
  /\ (forall row,
      In row (Noon.save_results_csv results) ->
      Noon.row_within_budget row <> Within false).
Proof.
  intros Hinv. split.
  - intros key saved sp Hsaved Hsp.
    apply noon_saved_searches in Hsaved as (data & Hdata & ->).
    cbn [Noon.saved_products] in Hsp.
    apply in_map_iff in Hsp as (p & <- & Hp).
    apply in_map_iff in Hdata as ([k d] & <- & Hkd). simpl in *.
    specialize (Hinv k d Hkd). rewrite Forall_forall in Hinv. apply Hinv, Hp.
  - intros row Hrow. unfold Noon.save_results_csv in Hrow.
    apply in_flat_map in Hrow as ([k d] & Hkd & Hrow).
    apply in_map_iff in Hrow as (p & <- & Hp). cbn [Noon.row_within_budget Noon.csv_row_of].
    apply budget_cell_not_over.
    specialize (Hinv k d Hkd). rewrite Forall_forall in Hinv. apply Hinv, Hp.
Qed.

Lemma namshi_saved_not_over results :
  (forall key data, In (key, data) results ->
     Forall (fun p => budget_flag (Namshi.data_max_price data) (Namshi.price_value p)
                      <> Some false) (Namshi.data_products data)) ->
  (forall key saved sp,
      In (key, saved) (Namshi.save_results results) ->
      In sp (Namshi.saved_products saved) ->
      Namshi.within_budget sp <> Some false)
  /\ (forall row,
      In row (Namshi.save_results_csv results) ->
      Namshi.row_within_budget row <> Within false).
Proof.
  intros Hinv. split.
  - intros key saved sp Hsaved Hsp.
    apply namshi_saved_searches in Hsaved as (data & Hdata & ->).
    cbn [Namshi.saved_products] in Hsp.
    apply in_map_iff in Hsp as (p & <- & Hp).
    apply in_map_iff in Hdata as ([k d] & <- & Hkd). simpl in *.
    specialize (Hinv k d Hkd). rewrite Forall_forall in Hinv. apply Hinv, Hp.
  - intros row Hrow. unfold Namshi.save_results_csv in Hrow.
    apply in_flat_map in Hrow as ([k d] & Hkd & Hrow).
    apply in_map_iff in Hrow as (p & <- & Hp).
    cbn [Namshi.row_within_budget Namshi.csv_row_of].
    apply budget_cell_not_over.
    specialize (Hinv k d Hkd). rewrite Forall_forall in Hinv. apply Hinv, Hp.
Qed.

Lemma amazon_csv_not_over results :
  (forall key data, In (key, data) results ->
     Forall (fun p => budget_flag (Amazon.data_max_price data) (Amazon.price_value p)
                      <> Some false) (Amazon.data_products data)) ->
  forall row,
    In row (Amazon.save_results_csv results) ->
    Amazon.row_within_budget row <> Within false.
Proof.
  intros Hinv row Hrow. unfold Amazon.save_results_csv in Hrow.
  apply in_flat_map in Hrow as ([k d] & Hkd & Hrow).
  apply in_map_iff in Hrow as (p & <- & Hp).
  cbn [Amazon.row_within_budget Amazon.csv_row_of].
  apply budget_cell_not_over.
  specialize (Hinv k d Hkd). rewrite Forall_forall in Hinv. apply Hinv, Hp.
Qed.

(** X13.  After the searches of [main], what [save_results] writes for
    noon.com and for namshi.com never has [within_budget] false, and no
    row that [save_results_csv] writes, on any of the three sites, has
    [within_budget] [False]: the cell is [True] or empty. *)
Theorem saved_results_never_over_budget :
  (forall self items,
      exists results,
        Noon.search_all self items = Ok results
        /\ (forall key saved sp,
              In (key, saved) (Noon.save_results results) ->
              In sp (Noon.saved_products saved) ->
              Noon.within_budget sp <> Some false)
        /\ (forall row,
              In row (Noon.save_results_csv results) ->
              Noon.row_within_budget row <> Within false))
  /\ (forall self items,
      exists results,
        Namshi.search_all self items = Ok results
        /\ (forall key saved sp,
              In (key, saved) (Namshi.save_results results) ->
              In sp (Namshi.saved_products saved) ->
              Namshi.within_budget sp <> Some false)
        /\ (forall row,
              In row (Namshi.save_results_csv results) ->
              Namshi.row_within_budget row <> Within false))
  /\ (forall self items,
      exists results,
        Amazon.search_all self items = Ok results
        /\ (forall row,
              In row (Amazon.save_results_csv results) ->
              Amazon.row_within_budget row <> Within false)).
Proof.
  split; [|split]; intros self items.
  - destruct (noon_search_all_budget self items) as (results & Hres & Hinv).
    exists results. split; [exact Hres|]. apply noon_saved_not_over, Hinv.
  - destruct (namshi_search_all_budget self items) as (results & Hres & Hinv).
    exists results. split; [exact Hres|]. apply namshi_saved_not_over, Hinv.
  - destruct (amazon_search_all_budget self items) as (results & Hres & Hinv).
    exists results. split; [exact Hres|]. apply amazon_csv_not_over, Hinv.
Qed.

(** X14.  Whatever the items file, the browser and the arguments, a run of
    [main] of the noon.com scraper that saves results saves none flagged
    over budget, in JSON or in CSV; it saves rows only when a search found
    a product; and it never ends on an exception. *)
Theorem noon_main_saves_within_budget
    (fs : file_system) (env : chrome) (single : option str) (file : str)
    (headless csv : bool) :
  exists out,
    Noon.main fs env single file headless csv = Ok out
    /\ match out with
       | Noon.SavedJson saved =>
         csv = false
         /\ forall key s sp,
              In (key, s) saved -> In sp (Noon.saved_products s) ->
              Noon.within_budget sp <> Some false
       | Noon.SavedCsv rows =>
         csv = true
         /\ rows <> []
         /\ forall row, In row rows -> Noon.row_within_budget row <> Within false
       | Noon.Failed _ => False
       | _ => True
       end.
Proof.
  unfold Noon.main.
  assert (Hitems : exists items,
            (if opt_str_bool single then Noon.single_item (or_default single [])
             else Noon.parse_items_from_file fs file) = Ok items).
  { destruct (opt_str_bool single).
    - unfold Noon.single_item, try_except.
      destruct (contains _ _); [|eexists; reflexivity].
      destruct (List.map _ _) as [|item_name [|price_part rest]];
        try (eexists; reflexivity).
      destruct (float_of_str price_part) as [x|e] eqn:E; cbn [Py.bind];
        [eexists; reflexivity|].
      apply float_of_str_raises in E as ->. eexists; reflexivity.
    - unfold Noon.parse_items_from_file, try_except.
      destruct (fs file) as [lines|e] eqn:Efs; cbn [Py.bind].
      + destruct (parse_lines_appends lines) as [ys Hys]. rewrite Hys.
        eexists; reflexivity.
      + destruct (one_of _ e); eexists; reflexivity. }
  destruct Hitems as [items ->]. cbn [Py.bind].
  destruct (negb (opt_str_bool single) && negb (list_bool items)); [exists Noon.NoItems; auto|].
  destruct (Noon.setup_driver env _) as [ok scraper].
  assert (Hclose : Noon.close scraper = Ok tt).
  { unfold Noon.close, try_except.
    destruct (Noon.driver scraper) as [d|]; [|reflexivity].
    destruct (wd_quit d) as [[]|]; reflexivity. }
  rewrite Hclose. cbn [Py.bind]. unfold try_except.
  destruct ok; cbn [negb]; [|exists Noon.NoBrowser; auto].
  destruct (noon_search_all_budget scraper items) as (results & -> & Hinv). cbn [Py.bind].
  destruct (existsb _ results) eqn:Eany; [|exists Noon.NoResults; auto].
  destruct (noon_saved_not_over results Hinv) as [Hjson Hcsv].
  destruct csv.
  - eexists. split; [reflexivity|]. split; [reflexivity|]. split; [|exact Hcsv].
    apply existsb_exists in Eany as ([k d] & Hkd & Hd). cbn [snd] in Hd.
    destruct (Noon.data_products d) as [|p ps] eqn:Ep; [discriminate|].
    intros Hnil.
    assert (Hin : In (Noon.csv_row_of k (Noon.data_max_price d) p)
                     (Noon.save_results_csv results)).
    { unfold Noon.save_results_csv. apply in_flat_map. exists (k, d).
      split; [exact Hkd|]. rewrite Ep. left; reflexivity. }
    rewrite Hnil in Hin. destruct Hin.
  - eexists. split; [reflexivity|]. split; [reflexivity|exact Hjson].
Qed.

(** X15.  An argument of [--single] that has no blank at either end, is
    not empty and does not begin with [#] gives the item that the same
    text gives as a line of the items file. *)
Theorem single_item_as_file_line (single : str) :
  strip single = single ->
  str_bool single = true ->
  startswith (u "#") single = false ->
  Noon.single_item single = Noon.parse_line [] single.
Proof.
  intros Hstrip Hne Hc. unfold Noon.single_item, Noon.parse_line.
  rewrite Hstrip, Hne, Hc. cbn [negb orb].
  destruct (contains (u ",") single); [|reflexivity].
  destruct (List.map strip (split (u ",") single)) as [|item_name [|price_part rest]];
    reflexivity.
Qed.

End SavedEverywhere.

(** The theorem at work: the row of the mouse found under AED 500. *)
Lemma saved_results_never_over_budget_witness :
  exists results row,
    @Noon.search_all ascii_only mouse_scraper [mouse_under 500] = Ok results
    /\ In row (Noon.save_results_csv results)
    /\ Noon.row_within_budget row = Within true
    /\ Noon.row_within_budget row <> Within false.
Proof.
  destruct (proj1 (@saved_results_never_over_budget ascii_only) mouse_scraper
              [mouse_under 500]) as (results & Hres & _ & Hcsv).
  assert (E : @Noon.search_all ascii_only mouse_scraper [mouse_under 500]
              = Ok results) by exact Hres.
  vm_compute in E. injection E as E.
  exists results. eexists. split; [exact Hres|].
  rewrite <- E in *. split; [left; reflexivity|]. split; [vm_compute; reflexivity|].
  apply Hcsv. left; reflexivity.
Defined.

(** The theorem at work: [--single mouse,500 --csv] on the mouse page. *)
Lemma noon_main_witness :
  exists rows,
    @Noon.main ascii_only (fun _ => Raise FileNotFoundError) (chrome_showing mouse_page)
      (Some (u "mouse,500")) (u "items.txt") true true = Ok (Noon.SavedCsv rows)
    /\ rows <> []
    /\ forall row, In row rows -> Noon.row_within_budget row <> Within false.
Proof.
  destruct (@noon_main_saves_within_budget ascii_only
              (fun _ => Raise FileNotFoundError) (chrome_showing mouse_page)
              (Some (u "mouse,500")) (u "items.txt") true true) as (out & Hout & H).
  rewrite Hout. vm_compute in Hout. injection Hout as <-.
  eexists. split; [reflexivity|]. exact (proj2 H).
Defined.

(** The theorem at work: a lamp under AED 150. *)
Lemma single_item_as_file_line_witness :
  @Noon.single_item ascii_only (u "Desk Lamp,150")
  = @Noon.parse_line ascii_only [] (u "Desk Lamp,150").
Proof.
  apply (@single_item_as_file_line ascii_only); vm_compute; reflexivity.
Defined.


Section UnifiedRuns.
Context {R : Runtime}.

(** What one site gives to the unified code is total and within budget. *)
Lemma unified_site_searches w term mp headless :
  (exists found,
      Unified.noon_search w term mp headless = Ok found
      /\ forall rs, found = Some rs ->
           Forall (fun p => budget_flag mp (Unified.price_value p) <> Some false) rs)
  /\ (exists found,
      Unified.namshi_search w term mp headless = Ok found
      /\ forall rs, found = Some rs ->
           Forall (fun p => budget_flag mp (Unified.price_value p) <> Some false) rs)
  /\ (exists found,
      Unified.amazon_search w term mp headless = Ok found
      /\ forall rs, found = Some rs ->
           Forall (fun p => budget_flag mp (Unified.price_value p) <> Some false) rs).
Proof.
  split; [|split].
  - unfold Unified.noon_search.
    destruct (Noon.setup_driver _ _) as [[] s]; [|exists None; split; [reflexivity|discriminate]].
    destruct (noon_search_item_total s {| Noon.name := term; Noon.max_price := mp |})
      as [rs Hrs]. rewrite Hrs. cbn [Py.bind]. eexists. split; [reflexivity|].
    intros ? [= <-]. apply noon_search_item_budget in Hrs. simpl in Hrs.
    apply Forall_map. exact Hrs.
  - unfold Unified.namshi_search.
    destruct (Namshi.setup_driver _ _) as [[] s]; [|exists None; split; [reflexivity|discriminate]].
    destruct (namshi_search_item_total s {| Namshi.name := term; Namshi.max_price := mp |})
      as [rs Hrs]. rewrite Hrs. cbn [Py.bind]. eexists. split; [reflexivity|].
    intros ? [= <-]. apply namshi_search_item_budget in Hrs. simpl in Hrs.
    apply Forall_map. exact Hrs.
  - unfold Unified.amazon_search.
    destruct (Amazon.setup_driver _ _) as [[] s]; [|exists None; split; [reflexivity|discriminate]].
    destruct (amazon_search_item_total s {| Amazon.name := term; Amazon.max_price := mp |})
      as [rs Hrs]. rewrite Hrs. cbn [Py.bind]. eexists. split; [reflexivity|].
    intros ? [= <-]. apply amazon_search_item_budget in Hrs. simpl in Hrs.
    apply Forall_map. exact Hrs.
Qed.

Lemma unified_saved_not_over now results term csv output :
  (forall key data, In (key, data) results ->
     Forall (fun p => budget_flag (Unified.max_price data) (Unified.price_value p)
                      <> Some false) (Unified.products data)) ->
  not_over_budget csv (Unified.save_results_based_on_format now results term csv output).
Proof.
  intros Hinv. unfold Unified.save_results_based_on_format.
  destruct csv; cbn [not_over_budget]; (split; [reflexivity|]).
  - intros row Hrow. unfold Unified.save_unified_results_csv in Hrow.
    apply in_flat_map in Hrow as ([k d] & Hkd & Hrow).
    apply in_map_iff in Hrow as (p & <- & Hp).
    cbn [Unified.row_within_budget Unified.csv_row_of].
    apply budget_cell_not_over.
    specialize (Hinv k d Hkd). rewrite Forall_forall in Hinv. apply Hinv, Hp.
  - intros key site sp Hsite Hsp.
    apply unified_saved_sites in Hsite as (data & Hdata & ->).
    cbn [Unified.saved_products] in Hsp.
    apply in_map_iff in Hsp as (p & <- & Hp).
    apply in_map_iff in Hdata as ([k d] & <- & Hkd). simpl in *.
    specialize (Hinv k d Hkd). rewrite Forall_forall in Hinv. apply Hinv, Hp.
Qed.

Lemma unified_single_site setup_and_search site_key site_name now args :
  (exists found,
      setup_and_search = Ok found
      /\ forall rs, found = Some rs ->
           Forall (fun p => budget_flag (Unified.arg_max_price args) (Unified.price_value p)
                            <> Some false) rs) ->
  exists out,
    Unified.single_site (Ok tt) setup_and_search site_key site_name now args = Ok out
    /\ match out with
       | Unified.Saved s => not_over_budget (Unified.arg_csv args) s
       | Unified.Nothing => True
       | Unified.Exit _ => False
       end.
Proof.
  intros (found & -> & Hfound). unfold Unified.single_site, try_except. cbn [Py.bind].
  destruct found as [rs|]; [|exists Unified.Nothing; auto].
  eexists. split; [reflexivity|]. apply unified_saved_not_over.
  intros key data [[= <- <-]|[]]. cbn [Unified.max_price Unified.products].
  apply Hfound. reflexivity.
Qed.

(** X16.  With the scraper modules importable, a run of the unified [main]
    never ends on an exception nor on [sys.exit]; what it saves, for one
    site or for all, in JSON or in CSV, has no product flagged over budget;
    it saves nothing only in a single-site run.  When the import fails it
    exits with status 1 in a run over all sites and returns quietly in a
    single-site run. *)
Theorem unified_main_never_saves_over_budget
    (w : Unified.world) (now : str) (args : Unified.arguments) :
  (exists out,
      Unified.main (Ok tt) w now args = Ok out
      /\ match out with
         | Unified.Saved s => not_over_budget (Unified.arg_csv args) s
         | Unified.Nothing =>
           Unified.arg_noon_only args || Unified.arg_namshi_only args
           || Unified.arg_amazon_only args = true
         | Unified.Exit _ => False
         end)
  /\ Unified.main (Raise ImportError) w now args
     = Ok (if Unified.arg_noon_only args || Unified.arg_namshi_only args
              || Unified.arg_amazon_only args
           then Unified.Nothing else Unified.Exit 1).
Proof.
  destruct (unified_site_searches w (Unified.arg_search_term args)
              (Unified.arg_max_price args) (Unified.arg_headless args))
    as (Hnoon & Hnamshi & Hamazon).
  split.
  - unfold Unified.main.
    destruct (Unified.arg_noon_only args); cbn [orb].
    { destruct (unified_single_site _ (u "noon") (u "Noon.com") now args Hnoon)
        as (out & -> & Hout).
      exists out. split; [reflexivity|]. destruct out; auto. }
    destruct (Unified.arg_namshi_only args); cbn [orb].
    { destruct (unified_single_site _ (u "namshi") (u "Namshi.com") now args Hnamshi)
        as (out & -> & Hout).
      exists out. split; [reflexivity|]. destruct out; auto. }
    destruct (Unified.arg_amazon_only args); cbn [orb].
    { destruct (unified_single_site _ (u "amazon") (u "Amazon.ae") now args Hamazon)
        as (out & -> & Hout).
      exists out. split; [reflexivity|]. destruct out; auto. }
    destruct (Unified.search_all_sites (Ok tt) w (Unified.arg_search_term args)
                (Unified.arg_max_price args) (Unified.arg_headless args))
      as [results|e] eqn:E.
    + cbn [Py.bind].
      pose proof (unified_search_all_sites_budget _ _ _ _ _ _ E) as Hinv.
      assert (Hne : list_bool results = true).
      { destruct (noon_outcome w (Unified.arg_search_term args)
                    (Unified.arg_max_price args) (Unified.arg_headless args))
          as (noon & Hn & _).
        destruct (namshi_outcome w (Unified.arg_search_term args)
                    (Unified.arg_max_price args) (Unified.arg_headless args))
          as (namshi & Hm & _).
        destruct (amazon_outcome w (Unified.arg_search_term args)
                    (Unified.arg_max_price args) (Unified.arg_headless args))
          as (amazon & Ha & _).
        unfold Unified.search_all_sites, try_except in E. cbn [Py.bind] in E.
        rewrite Hn, Hm, Ha in E. injection E as <-. reflexivity. }
      rewrite Hne. eexists. split; [reflexivity|].
      apply unified_saved_not_over, Hinv.
    + exfalso.
      destruct (noon_outcome w (Unified.arg_search_term args)
                  (Unified.arg_max_price args) (Unified.arg_headless args))
        as (noon & Hn & _).
      destruct (namshi_outcome w (Unified.arg_search_term args)
                  (Unified.arg_max_price args) (Unified.arg_headless args))
        as (namshi & Hm & _).
      destruct (amazon_outcome w (Unified.arg_search_term args)
                  (Unified.arg_max_price args) (Unified.arg_headless args))
        as (amazon & Ha & _).
      unfold Unified.search_all_sites, try_except in E. cbn [Py.bind] in E.
      discriminate E.
  - unfold Unified.main, Unified.single_site.
    destruct (Unified.arg_noon_only args); [reflexivity|].
    destruct (Unified.arg_namshi_only args); [reflexivity|].
    destruct (Unified.arg_amazon_only args); reflexivity.
Qed.

End UnifiedRuns.

(** The theorem at work: the mouse found on noon.com alone, saved as CSV. *)
Lemma unified_main_witness :
  exists output_file rows,
    @Unified.main ascii_only (Ok tt) noon_only_world (u "2025-01-01 00:00:00")
      mouse_arguments = Ok (Unified.Saved (Unified.SavedCsv output_file rows))
    /\ output_file = u "unified_search_mouse.csv"
    /\ rows <> []
    /\ forall row, In row rows -> Unified.row_within_budget row <> Within false.
Proof.
  destruct (proj1 (@unified_main_never_saves_over_budget ascii_only noon_only_world
                     (u "2025-01-01 00:00:00") mouse_arguments)) as (out & Hout & H).
  rewrite Hout. vm_compute in Hout. injection Hout as <-.
  eexists. eexists. split; [reflexivity|]. split; [reflexivity|].
  split; [discriminate|exact (proj2 H)].
Defined.


Section FileNames.
Context {R : Runtime}.

Lemma lstrip_In c s : In c (lstrip s) -> In c s.
Proof.
  induction s as [|x r IH]; cbn [lstrip]; [auto|].
  destruct (isspace x); [intros H; right; apply IH, H|auto].
Qed.

Lemma strip_In c s : In c (strip s) -> In c s.
Proof.
  unfold strip, rstrip. intros H.
  apply in_rev, lstrip_In in H. apply in_rev in H. apply lstrip_In, H.
Qed.

Lemma replace_char_In a b c s :
  In c (replace [a] [b] s) -> c = b \/ (In c s /\ c <> a).
Proof.
  unfold replace.
  induction s as [|x r IH]; cbn [replace_go startswith]; [intros []|].
  destruct (a =? x) eqn:E; cbn [andb app List.length pred].
  - intros [<-|H]; [left; reflexivity|].
    destruct (IH H) as [->|[Hin Hne]]; [left; reflexivity|right; split; [right|]; auto].
  - apply Z.eqb_neq in E.
    intros [<-|H]; [right; split; [left; reflexivity|congruence]|].
    destruct (IH H) as [->|[Hin Hne]]; [left; reflexivity|right; split; [right|]; auto].
Qed.

Lemma safe_search_term_chars search_term c :
  In c (Unified.safe_search_term search_term) ->
  (isalnum_char c = true \/ c = 45 \/ c = 95) /\ c <> 32.
Proof.
  unfold Unified.safe_search_term. change (u " ") with [32]. change (u "_") with [95].
  intros H. apply replace_char_In in H as [->|[H Hne]].
  - split; [auto|discriminate].
  - split; [|exact Hne]. apply strip_In, filter_In in H as [_ H].
    cbn [existsb] in H. zbool; auto; try contradiction; discriminate.
Qed.

(** X17.  Without [--output], the file a run of the unified scraper
    writes to has a plain name: whatever the search term, its characters
    are letters, digits, hyphens, underscores and the point of the
    extension, so it has no blank and no path separator. *)
Theorem default_output_file_is_plain_name
    (now : str) (results : dict Unified.site_data) (search_term : str)
    (csv : bool) (output : option str) (c : Z) :
  opt_str_bool output = false ->
  In c (saved_file (Unified.save_results_based_on_format now results search_term
                      csv output)) ->
  (isalnum_char c = true \/ c = 45 \/ c = 95 \/ c = 46)
  /\ c <> 32 /\ c <> 47 /\ c <> 92.
Proof.
  intros Hout. unfold Unified.save_results_based_on_format.
  rewrite Hout.
  assert (G : forall ext,
             Forall (fun c => isalnum_char c = true \/ c = 46) ext ->
             In c (u "unified_search_" ++ Unified.safe_search_term search_term ++ ext) ->
             (isalnum_char c = true \/ c = 45 \/ c = 95 \/ c = 46)
             /\ c <> 32 /\ c <> 47 /\ c <> 92).
  { intros ext Hext H.
    assert (Hc : isalnum_char c = true \/ c = 45 \/ c = 95 \/ c = 46).
    { apply in_app_or in H as [H|H].
      - assert (F : Forall (fun c => isalnum_char c = true \/ c = 95)
                           (u "unified_search_")).
        { repeat (constructor; [first [left; reflexivity|right; reflexivity]|]).
          constructor. }
        rewrite Forall_forall in F. destruct (F c H); auto.
      - apply in_app_or in H as [H|H].
        + apply safe_search_term_chars in H as [[H|[H|H]] _]; auto.
        + rewrite Forall_forall in Hext. destruct (Hext c H); auto. }
    split; [exact Hc|].
    repeat split; intros ->;
      destruct Hc as [Hc|[Hc|[Hc|Hc]]]; discriminate Hc. }
  destruct csv; cbn [saved_file]; unfold Unified.csv_output_file, Unified.json_output_file;
    cbn [opt_str_bool negb]; apply G;
    repeat (constructor; [first [left; reflexivity|right; reflexivity]|]);
    constructor.
Qed.

End FileNames.

(** The theorem at work: a search term with blanks and a slash. *)
Lemma default_output_file_witness :
  @opt_str_bool None = false
  /\ In 95 (saved_file (@Unified.save_results_based_on_format ascii_only
                          (u "2024-01-01 10:00:00") [] (u "usb-c cable / 2m") false None))
  /\ 95 <> 47.
Proof.
  split; [reflexivity|]. split; [vm_compute; tauto|].
  apply (@default_output_file_is_plain_name ascii_only
           (u "2024-01-01 10:00:00") [] (u "usb-c cable / 2m") false None 95).
  - reflexivity.
  - vm_compute. tauto.
Defined.
